(** * Football chatbot: the query-to-endpoint resolution layer of [app.py]

    A shallow embedding of the functions of [app.py] that decide how a
    query is answered: [parse_date_from_query], [format_matches_data],
    [handle_date_based_query], [ask_gemini_for_endpoint],
    [make_football_api_call], [format_response_with_gemini] and
    [chatbot_response], followed by the properties stated about them.

    Conventions.
    - Text is [string]: one [ascii] per character.  Case mapping, digits and
      white space are those of the ASCII range, on which Python's [str]
      methods and [re] classes agree with the definitions below.
    - The library functions the program calls ([str.lower], [str.replace],
      [re.search] on the patterns that occur, [datetime.strptime] and
      [strftime] on the formats that occur, [json.dumps], [str] and [repr])
      are written out in the modules [PyStr], [Datetime], [Re] and [Json];
      [json.loads] is a parameter of the Endpoint Resolver.
    - An exception is a value of [exn]; a function that can raise returns a
      [res].
    - The two remote services are collaborators: a computation that talks
      to them is a tree of requests ([prog]), and [run] plays it against a
      [world], which answers each request knowing the requests made before.
      The clock is the argument [now]. *)

From Stdlib Require Import String Ascii List ZArith NArith Lia Bool.
Import ListNotations.

Local Open Scope string_scope.
Local Open Scope Z_scope.

(* ================================================================== *)
(** ** Python [str] operations *)

Module PyStr.

Definition code (c : ascii) : N := N_of_ascii c.

Definition is_upper (c : ascii) : bool := (65 <=? code c)%N && (code c <=? 90)%N.
Definition is_lower (c : ascii) : bool := (97 <=? code c)%N && (code c <=? 122)%N.
Definition is_digit (c : ascii) : bool := (48 <=? code c)%N && (code c <=? 57)%N.

(** [\s] of [re] on a [str] pattern, which is [str.isspace]: TAB, LF, VT,
    FF, CR, the separators 0x1c..0x1f and the blank. *)
Definition is_space (c : ascii) : bool :=
  ((9 <=? code c)%N && (code c <=? 13)%N)
  || ((28 <=? code c)%N && (code c <=? 32)%N).

Definition lower_char (c : ascii) : ascii :=
  if is_upper c then ascii_of_N (code c + 32) else c.
Definition upper_char (c : ascii) : ascii :=
  if is_lower c then ascii_of_N (code c - 32) else c.

(** [s.lower()] and [s.upper()] *)
Fixpoint lower (s : string) : string :=
  match s with
  | EmptyString => EmptyString
  | String c r => String (lower_char c) (lower r)
  end.

Fixpoint upper (s : string) : string :=
  match s with
  | EmptyString => EmptyString
  | String c r => String (upper_char c) (upper r)
  end.

(** [len(s)] *)
Definition len (s : string) : Z := Z.of_nat (String.length s).

(** [s.startswith(p)] *)
Definition startswith (s p : string) : bool := String.prefix p s.

(** [needle in hay] *)
Fixpoint contains (needle hay : string) : bool :=
  String.prefix needle hay
  || match hay with
     | EmptyString => false
     | String _ r => contains needle r
     end.

(** [s[:n]] for [n >= 0] *)
Fixpoint take (n : nat) (s : string) : string :=
  match n, s with
  | S k, String c r => String c (take k r)
  | _, _ => EmptyString
  end.

Fixpoint drop (n : nat) (s : string) : string :=
  match n, s with
  | S k, String _ r => drop k r
  | _, _ => s
  end.

(** [s.replace(old, new)] for a non-empty [old]: the occurrences of [old]
    are found from the left and do not overlap.  [skip] counts the
    characters of the occurrence just replaced that are still to be passed. *)
Fixpoint replace_from (skip : nat) (old new s : string) : string :=
  match s with
  | EmptyString => EmptyString
  | String c r =>
      match skip with
      | S k => replace_from k old new r
      | O =>
          if String.prefix old s
          then new ++ replace_from (String.length old - 1) old new r
          else String c (replace_from 0 old new r)
      end
  end.

Definition replace (s old new : string) : string := replace_from 0 old new s.

(** Decimal text of an integer, [str(n)]. *)
Definition digit_char (n : Z) : ascii := ascii_of_N (48 + Z.to_N (n mod 10)).

Fixpoint digits_fuel (fuel : nat) (n : Z) (acc : string) : string :=
  match fuel with
  | O => acc
  | S k =>
      let acc' := String (digit_char n) acc in
      if n <? 10 then acc' else digits_fuel k (n / 10) acc'
  end.

Definition str_of_Z (n : Z) : string :=
  if n <? 0
  then String "-" (digits_fuel (S (Z.to_nat (Z.log2 (- n)))) (- n) EmptyString)
  else digits_fuel (S (Z.to_nat (Z.log2 n))) n EmptyString.

Definition digit_val (c : ascii) : Z := Z.of_N (code c) - 48.

End PyStr.

(* ================================================================== *)
(** ** [datetime]: calendar dates, [timedelta(days=n)], [strftime], [strptime] *)

Module Datetime.
Import PyStr.

Record date := mkdate { year : Z; month : Z; day : Z }.

Definition is_leap (y : Z) : bool :=
  ((y mod 4 =? 0) && negb (y mod 100 =? 0)) || (y mod 400 =? 0).

Definition days_in_month (y m : Z) : Z :=
  if (m =? 2) then (if is_leap y then 29 else 28)
  else if (m =? 4) || (m =? 6) || (m =? 9) || (m =? 11) then 30
  else 31.

(** What the constructor [datetime(year, month, day)] accepts. *)
Definition valid_date (d : date) : bool :=
  (1 <=? year d) && (year d <=? 9999)
  && (1 <=? month d) && (month d <=? 12)
  && (1 <=? day d) && (day d <=? days_in_month (year d) (month d)).

Definition next_day (d : date) : date :=
  if day d <? days_in_month (year d) (month d)
  then mkdate (year d) (month d) (day d + 1)
  else if month d <? 12 then mkdate (year d) (month d + 1) 1
  else mkdate (year d + 1) 1 1.

Definition prev_day (d : date) : date :=
  if 1 <? day d then mkdate (year d) (month d) (day d - 1)
  else if 1 <? month d
       then mkdate (year d) (month d - 1) (days_in_month (year d) (month d - 1))
       else mkdate (year d - 1) 12 31.

(** [d + timedelta(days=n)].  The clock's date lies strictly inside the
    range of [datetime], so the sum does not leave it. *)
Definition add_days (d : date) (n : Z) : date :=
  if 0 <=? n then Nat.iter (Z.to_nat n) next_day d
  else Nat.iter (Z.to_nat (- n)) prev_day d.

Definition two_digits (n : Z) : string :=
  String (digit_char (n / 10)) (String (digit_char n) EmptyString).

Definition four_digits (n : Z) : string :=
  String (digit_char (n / 1000)) (String (digit_char (n / 100)) (two_digits n)).

(** [d.strftime("%Y-%m-%d")], with the year in four digits as the format
    table of the library documents it (0001, ..., 9999); a C library that
    does not pad writes a year below 1000 in fewer digits. *)
Definition strftime_ymd (d : date) : string :=
  four_digits (year d) ++ "-" ++ two_digits (month d) ++ "-" ++ two_digits (day d).

(** *** [strptime]

    [_strptime] turns the format into a regular expression, matches it at
    the start of the text, refuses text that is left over, and builds the
    date.  The directives that occur in [app.py]: *)
Inductive directive :=
| DirY                (* %Y  \d\d\d\d *)
| Diry                (* %y  \d\d *)
| Dirm                (* %m  1[0-2]|0[1-9]|[1-9] *)
| Dird                (* %d  3[0-1]|[1-2]\d|0[1-9]|[1-9]| [1-9] *)
| Lit (c : ascii).

Fixpoint compile_format (fmt : string) : list directive :=
  match fmt with
  | EmptyString => []
  | String "%" (String "Y" r) => DirY :: compile_format r
  | String "%" (String "y" r) => Diry :: compile_format r
  | String "%" (String "m" r) => Dirm :: compile_format r
  | String "%" (String "d" r) => Dird :: compile_format r
  | String c r => Lit c :: compile_format r
  end.

(** The fields found so far; [strptime] starts from 1900-01-01. *)
Record fields := mkfields { f_year : Z; f_month : Z; f_day : Z }.
Definition no_fields : fields := mkfields 1900 1 1.

Definition in_range (lo hi : Z) (c : ascii) : bool :=
  is_digit c && (lo <=? digit_val c) && (digit_val c <=? hi).

(** One alternative of a directive: two characters [a b] with [a] and [b]
    in the given ranges, or one character. *)
Definition alt2 (pa pb : ascii -> bool) (s : string) : list (Z * string) :=
  match s with
  | String a (String b r) =>
      if pa a && pb b then [(10 * digit_val a + digit_val b, r)] else []
  | _ => []
  end.

Definition alt1 (pa : ascii -> bool) (s : string) : list (Z * string) :=
  match s with
  | String a r => if pa a then [(digit_val a, r)] else []
  | _ => []
  end.

Definition blank_digit (s : string) : list (Z * string) :=
  match s with
  | String " " (String b r) => if in_range 1 9 b then [(digit_val b, r)] else []
  | _ => []
  end.

Definition four_digit_year (s : string) : list (Z * string) :=
  match s with
  | String a (String b (String c (String d r))) =>
      if is_digit a && is_digit b && is_digit c && is_digit d
      then [(1000 * digit_val a + 100 * digit_val b + 10 * digit_val c + digit_val d, r)]
      else []
  | _ => []
  end.

(** The ways a directive matches at the head of [s], in the order the
    regular expression tries them. *)
Definition alternatives (d : directive) (s : string) : list (Z * string) :=
  match d with
  | DirY => four_digit_year s
  | Diry => alt2 is_digit is_digit s
  | Dirm =>
      alt2 (in_range 1 1) (in_range 0 2) s
      ++ alt2 (in_range 0 0) (in_range 1 9) s
      ++ alt1 (in_range 1 9) s
  | Dird =>
      alt2 (in_range 3 3) (in_range 0 1) s
      ++ alt2 (in_range 1 2) is_digit s
      ++ alt2 (in_range 0 0) (in_range 1 9) s
      ++ alt1 (in_range 1 9) s
      ++ blank_digit s
  | Lit _ => []
  end%list.

Definition set_field (d : directive) (v : Z) (f : fields) : fields :=
  match d with
  | DirY => mkfields v (f_month f) (f_day f)
  | Diry => mkfields (if v <=? 68 then v + 2000 else v + 1900) (f_month f) (f_day f)
  | Dirm => mkfields (f_year f) v (f_day f)
  | Dird => mkfields (f_year f) (f_month f) v
  | Lit _ => f
  end.

Fixpoint first_success {A B : Type} (k : A -> option B) (l : list A) : option B :=
  match l with
  | [] => None
  | a :: l' => match k a with Some b => Some b | None => first_success k l' end
  end.

(** [re.match] of the compiled format: the first match in backtracking
    order, with the text that follows it. *)
Fixpoint match_format (ds : list directive) (s : string) (f : fields)
  : option (fields * string) :=
  match ds with
  | [] => Some (f, s)
  | Lit c :: ds' =>
      match s with
      | String c' r =>
          if Ascii.eqb (lower_char c) (lower_char c') then match_format ds' r f else None
      | EmptyString => None
      end
  | d :: ds' =>
      first_success (fun vr => match_format ds' (snd vr) (set_field d (fst vr) f))
                    (alternatives d s)
  end.

(** [datetime.strptime(s, fmt)]; [None] stands for [ValueError]. *)
Definition strptime (s fmt : string) : option date :=
  match match_format (compile_format fmt) s no_fields with
  | Some (f, EmptyString) =>
      let d := mkdate (f_year f) (f_month f) (f_day f) in
      if valid_date d then Some d else None
  | _ => None
  end.

End Datetime.

(* ================================================================== *)
(** ** [re.search] on the patterns of [app.py] *)

Module Re.
Import PyStr.

(** The date patterns are sequences of [\d] and literal characters. *)
Inductive atom := Digit | Chr (c : ascii).

Definition atom_ok (a : atom) (c : ascii) : bool :=
  match a with
  | Digit => is_digit c
  | Chr c' => Ascii.eqb c' c
  end.

(** The text a pattern matches at the head of [s]. *)
Fixpoint match_here (p : list atom) (s : string) : option string :=
  match p with
  | [] => Some EmptyString
  | a :: p' =>
      match s with
      | String c r =>
          if atom_ok a c
          then option_map (String c) (match_here p' r)
          else None
      | EmptyString => None
      end
  end.

(** [re.search(p, s).group(1)] for a pattern that is one group: the
    leftmost match. *)
Fixpoint search (p : list atom) (s : string) : option string :=
  match match_here p s with
  | Some m => Some m
  | None =>
      match s with
      | EmptyString => None
      | String _ r => search p r
      end
  end.

Definition digits (n : nat) : list atom := repeat Digit n.

(** The suffixes of [s] that a greedy [\s*] can leave, longest run of white
    space first. *)
Fixpoint after_spaces (s : string) : list string :=
  match s with
  | EmptyString => [s]
  | String c r => if is_space c then (after_spaces r ++ [s])%list else [s]
  end.

Definition fence : string := "```".

(** [\s*```] at the head of [s] *)
Definition closes_here (s : string) : bool :=
  existsb (String.prefix fence) (after_spaces s).

(** [(.*?)\s*```] at the head of [s] under [re.DOTALL]: the shortest group. *)
Fixpoint lazy_group (s : string) : option string :=
  if closes_here s then Some EmptyString
  else match s with
       | EmptyString => None
       | String c r => option_map (String c) (lazy_group r)
       end.

Fixpoint first_group (l : list string) : option string :=
  match l with
  | [] => None
  | s :: l' => match lazy_group s with Some g => Some g | None => first_group l' end
  end.

(** [```json\s*(.*?)\s*```] at the head of [s] *)
Definition fenced_here (s : string) : option string :=
  if String.prefix (fence ++ "json") s
  then first_group (after_spaces (drop 7 s))
  else None.

(** [re.search(r'```json\s*(.*?)\s*```', s, re.DOTALL).group(1)] *)
Fixpoint search_fenced (s : string) : option string :=
  match fenced_here s with
  | Some g => Some g
  | None =>
      match s with
      | EmptyString => None
      | String _ r => search_fenced r
      end
  end.

(** The longest prefix of [s] that ends in a closing brace. *)
Fixpoint upto_last_brace (s : string) : option string :=
  match s with
  | EmptyString => None
  | String c r =>
      match upto_last_brace r with
      | Some g => Some (String c g)
      | None => if Ascii.eqb c "}" then Some (String c EmptyString) else None
      end
  end.

(** [re.search(r'({.*})', s, re.DOTALL).group(1)]: from the first opening
    brace that has a closing one after it to the last closing brace. *)
Fixpoint search_braces (s : string) : option string :=
  match s with
  | EmptyString => None
  | String c r =>
      if Ascii.eqb c "{"
      then match upto_last_brace r with
           | Some g => Some (String c g)
           | None => search_braces r
           end
      else search_braces r
  end.

End Re.

(* ================================================================== *)
(** ** Python values, exceptions and [json.dumps] *)

Module Json.
Import PyStr.

(** What [json.loads] and [response.json()] return: [None], [bool], [int],
    [str], [list] and [dict] (a [dict] keeps its keys in insertion order).
    The payloads of this program carry no fractional numbers. *)
#[warnings="-register-all"]
Inductive json :=
| JNull
| JBool (b : bool)
| JInt (n : Z)
| JStr (s : string)
| JArr (l : list json)
| JObj (kv : list (string * json)).

(** The exceptions the program meets; the text is [str(e)]. *)
Inductive exn :=
| KeyError (key : string)
| TypeError (msg : string)
| AttributeError (msg : string)
| ValueError (msg : string)       (* also json.JSONDecodeError *)
| RequestException (msg : string) (* requests: transport failure *)
| HTTPError (msg : string).       (* requests: raise_for_status *)

Inductive res (A : Type) :=
| Ok (a : A)
| Raise (e : exn).
Arguments Ok {A} a.
Arguments Raise {A} e.

Definition bind {A B : Type} (r : res A) (k : A -> res B) : res B :=
  match r with
  | Ok a => k a
  | Raise e => Raise e
  end.

Definition type_name (j : json) : string :=
  match j with
  | JNull => "NoneType"
  | JBool _ => "bool"
  | JInt _ => "int"
  | JStr _ => "str"
  | JArr _ => "list"
  | JObj _ => "dict"
  end.

(** [bool(j)] *)
Definition truthy (j : json) : bool :=
  match j with
  | JNull => false
  | JBool b => b
  | JInt n => negb (n =? 0)
  | JStr s => negb (String.eqb s "")
  | JArr l => match l with [] => false | _ => true end
  | JObj kv => match kv with [] => false | _ => true end
  end.

Fixpoint lookup (k : string) (kv : list (string * json)) : option json :=
  match kv with
  | [] => None
  | (k', v) :: r => if String.eqb k k' then Some v else lookup k r
  end.

(** [d[k] = v] *)
Fixpoint dict_set (k : string) (v : json) (kv : list (string * json))
  : list (string * json) :=
  match kv with
  | [] => [(k, v)]
  | (k', v') :: r =>
      if String.eqb k k' then (k, v) :: r else (k', v') :: dict_set k v r
  end.

Definition is_str (s : string) (j : json) : bool :=
  match j with
  | JStr s' => String.eqb s s'
  | _ => false
  end.

(** [k in j] for a [str] [k] *)
Definition has (k : string) (j : json) : res bool :=
  match j with
  | JObj kv => Ok (match lookup k kv with Some _ => true | None => false end)
  | JArr l => Ok (existsb (is_str k) l)
  | JStr s => Ok (contains k s)
  | _ => Raise (TypeError ("argument of type '" ++ type_name j ++ "' is not iterable"))
  end.

Definition quote : string := String (ascii_of_N 34) EmptyString.
Definition backslash : string := String (ascii_of_N 92) EmptyString.

Definition hex_digit (n : N) : ascii :=
  if (n <? 10)%N then ascii_of_N (48 + n) else ascii_of_N (87 + n).

Definition hex2 (c : ascii) : string :=
  String (hex_digit (code c / 16)) (String (hex_digit (code c mod 16)) EmptyString).

(** [repr(s)] of a [str] *)
Definition repr_char (q : ascii) (c : ascii) : string :=
  if Ascii.eqb c q then backslash ++ String q EmptyString
  else if (code c =? 92)%N then backslash ++ backslash
  else if (code c =? 9)%N then backslash ++ "t"
  else if (code c =? 10)%N then backslash ++ "n"
  else if (code c =? 13)%N then backslash ++ "r"
  else if (code c <? 32)%N || (code c =? 127)%N then backslash ++ "x" ++ hex2 c
  else String c EmptyString.

Fixpoint repr_chars (q : ascii) (s : string) : string :=
  match s with
  | EmptyString => EmptyString
  | String c r => repr_char q c ++ repr_chars q r
  end.

Definition repr_str (s : string) : string :=
  let q := if contains "'" s && negb (contains quote s) then ascii_of_N 34 else "'"%char in
  String q (repr_chars q s ++ String q EmptyString).

(** [repr(j)] *)
Fixpoint repr (j : json) : string :=
  match j with
  | JNull => "None"
  | JBool true => "True"
  | JBool false => "False"
  | JInt n => str_of_Z n
  | JStr s => repr_str s
  | JArr l => "[" ++ String.concat ", " (map repr l) ++ "]"
  | JObj kv =>
      "{" ++ String.concat ", " (map (fun '(k, v) => repr_str k ++ ": " ++ repr v) kv) ++ "}"
  end.

(** [str(j)], which an f-string applies to what it embeds *)
Definition str (j : json) : string :=
  match j with
  | JStr s => s
  | _ => repr j
  end.

(** [str(e)] *)
Definition str_exn (e : exn) : string :=
  match e with
  | KeyError k => repr_str k
  | TypeError m | AttributeError m | ValueError m
  | RequestException m | HTTPError m => m
  end.

(** [j[k]] for a [str] [k] *)
Definition getitem (j : json) (k : string) : res json :=
  match j with
  | JObj kv =>
      match lookup k kv with
      | Some v => Ok v
      | None => Raise (KeyError k)
      end
  | JArr _ => Raise (TypeError "list indices must be integers or slices, not str")
  | JStr _ => Raise (TypeError "string indices must be integers, not 'str'")
  | _ => Raise (TypeError ("'" ++ type_name j ++ "' object is not subscriptable"))
  end.

(** [for x in j] *)
Definition iter (j : json) : res (list json) :=
  match j with
  | JArr l => Ok l
  | JObj kv => Ok (map (fun kv => JStr (fst kv)) kv)
  | JStr s => Ok (map (fun c => JStr (String c EmptyString)) (list_ascii_of_string s))
  | _ => Raise (TypeError ("'" ++ type_name j ++ "' object is not iterable"))
  end.

Definition no_attribute (j : json) (a : string) : exn :=
  AttributeError ("'" ++ type_name j ++ "' object has no attribute '" ++ a ++ "'").

(** A string of a JSON text, as [json.dumps(..., ensure_ascii=False)]
    writes it. *)
Definition dumps_char (c : ascii) : string :=
  if (code c =? 34)%N then backslash ++ quote
  else if (code c =? 92)%N then backslash ++ backslash
  else if (code c =? 10)%N then backslash ++ "n"
  else if (code c =? 13)%N then backslash ++ "r"
  else if (code c =? 9)%N then backslash ++ "t"
  else if (code c =? 8)%N then backslash ++ "b"
  else if (code c =? 12)%N then backslash ++ "f"
  else if (code c <? 32)%N then backslash ++ "u00" ++ hex2 c
  else String c EmptyString.

Fixpoint dumps_chars (s : string) : string :=
  match s with
  | EmptyString => EmptyString
  | String c r => dumps_char c ++ dumps_chars r
  end.

Definition dumps_str (s : string) : string := quote ++ dumps_chars s ++ quote.

(** [json.dumps(j, ensure_ascii=False)] *)
Fixpoint dumps (j : json) : string :=
  match j with
  | JNull => "null"
  | JBool true => "true"
  | JBool false => "false"
  | JInt n => str_of_Z n
  | JStr s => dumps_str s
  | JArr l => "[" ++ String.concat ", " (map dumps l) ++ "]"
  | JObj kv =>
      "{" ++ String.concat ", " (map (fun '(k, v) => dumps_str k ++ ": " ++ dumps v) kv) ++ "}"
  end.

End Json.

Import PyStr Datetime Json.

(* ================================================================== *)
(** ** The tables of [app.py] *)

(** [COMPETITION_CODES] *)
Definition COMPETITION_CODES : list (string * string) :=
  [ ("premier league", "PL");
    ("la liga", "PD");
    ("bundesliga", "BL1");
    ("serie a", "SA");
    ("ligue 1", "FL1");
    ("eredivisie", "DED");
    ("primeira liga", "PPL");
    ("championship", "ELC");
    ("champions league", "CL");
    ("uefa champions league", "CL");
    ("europa league", "EL");
    ("uefa europa league", "EL");
    ("world cup", "WC");
    ("fifa world cup", "WC");
    ("european championship", "EC");
    ("uefa european championship", "EC");
    ("copa libertadores", "CLI") ].

(** [STATUS_MAPPING] *)
Definition STATUS_MAPPING : list (string * string) :=
  [ ("scheduled", "SCHEDULED");
    ("live", "LIVE");
    ("in play", "IN_PLAY");
    ("paused", "PAUSED");
    ("finished", "FINISHED");
    ("postponed", "POSTPONED");
    ("suspended", "SUSPENDED");
    ("cancelled", "CANCELLED") ].

(** [TIME_KEYWORDS]; the loops over [TIME_KEYWORDS.items()] visit the
    entries in this order. *)
Definition TIME_KEYWORDS : list (string * Z) :=
  [ ("yesterday", -1); ("today", 0); ("tomorrow", 1) ].

(** [k in table] and [table[k]] on the two string tables *)
Fixpoint table_get (k : string) (table : list (string * string)) : option string :=
  match table with
  | [] => None
  | (k', v) :: r => if String.eqb k k' then Some v else table_get k r
  end.

(* ================================================================== *)
(** ** Date Extractor: [parse_date_from_query] *)

(** The list [date_patterns], each pattern with the format its branch of the
    [if]/[elif] chain parses the match with. *)
Definition date_patterns : list (list Re.atom * string) :=
  [ (Re.digits 4 ++ [Re.Chr "-"] ++ Re.digits 2 ++ [Re.Chr "-"] ++ Re.digits 2, "%Y-%m-%d");
    (Re.digits 2 ++ [Re.Chr "-"] ++ Re.digits 2 ++ [Re.Chr "-"] ++ Re.digits 4, "%d-%m-%Y");
    (Re.digits 2 ++ [Re.Chr "/"] ++ Re.digits 2 ++ [Re.Chr "/"] ++ Re.digits 4, "%d/%m/%Y");
    (Re.digits 2 ++ [Re.Chr "/"] ++ Re.digits 2 ++ [Re.Chr "/"] ++ Re.digits 2, "%d/%m/%y") ]%list.

(** [for keyword, days_offset in TIME_KEYWORDS.items(): if keyword in text] *)
Fixpoint first_keyword (keywords : list (string * Z)) (text : string)
  : option (string * Z) :=
  match keywords with
  | [] => None
  | (keyword, days_offset) :: rest =>
      if contains keyword text then Some (keyword, days_offset)
      else first_keyword rest text
  end.

(** One turn of [for pattern in date_patterns]: the first match of the
    pattern, parsed under the pattern's format; [None] is [continue]. *)
Definition try_pattern (query : string) (p : list Re.atom * string) : option date :=
  match Re.search (fst p) query with
  | Some date_str => strptime date_str (snd p)
  | None => None
  end.

Fixpoint scan_patterns (patterns : list (list Re.atom * string)) (query : string)
  : option date :=
  match patterns with
  | [] => None
  | p :: rest =>
      match try_pattern query p with
      | Some date => Some date
      | None => scan_patterns rest query
      end
  end.

(** [parse_date_from_query(query)] with the clock reading [now];
    [(None, None)] is [None]. *)
Definition parse_date_from_query (now : date) (query : string)
  : option (string * string) :=
  let query_lower := lower query in
  match first_keyword TIME_KEYWORDS query_lower with
  | Some (_, days_offset) =>
      Some (strftime_ymd (add_days now days_offset), "relative")
  | None =>
      match scan_patterns date_patterns query with
      | Some date => Some (strftime_ymd date, "specific")
      | None => None
      end
  end.

(* ================================================================== *)
(** ** Match Formatter: [format_matches_data] *)

Notation "x <- e ;; k" := (Json.bind e (fun x => k))
  (at level 61, e at next level, right associativity).

Definition dict : Type := list (string * json).

Definition no_matches_error : dict :=
  [("error", JStr "No matches found or error in data")].

Definition is_none (j : json) : bool :=
  match j with
  | JNull => true
  | _ => false
  end.

(** [match['score']['fullTime'][side]] *)
Definition full_time (match_ : json) (side : string) : res json :=
  score <- getitem match_ "score" ;;
  fullTime <- getitem score "fullTime" ;;
  getitem fullTime side.

(** The test of [if 'score' in match and
    match['score']['fullTime']['home'] is not None] *)
Definition score_available (match_ : json) : res bool :=
  has_score <- has "score" match_ ;;
  if has_score : bool
  then home <- full_time match_ "home" ;; Ok (negb (is_none home))
  else Ok false.

(** The body of [for match in matches_data['matches']] *)
Definition format_match (match_ : json) : res json :=
  competition <- getitem match_ "competition" ;;
  competition_name <- getitem competition "name" ;;
  homeTeam <- getitem match_ "homeTeam" ;;
  home_name <- getitem homeTeam "shortName" ;;
  awayTeam <- getitem match_ "awayTeam" ;;
  away_name <- getitem awayTeam "shortName" ;;
  status <- getitem match_ "status" ;;
  utcDate <- getitem match_ "utcDate" ;;
  let match_info :=
    [ ("competition", competition_name); ("homeTeam", home_name);
      ("awayTeam", away_name); ("status", status); ("date", utcDate) ] in
  available <- score_available match_ ;;
  if available : bool
  then home <- full_time match_ "home" ;;
       away <- full_time match_ "away" ;;
       Ok (JObj (dict_set "score" (JStr (Json.str home ++ " - " ++ Json.str away)) match_info))
  else Ok (JObj (dict_set "score" (JStr "Not played yet") match_info)).

Fixpoint format_all (matches : list json) : res (list json) :=
  match matches with
  | [] => Ok []
  | match_ :: rest =>
      match_info <- format_match match_ ;;
      formatted <- format_all rest ;;
      Ok (match_info :: formatted)
  end.

(** The condition [not matches_data or 'matches' not in matches_data or
    'error' in matches_data], with the short circuits of [or]. *)
Definition unusable (matches_data : json) : res bool :=
  if negb (truthy matches_data) then Ok true
  else
    has_matches <- has "matches" matches_data ;;
    if negb has_matches then Ok true
    else has "error" matches_data.

(** [format_matches_data(matches_data)]; the result is a [dict]. *)
Definition format_matches_data (matches_data : json) : res dict :=
  bad <- unusable matches_data ;;
  if bad : bool then Ok no_matches_error
  else
    matches <- getitem matches_data "matches" ;;
    records <- iter matches ;;
    formatted_matches <- format_all records ;;
    Ok [ ("matches", JArr formatted_matches);
         ("count", JInt (Z.of_nat (List.length formatted_matches))) ].

(* ================================================================== *)
(** ** The collaborators

    A request to the data provider is answered by an HTTP response or by an
    exception of [requests]; a request to the language model is answered by
    the text [result["candidates"][0]["content"]["parts"][0]["text"]] or by
    the exception met on the way to it.  Credentials and the calls of
    [st.error] belong to the shell and are left out. *)

Record response := mkresponse {
  status_code : Z;
  http_error : string;     (* the text of the HTTPError of raise_for_status *)
  json_body : res json     (* response.json() *)
}.

Inductive get_request :=
| GetMatches (date_str : string)              (* get_matches_by_date *)
| GetFootball (url : string) (params : dict).   (* make_football_api_call *)

Inductive post_request :=
| AskEndpoint (query : string)                (* ask_gemini_for_endpoint *)
| AskNarration (prompt : string).             (* format_response_with_gemini *)

Inductive request :=
| ReqGet (r : get_request)
| ReqPost (r : post_request).

(** A computation that talks to the collaborators. *)
Inductive prog (A : Type) : Type :=
| Ret (a : A)
| Throw (e : exn)
| Get (r : get_request) (k : res response -> prog A)
| Post (r : post_request) (k : res string -> prog A).
Arguments Ret {A} a.
Arguments Throw {A} e.
Arguments Get {A} r k.
Arguments Post {A} r k.

Fixpoint pbind {A B : Type} (p : prog A) (f : A -> prog B) : prog B :=
  match p with
  | Ret a => f a
  | Throw e => Throw e
  | Get r k => Get r (fun x => pbind (k x) f)
  | Post r k => Post r (fun x => pbind (k x) f)
  end.

(** [try: p except Exception as e: h e] *)
Fixpoint catch {A : Type} (p : prog A) (h : exn -> prog A) : prog A :=
  match p with
  | Ret a => Ret a
  | Throw e => h e
  | Get r k => Get r (fun x => catch (k x) h)
  | Post r k => Post r (fun x => catch (k x) h)
  end.

Definition lift {A : Type} (r : res A) : prog A :=
  match r with
  | Ok a => Ret a
  | Raise e => Throw e
  end.

Notation "x <<- e ;; k" := (pbind e (fun x => k))
  (at level 61, e at next level, right associativity).

(** The services: each answer may depend on the requests made before. *)
Record world := mkworld {
  on_get : list request -> get_request -> res response;
  on_post : list request -> post_request -> res string
}.

(** Running a computation: the requests made, in order, and the outcome. *)
Fixpoint run {A : Type} (w : world) (made : list request) (p : prog A)
  : list request * res A :=
  match p with
  | Ret a => (made, Ok a)
  | Throw e => (made, Raise e)
  | Get r k => run w (made ++ [ReqGet r])%list (k (on_get w made r))
  | Post r k => run w (made ++ [ReqPost r])%list (k (on_post w made r))
  end.

Definition requests_of {A : Type} (w : world) (p : prog A) : list request :=
  fst (run w [] p).

Definition outcome {A : Type} (w : world) (p : prog A) : res A :=
  snd (run w [] p).

Definition is_ask_endpoint (r : request) : bool :=
  match r with
  | ReqPost (AskEndpoint _) => true
  | _ => false
  end.

Definition is_get_football (r : request) : bool :=
  match r with
  | ReqGet (GetFootball _ _) => true
  | _ => false
  end.

(* ================================================================== *)
(** ** Direct Date Path: [get_matches_by_date], [handle_date_based_query] *)

Definition FOOTBALL_BASE_URL : string := "https://api.football-data.org/v4".

(** [get_matches_by_date(date_str)]: one GET of [{base}/matches] with the
    filter [date]. *)
Definition get_matches_by_date (date_str : string) : prog json :=
  Get (GetMatches date_str) (fun answer =>
    match answer with
    | Raise e => Throw e
    | Ok response =>
        if status_code response =? 200
        then lift (json_body response)
        else Ret (JObj [("error", JStr ("API Error: " ++ str_of_Z (status_code response)))])
    end).

(** The [date_context] that [handle_date_based_query] attaches. *)
Definition add_date_context (query date_str date_type : string) (formatted_data : dict)
  : dict :=
  if String.eqb date_type "relative"
  then match first_keyword TIME_KEYWORDS (lower query) with
       | Some (keyword, _) => dict_set "date_context" (JStr keyword) formatted_data
       | None => formatted_data
       end
  else dict_set "date_context" (JStr date_str) formatted_data.

(** [handle_date_based_query(query)]; [None] is Python's [None]. *)
Definition handle_date_based_query (now : date) (query : string) : prog (option dict) :=
  match parse_date_from_query now query with
  | None => Ret None
  | Some (date_str, date_type) =>
      if String.eqb date_str "" then Ret None
      else
        matches_data <<- get_matches_by_date date_str ;;
        formatted_data <<- lift (format_matches_data matches_data) ;;
        Ret (Some (add_date_context query date_str date_type formatted_data))
  end.

(* ================================================================== *)
(** ** API Call Normalizer: [make_football_api_call] *)

(** [len(value)] *)
Definition py_len (value : json) : res Z :=
  match value with
  | JStr s => Ok (len s)
  | JArr l => Ok (Z.of_nat (List.length l))
  | JObj kv => Ok (Z.of_nat (List.length kv))
  | _ => Raise (TypeError ("object of type '" ++ type_name value ++ "' has no len()"))
  end.

(** [value.upper()], [value.lower()], [value.items()] and the other methods
    of [str] and [dict] that are looked up on a value of any type *)
Definition method_str (value : json) (name : string) : res string :=
  match value with
  | JStr s => Ok s
  | _ => Raise (no_attribute value name)
  end.

Definition method_dict (value : json) (name : string) : res dict :=
  match value with
  | JObj kv => Ok kv
  | _ => Raise (no_attribute value name)
  end.

(** The two lines under [# Handle competition codes mapping] *)
Definition competition_code (value : json) : res json :=
  n <- py_len value ;;
  value <- (if n <=? 3
            then s <- method_str value "upper" ;; Ok (JStr (upper s))
            else Ok value) ;;
  s <- method_str value "lower" ;;
  match table_get (lower s) COMPETITION_CODES with
  | Some code => Ok (JStr code)
  | None => Ok value
  end.

(** One turn of [for param, value in endpoint_info["params"].items()] *)
Definition substitute_param (endpoint : json) (param : string) (value : json) : res json :=
  value <- (if String.eqb param "id"
            then e <- method_str endpoint "startswith" ;;
                 if startswith e "/competitions/" then competition_code value else Ok value
            else Ok value) ;;
  e <- method_str endpoint "replace" ;;
  Ok (JStr (replace e ("{" ++ param ++ "}") (Json.str value))).

Fixpoint substitute_params (endpoint : json) (items : dict) : res json :=
  match items with
  | [] => Ok endpoint
  | (param, value) :: rest =>
      endpoint <- substitute_param endpoint param value ;;
      substitute_params endpoint rest
  end.

(** [date_formats] *)
Definition date_formats : list string :=
  ["%Y-%m-%d"; "%d-%m-%Y"; "%d/%m/%Y"; "%m/%d/%Y"].

(** [for fmt in date_formats: try: parsed_date = strptime(value, fmt); break] *)
Fixpoint first_parse (formats : list string) (value : string) : option date :=
  match formats with
  | [] => None
  | fmt :: rest =>
      match strptime value fmt with
      | Some parsed_date => Some parsed_date
      | None => first_parse rest value
      end
  end.

Definition is_date_filter (filter_name : string) : bool :=
  existsb (String.eqb filter_name) ["date"; "dateFrom"; "dateTo"].

(** The block under [# Handle date formatting]; a value that is not a [str]
    makes [strptime] raise [TypeError], which the bare [except] passes over. *)
Definition reformat_date (filter_name : string) (value : json) : json :=
  if is_date_filter filter_name && truthy value
  then match value with
       | JStr s =>
           match first_parse date_formats s with
           | Some parsed_date => JStr (strftime_ymd parsed_date)
           | None => value
           end
       | _ => value
       end
  else value.

(** The two lines under [# Handle status mapping] *)
Definition map_status (filter_name : string) (value : json) : res json :=
  if String.eqb filter_name "status"
  then s <- method_str value "lower" ;;
       match table_get (lower s) STATUS_MAPPING with
       | Some status => Ok (JStr status)
       | None => Ok value
       end
  else Ok value.

(** One turn of [for filter_name, value in endpoint_info["filters"].items()] *)
Definition normalize_filter (filter_name : string) (value : json) : res json :=
  map_status filter_name (reformat_date filter_name value).

Fixpoint normalize_filters (items : dict) (params : dict) : res dict :=
  match items with
  | [] => Ok params
  | (filter_name, value) :: rest =>
      value <- normalize_filter filter_name value ;;
      normalize_filters rest (dict_set filter_name value params)
  end.

(** [if key in endpoint_info and endpoint_info[key]: ... .items()] *)
Definition items_of (endpoint_info : json) (key : string) : res dict :=
  present <- has key endpoint_info ;;
  if present : bool
  then section <- getitem endpoint_info key ;;
       if truthy section then method_dict section "items" else Ok []
  else Ok [].

(** What [make_football_api_call] computes before the request: the URL and
    the query parameters. *)
Definition build_request (endpoint_info : json) : res (string * dict) :=
  endpoint <- getitem endpoint_info "endpoint" ;;
  param_items <- items_of endpoint_info "params" ;;
  endpoint <- substitute_params endpoint param_items ;;
  let url := FOOTBALL_BASE_URL ++ Json.str endpoint in
  filter_items <- items_of endpoint_info "filters" ;;
  params <- normalize_filters filter_items [] ;;
  Ok (url, params).

(** [response.raise_for_status()] *)
Definition raise_for_status (r : response) : res unit :=
  if (400 <=? status_code r) && (status_code r <? 600)
  then Raise (HTTPError (http_error r))
  else Ok tt.

Definition error_payload (e : exn) : json := JObj [("error", JStr (str_exn e))].

(** [make_football_api_call(endpoint_info)] *)
Definition make_football_api_call (endpoint_info : json) : prog json :=
  catch
    (request <<- lift (build_request endpoint_info) ;;
     Get (GetFootball (fst request) (snd request)) (fun answer =>
       response <<- lift answer ;;
       _ <<- lift (raise_for_status response) ;;
       lift (json_body response)))
    (fun e => Ret (error_payload e)).

(* ================================================================== *)
(** ** Response Narrator: [format_response_with_gemini] *)

Definition newline : string := String (ascii_of_N 10) EmptyString.

(** One line of a prompt, with the indentation it has in the source. *)
Definition prompt_line (text : string) : string :=
  "            " ++ text ++ newline.

Definition date_matches_prompt (query data_str : string) : string :=
  newline
  ++ prompt_line "You are a football chatbot assistant that provides information about football matches."
  ++ prompt_line ("The user asked: " ++ quote ++ query ++ quote)
  ++ prompt_line "We found the following matches data for the date they mentioned:"
  ++ prompt_line data_str
  ++ prompt_line "Please format this information into a helpful, conversational response for the user."
  ++ prompt_line "If there's an error or no matches found, explain what might have gone wrong."
  ++ prompt_line "If matches were found, organize them by competition and include the score if available."
  ++ prompt_line "Be concise but comprehensive, and present the information in an easy-to-read format."
  ++ prompt_line "If a specific date was mentioned, include that in your response."
  ++ "            ".

Definition api_response_prompt (query endpoint api_response : string) : string :=
  newline
  ++ prompt_line "You are a football chatbot assistant that provides information from a football data API."
  ++ prompt_line ("The user asked: " ++ quote ++ query ++ quote)
  ++ prompt_line "Based on their question, we queried the following API endpoint:"
  ++ prompt_line endpoint
  ++ prompt_line "The API returned the following response:"
  ++ prompt_line api_response
  ++ prompt_line "Please format this information into a helpful, conversational response for the user."
  ++ prompt_line "Focus on directly answering their question with the most relevant information."
  ++ prompt_line "If there's an error or no relevant data, explain what might have gone wrong."
  ++ prompt_line "Be concise but comprehensive, and present the information in an easy-to-read format when appropriate."
  ++ "            ".

(** [data_str = json.dumps(data, ensure_ascii=False)] followed by
    [if len(data_str) > 10000: data_str = data_str[:10000] + "..."] *)
Definition truncated (text : string) : string :=
  if 10000 <? len text then take (Z.to_nat 10000) text ++ "..." else text.

(** [value.get(key, default)] *)
Definition get_default (value : json) (key : string) (default : json) : res json :=
  kv <- method_dict value "get" ;;
  match lookup key kv with
  | Some v => Ok v
  | None => Ok default
  end.

(** The prompt that [format_response_with_gemini] builds. *)
Definition narration_prompt (query : string) (data : json) (data_type : string)
  : res string :=
  let data_str := truncated (dumps data) in
  if String.eqb data_type "date_matches"
  then Ok (date_matches_prompt query data_str)
  else
    endpoint_info <- get_default data "endpoint_info" (JObj []) ;;
    api_response <- get_default data "api_response" (JObj []) ;;
    endpoint <- get_default endpoint_info "endpoint" (JStr "Unknown endpoint") ;;
    Ok (api_response_prompt query (Json.str endpoint) (dumps api_response)).

Definition apology (e : exn) : string :=
  "I'm sorry, but I encountered an error processing the football data. Error: "
  ++ str_exn e.

(** [format_response_with_gemini(query, data, data_type)] *)
Definition format_response_with_gemini (query : string) (data : json) (data_type : string)
  : prog string :=
  catch
    (prompt <<- lift (narration_prompt query data data_type) ;;
     Post (AskNarration prompt) lift)
    (fun e => Ret (apology e)).

(* ================================================================== *)
(** ** Endpoint Resolver and Orchestrator *)

Definition clarification : string :=
  "I'm sorry, but I couldn't determine how to process your request. Could you try rephrasing your question?".

(** The text handed to [json.loads]: the group of the fenced block, else the
    group of the brace span, else the reply as it is. *)
Definition extract_json_text (json_text : string) : string :=
  match Re.search_fenced json_text with
  | Some group => group
  | None =>
      match Re.search_braces json_text with
      | Some group => group
      | None => json_text
      end
  end.

Section Resolution.

(** [json.loads] *)
Variable json_loads : string -> res json.

(** [ask_gemini_for_endpoint(query)]; [JNull] is Python's [None], which is
    what the [except] branch returns. *)
Definition ask_gemini_for_endpoint (query : string) : prog json :=
  catch
    (Post (AskEndpoint query) (fun answer =>
       json_text <<- lift answer ;;
       lift (json_loads (extract_json_text json_text))))
    (fun _ => Ret JNull).

(** [chatbot_response(query)] *)
Definition chatbot_response (now : date) (query : string) : prog string :=
  date_matches <<- handle_date_based_query now query ;;
  match date_matches with
  | Some ((_ :: _) as found) =>
      format_response_with_gemini query (JObj found) "date_matches"
  | _ =>
      endpoint_info <<- ask_gemini_for_endpoint query ;;
      if negb (truthy endpoint_info) then Ret clarification
      else
        api_response <<- make_football_api_call endpoint_info ;;
        format_response_with_gemini query
          (JObj [("endpoint_info", endpoint_info); ("api_response", api_response)])
          "api_response"
  end.

End Resolution.

(* ================================================================== *)
(** ** Vocabulary of the properties *)

(** A text of the shape [\d{4}-\d{2}-\d{2}] and nothing else. *)
Definition is_iso_date (s : string) : bool :=
  match Re.match_here (fst (nth 0 date_patterns ([], ""))) s with
  | Some m => String.eqb m s
  | None => false
  end.

(** The query mentions a relative keyword, whatever the case of its letters. *)
Definition mentions (keyword query : string) : bool := contains keyword (lower query).

(** A clock reading used in the examples. *)
Definition a_wednesday : date := mkdate 2026 11 4.

(** The request of the Direct Date Path and the request that narrates what
    it found. *)
Definition date_fetch (date_str : string) : request := ReqGet (GetMatches date_str).

Definition date_narration (query : string) (found : dict) : post_request :=
  AskNarration (date_matches_prompt query (truncated (dumps (JObj found)))).

(** What the narrator returns once the model has answered its request. *)
Definition narrated (answer : res string) : string :=
  match answer with
  | Ok text => text
  | Raise e => apology e
  end.

(** A record of the data provider: a match that was played, 2 - 1. *)
Definition played_match : json :=
  JObj [ ("competition", JObj [("name", JStr "Premier League")]);
         ("homeTeam", JObj [("shortName", JStr "Arsenal")]);
         ("awayTeam", JObj [("shortName", JStr "Chelsea")]);
         ("status", JStr "FINISHED");
         ("utcDate", JStr "2026-11-04T15:00:00Z");
         ("score", JObj [("fullTime", JObj [("home", JInt 2); ("away", JInt 1)])]) ].

(** Services that answer every request: the provider with one match, or
    with 404 beside the date query; the model with a fixed text. *)
Definition calm_world (endpoint_reply : string) : world :=
  mkworld
    (fun _ r =>
       match r with
       | GetMatches _ => Ok (mkresponse 200 "" (Ok (JObj [("matches", JArr [played_match])])))
       | GetFootball _ _ =>
           Ok (mkresponse 404 "404 Client Error: Not Found" (Raise (ValueError "Expecting value")))
       end)
    (fun _ r =>
       match r with
       | AskEndpoint _ => Ok endpoint_reply
       | AskNarration _ => Ok "Arsenal beat Chelsea 2 - 1."
       end).

(** [j[k1][k2]...] when every step is a [dict] that has the key. *)
Fixpoint get_path (j : json) (path : list string) : option json :=
  match path with
  | [] => Some j
  | k :: rest =>
      match j with
      | JObj kv =>
          match lookup k kv with
          | Some v => get_path v rest
          | None => None
          end
      | _ => None
      end
  end.

Definition has_path (j : json) (path : list string) : bool :=
  match get_path j path with
  | Some _ => true
  | None => false
  end.

(** A record that carries the keys the formatter reads: the five required
    fields and, when it has a score, the full-time home score and, beside a
    home score that is not null, the away score. *)
Definition well_formed (match_ : json) : bool :=
  has_path match_ ["competition"; "name"]
  && has_path match_ ["homeTeam"; "shortName"]
  && has_path match_ ["awayTeam"; "shortName"]
  && has_path match_ ["status"]
  && has_path match_ ["utcDate"]
  && (if has_path match_ ["score"]
      then match get_path match_ ["score"; "fullTime"; "home"] with
           | Some home => is_none home || has_path match_ ["score"; "fullTime"; "away"]
           | None => false
           end
      else true).

(** The score of a summary as the code decides it: on the home score alone. *)
Definition score_text (match_ : json) : string :=
  match get_path match_ ["score"; "fullTime"; "home"],
        get_path match_ ["score"; "fullTime"; "away"] with
  | Some home, Some away =>
      if is_none home then "Not played yet" else Json.str home ++ " - " ++ Json.str away
  | _, _ => "Not played yet"
  end.

(** The score as the specification words it: on both full-time scores. *)
Definition score_text_spec (match_ : json) : string :=
  match get_path match_ ["score"; "fullTime"; "home"],
        get_path match_ ["score"; "fullTime"; "away"] with
  | Some home, Some away =>
      if is_none home || is_none away then "Not played yet"
      else Json.str home ++ " - " ++ Json.str away
  | _, _ => "Not played yet"
  end.

(** The summary of one record. *)
Definition summary (match_ : json) : json :=
  JObj [ ("competition", match get_path match_ ["competition"; "name"] with Some v => v | None => JNull end);
         ("homeTeam", match get_path match_ ["homeTeam"; "shortName"] with Some v => v | None => JNull end);
         ("awayTeam", match get_path match_ ["awayTeam"; "shortName"] with Some v => v | None => JNull end);
         ("status", match get_path match_ ["status"] with Some v => v | None => JNull end);
         ("date", match get_path match_ ["utcDate"] with Some v => v | None => JNull end);
         ("score", JStr (score_text match_)) ].

(** Records of the data provider: a fixture not played yet, and a record
    with a home score and a null away score. *)
Definition fixture (home away : json) : json :=
  JObj [ ("competition", JObj [("name", JStr "Premier League")]);
         ("homeTeam", JObj [("shortName", JStr "Arsenal")]);
         ("awayTeam", JObj [("shortName", JStr "Chelsea")]);
         ("status", JStr "TIMED");
         ("utcDate", JStr "2026-11-04T15:00:00Z");
         ("score", JObj [("fullTime", JObj [("home", home); ("away", away)])]) ].

(** The rule for a competition id in the words of the specification: the
    value is upper-cased when it has at most three characters; if the
    outcome, lower-cased, is a key of the Competition Code Table, the code
    of the table takes its place. *)
Definition competition_id_rule (value : string) : string :=
  let uppercased := if len value <=? 3 then upper value else value in
  match table_get (lower uppercased) COMPETITION_CODES with
  | Some code => code
  | None => uppercased
  end.

(** The text that takes the place of the placeholder of [param] in a
    competition-scoped path. *)
Definition competition_param_text (param : string) (value : json) : string :=
  match value with
  | JStr s => if String.eqb param "id" then competition_id_rule s else s
  | _ => Json.str value
  end.

Definition fill_placeholder (endpoint : string) (item : string * json) : string :=
  replace endpoint ("{" ++ fst item ++ "}") (competition_param_text (fst item) (snd item)).

(** The rule for a filter in the words of the specification. *)
Definition date_filter_rule (value : string) : string :=
  match strptime value "%Y-%m-%d" with
  | Some d => strftime_ymd d
  | None =>
      match strptime value "%d-%m-%Y" with
      | Some d => strftime_ymd d
      | None =>
          match strptime value "%d/%m/%Y" with
          | Some d => strftime_ymd d
          | None =>
              match strptime value "%m/%d/%Y" with
              | Some d => strftime_ymd d
              | None => value
              end
          end
      end
  end.

Definition status_rule (value : string) : string :=
  match table_get (lower value) STATUS_MAPPING with
  | Some status => status
  | None => value
  end.

Definition filter_rule (filter_name : string) (value : json) : json :=
  match value with
  | JStr s =>
      if String.eqb filter_name "date" || String.eqb filter_name "dateFrom"
         || String.eqb filter_name "dateTo"
      then JStr (date_filter_rule s)
      else if String.eqb filter_name "status" then JStr (status_rule s)
      else value
  | _ => value
  end.

Definition status_is_text (item : string * json) : bool :=
  if String.eqb (fst item) "status"
  then match snd item with JStr _ => true | _ => false end
  else true.

Definition id_is_text (item : string * json) : bool :=
  if String.eqb (fst item) "id"
  then match snd item with JStr _ => true | _ => false end
  else true.

(** A reply of the model: the JSON text of a resolved call. *)
Definition standings_reply : string :=
  "{" ++ quote ++ "endpoint" ++ quote ++ ": " ++ quote ++ "/competitions/{id}/standings" ++ quote
  ++ ", " ++ quote ++ "params" ++ quote ++ ": {" ++ quote ++ "id" ++ quote ++ ": "
  ++ quote ++ "PL" ++ quote ++ "}}".

(** [json.loads] on the texts of the examples; every other text of the
    examples is no JSON text. *)
Definition loads_examples (text : string) : res json :=
  if String.eqb text "[1]" then Ok (JArr [JInt 1])
  else if String.eqb text "{}" then Ok (JObj [])
  else if String.eqb text standings_reply
  then Ok (JObj [ ("endpoint", JStr "/competitions/{id}/standings");
                  ("params", JObj [("id", JStr "PL")]) ])
  else Raise (ValueError "Expecting value: line 1 column 1 (char 0)").

(** The payload the Orchestrator hands to the narrator on the model path. *)
Definition api_payload (endpoint_info api_response : json) : json :=
  JObj [("endpoint_info", endpoint_info); ("api_response", api_response)].

(** An answer of the data provider that is longer than the limit of the
    narrator. *)
Definition long_note : string :=
  string_of_list_ascii (repeat "a"%char (Z.to_nat 10001)).

Definition long_api_response : json := JObj [("note", JStr long_note)].

Definition long_payload : json :=
  api_payload (JObj [("endpoint", JStr "/matches")]) long_api_response.

(* ================================================================== *)
(** ** The endpoint catalog and the submit handler *)

(** An entry of [ENDPOINTS]. *)
Record descriptor := mkdescriptor {
  d_description : string;
  d_endpoint : string;
  d_method : string;
  d_params : list string;
  d_filters : list string
}.

(** [ENDPOINTS] *)
Definition ENDPOINTS : list descriptor :=
  [ mkdescriptor "Get information about a specific area (country/region)"
      "/areas/{id}" "GET" ["id"] [];
    mkdescriptor "List all available areas (countries/regions)"
      "/areas/" "GET" [] [];
    mkdescriptor "Get information about a specific competition (league/tournament)"
      "/competitions/{id}" "GET" ["id"] [];
    mkdescriptor "List all available competitions (leagues/tournaments)"
      "/competitions/" "GET" [] ["areas"];
    mkdescriptor "Get standings/league table for a competition"
      "/competitions/{id}/standings" "GET" ["id"] ["matchday"; "season"; "date"];
    mkdescriptor "Get matches for a specific competition"
      "/competitions/{id}/matches" "GET" ["id"]
      ["dateFrom"; "dateTo"; "stage"; "status"; "matchday"; "group"; "season"];
    mkdescriptor "Get teams participating in a specific competition"
      "/competitions/{id}/teams" "GET" ["id"] ["season"];
    mkdescriptor "Get top scorers for a specific competition"
      "/competitions/{id}/scorers" "GET" ["id"] ["limit"; "season"];
    mkdescriptor "Get information about a specific team"
      "/teams/{id}" "GET" ["id"] [];
    mkdescriptor "List teams with pagination"
      "/teams/" "GET" [] ["limit"; "offset"];
    mkdescriptor "Get matches for a specific team"
      "/teams/{id}/matches/" "GET" ["id"]
      ["dateFrom"; "dateTo"; "season"; "competitions"; "status"; "venue"; "limit"];
    mkdescriptor "Get information about a specific person (player/coach)"
      "/persons/{id}" "GET" ["id"] [];
    mkdescriptor "Get matches for a specific person (player/coach)"
      "/persons/{id}/matches" "GET" ["id"]
      ["dateFrom"; "dateTo"; "status"; "competitions"; "limit"; "offset"];
    mkdescriptor "Get information about a specific match"
      "/matches/{id}" "GET" ["id"] [];
    mkdescriptor "List matches across competitions"
      "/matches" "GET" []
      ["competitions"; "ids"; "dateFrom"; "dateTo"; "status"; "date"];
    mkdescriptor "Get head-to-head statistics for teams in a match"
      "/matches/{id}/head2head" "GET" ["id"]
      ["limit"; "dateFrom"; "dateTo"; "competitions"] ].

(** [s.strip()] *)
Fixpoint lstrip (s : string) : string :=
  match s with
  | EmptyString => EmptyString
  | String c r => if is_space c then lstrip r else s
  end.

Fixpoint rstrip (s : string) : string :=
  match s with
  | EmptyString => EmptyString
  | String c r =>
      match rstrip r with
      | EmptyString => if is_space c then EmptyString else String c EmptyString
      | kept => String c kept
      end
  end.

Definition strip (s : string) : string := rstrip (lstrip s).

(** What the page shows after a click on "Submit": the warning, or the
    response with, for a query that carries a date, the data handed to
    [display_matches_dataframe] (the frame itself is the work of pandas
    and is not modelled). *)
Inductive shown :=
| Warning
| Response (response_text : string) (table_data : option json).

Section Shell.

Variable json_loads : string -> res json.

(** The body of [if st.button("Submit")]; [now] is the clock during
    [chatbot_response], [later] the clock at the second call of
    [parse_date_from_query]. *)
Definition submit (now later : date) (user_query : string) : prog shown :=
  if String.eqb (strip user_query) "" then Ret Warning
  else
    response_text <<- chatbot_response json_loads now user_query ;;
    match parse_date_from_query later user_query with
    | Some (date_str, _) =>
        if String.eqb date_str "" then Ret (Response response_text None)
        else
          matches_data <<- get_matches_by_date date_str ;;
          Ret (Response response_text (Some matches_data))
    | None => Ret (Response response_text None)
    end.

End Shell.

(** ** Vocabulary of the further properties *)

(** The characters of a date written by [strftime]. *)
Definition date_char (c : ascii) : bool := is_digit c || Ascii.eqb c "-".

Fixpoint all_chars (p : ascii -> bool) (s : string) : bool :=
  match s with
  | EmptyString => true
  | String c r => p c && all_chars p r
  end.

(** A date written day first and month first, with slashes. *)
Definition day_first (d : date) : string :=
  two_digits (day d) ++ "/" ++ two_digits (month d) ++ "/" ++ four_digits (year d).

Definition month_first (d : date) : string :=
  two_digits (month d) ++ "/" ++ two_digits (day d) ++ "/" ++ four_digits (year d).

(** The clock reads a date from which a day can be taken or added. *)
Definition clock_ok (now : date) : bool :=
  valid_date now && (1 <? year now) && (year now <? 9999).

(** The six entries of a Match Summary, in the order they are written. *)
Definition is_summary (j : json) : bool :=
  match j with
  | JObj [ ("competition", _); ("homeTeam", _); ("awayTeam", _);
           ("status", _); ("date", _); ("score", JStr _) ] => true
  | _ => false
  end.

Definition is_object (j : json) : bool :=
  match j with
  | JObj _ => true
  | _ => false
  end.

(** What [get_matches_by_date] makes of the answer to its request. *)
Definition fetch_result (answer : res response) : res json :=
  match answer with
  | Raise e => Raise e
  | Ok response =>
      if status_code response =? 200 then json_body response
      else Ok (JObj [("error", JStr ("API Error: " ++ str_of_Z (status_code response)))])
  end.

(** What the Direct Date Path finds for a date, in a world. *)
Definition date_path_result (w : world) (query date_str date_type : string) : res dict :=
  matches_data <- fetch_result (on_get w [] (GetMatches date_str)) ;;
  formatted_data <- format_matches_data matches_data ;;
  Ok (add_date_context query date_str date_type formatted_data).

(** What [make_football_api_call] makes of the answer to its request. *)
Definition api_result (answer : res response) : json :=
  match (response <- answer ;;
         _ <- raise_for_status response ;;
         json_body response) with
  | Ok api_response => api_response
  | Raise e => error_payload e
  end.

(** What [ask_gemini_for_endpoint] makes of the answer to its request. *)
Definition resolved (json_loads : string -> res json) (answer : res string) : json :=
  match (json_text <- answer ;; json_loads (extract_json_text json_text)) with
  | Ok endpoint_info => endpoint_info
  | Raise _ => JNull
  end.

(** A reply of the model that names no endpoint, and [json.loads] on it. *)
Definition explanation_reply : string :=
  "{" ++ quote ++ "explanation" ++ quote ++ ": " ++ quote ++ "standings" ++ quote ++ "}".

Definition loads_explanation (text : string) : res json :=
  if String.eqb text explanation_reply
  then Ok (JObj [("explanation", JStr "standings")])
  else Raise (ValueError "Expecting value: line 1 column 1 (char 0)").

(** ** The table of matches: [display_matches_dataframe] *)

(** The body of [for match in matches_data['matches']]: one row of the
    table. *)
Definition display_row (match_ : json) : res json :=
  competition <- getitem match_ "competition" ;;
  competition_name <- getitem competition "name" ;;
  homeTeam <- getitem match_ "homeTeam" ;;
  home_name <- getitem homeTeam "shortName" ;;
  awayTeam <- getitem match_ "awayTeam" ;;
  away_name <- getitem awayTeam "shortName" ;;
  status <- getitem match_ "status" ;;
  utcDate <- getitem match_ "utcDate" ;;
  let match_info :=
    [ ("Competition", competition_name); ("Home Team", home_name);
      ("Away Team", away_name); ("Status", status); ("Date", utcDate) ] in
  available <- score_available match_ ;;
  if available : bool
  then home <- full_time match_ "home" ;;
       away <- full_time match_ "away" ;;
       Ok (JObj (dict_set "Score" (JStr (Json.str home ++ " - " ++ Json.str away)) match_info))
  else Ok (JObj (dict_set "Score" (JStr "Not played yet") match_info)).

Fixpoint display_all (matches : list json) : res (list json) :=
  match matches with
  | [] => Ok []
  | match_ :: rest =>
      match_info <- display_row match_ ;;
      formatted <- display_all rest ;;
      Ok (match_info :: formatted)
  end.

(** The condition [not matches_data or 'matches' not in matches_data or
    len(matches_data['matches']) == 0], with the short circuits of [or]. *)
Definition no_rows (matches_data : json) : res bool :=
  if negb (truthy matches_data) then Ok true
  else
    has_matches <- has "matches" matches_data ;;
    if negb has_matches then Ok true
    else
      matches <- getitem matches_data "matches" ;;
      n <- py_len matches ;;
      Ok (n =? 0).

(** The rows that [display_matches_dataframe] hands to [pd.DataFrame],
    [None] where it returns the empty frame of its first line.  What
    pandas does with the rows afterwards is not modelled. *)
Definition display_rows (matches_data : json) : res (option (list json)) :=
  empty <- no_rows matches_data ;;
  if empty : bool then Ok None
  else
    matches <- getitem matches_data "matches" ;;
    records <- iter matches ;;
    formatted_matches <- display_all records ;;
    Ok (Some formatted_matches).

(** Two objects with the same values in the same order. *)
Definition same_cells (row summarized : json) : Prop :=
  match row, summarized with
  | JObj cells, JObj fields => map snd cells = map snd fields
  | _, _ => False
  end.

Definition row_keys : list string :=
  ["Competition"; "Home Team"; "Away Team"; "Status"; "Date"; "Score"].

Definition keys_of (j : json) : list string :=
  match j with
  | JObj kv => map fst kv
  | _ => []
  end.

(* ================================================================== *)
(** * Properties *)

(** ** Text and dates *)

(** A disjunction [C] of the values of a bounded number: one case each. *)
Ltac each_value C tac :=
  repeat (destruct C as [C | C]; [tac C |]); tac C.

Lemma digit_char_is_digit (n : Z) : is_digit (digit_char n) = true.
Proof.
  unfold digit_char.
  assert (H : 0 <= n mod 10 < 10) by (apply Z.mod_pos_bound; lia).
  assert (C : n mod 10 = 0 \/ n mod 10 = 1 \/ n mod 10 = 2 \/ n mod 10 = 3
              \/ n mod 10 = 4 \/ n mod 10 = 5 \/ n mod 10 = 6 \/ n mod 10 = 7
              \/ n mod 10 = 8 \/ n mod 10 = 9) by lia.
  each_value C ltac:(fun E => rewrite E; reflexivity).
Qed.

Lemma strftime_ymd_shape (d : date) : is_iso_date (strftime_ymd d) = true.
Proof.
  unfold is_iso_date, strftime_ymd, four_digits, two_digits.
  cbn [date_patterns nth fst Re.digits repeat app String.append Re.match_here Re.atom_ok].
  rewrite !digit_char_is_digit.
  cbn [Ascii.eqb Bool.eqb option_map Re.match_here].
  apply String.eqb_refl.
Qed.

Lemma digit_val_digit_char (n : Z) : digit_val (digit_char n) = n mod 10.
Proof.
  unfold digit_char.
  assert (H : 0 <= n mod 10 < 10) by (apply Z.mod_pos_bound; lia).
  assert (C : n mod 10 = 0 \/ n mod 10 = 1 \/ n mod 10 = 2 \/ n mod 10 = 3
              \/ n mod 10 = 4 \/ n mod 10 = 5 \/ n mod 10 = 6 \/ n mod 10 = 7
              \/ n mod 10 = 8 \/ n mod 10 = 9) by lia.
  each_value C ltac:(fun E => rewrite E; reflexivity).
Qed.

Lemma days_in_month_bounds (y m : Z) : 28 <= days_in_month y m <= 31.
Proof.
  unfold days_in_month.
  destruct (m =? 2); [destruct (is_leap y); lia |].
  destruct ((m =? 4) || (m =? 6) || (m =? 9) || (m =? 11)); lia.
Qed.

Lemma valid_date_spec (d : date) :
  valid_date d = true <->
  1 <= year d <= 9999 /\ 1 <= month d <= 12
  /\ 1 <= day d <= days_in_month (year d) (month d).
Proof.
  unfold valid_date. rewrite !andb_true_iff, !Z.leb_le. tauto.
Qed.

(** [timedelta(days=1)] and [timedelta(days=-1)] undo each other. *)
Lemma next_prev_day (d : date) :
  valid_date d = true -> next_day (prev_day d) = d.
Proof.
  rewrite valid_date_spec. destruct d as [y m dd]. cbn [year month day].
  intros (Hy & Hm & Hd). unfold prev_day, next_day. cbn [year month day].
  pose proof (days_in_month_bounds y m) as B.
  pose proof (days_in_month_bounds y (m - 1)) as B'.
  destruct (Z.ltb_spec 1 dd).
  - cbn [year month day].
    destruct (Z.ltb_spec (dd - 1) (days_in_month y m)); [f_equal; lia | lia].
  - destruct (Z.ltb_spec 1 m); cbn [year month day].
    + destruct (Z.ltb_spec (days_in_month y (m - 1)) (days_in_month y (m - 1))); [lia |].
      destruct (Z.ltb_spec (m - 1) 12); [f_equal; lia | lia].
    + replace (days_in_month (y - 1) 12) with 31 by reflexivity.
      cbn. f_equal; lia.
Qed.

Lemma prev_next_day (d : date) :
  valid_date d = true -> prev_day (next_day d) = d.
Proof.
  rewrite valid_date_spec. destruct d as [y m dd]. cbn [year month day].
  intros (Hy & Hm & Hd). unfold prev_day, next_day. cbn [year month day].
  destruct (Z.ltb_spec dd (days_in_month y m)); cbn [year month day].
  - destruct (Z.ltb_spec 1 (dd + 1)); [f_equal; lia | lia].
  - destruct (Z.ltb_spec m 12); cbn [year month day];
      replace (1 <? 1) with false by reflexivity.
    + destruct (Z.ltb_spec 1 (m + 1)); [| lia].
      replace (m + 1 - 1) with m by lia. f_equal; lia.
    + assert (m = 12) by lia. subst m.
      replace (days_in_month y 12) with 31 in * by reflexivity.
      replace (1 <? 1) with false by reflexivity.
      f_equal; lia.
Qed.

Lemma strptime_valid (s fmt : string) (d : date) :
  strptime s fmt = Some d -> valid_date d = true.
Proof.
  unfold strptime.
  destruct (match_format (compile_format fmt) s no_fields) as [[f [| c r]] |];
    try discriminate.
  destruct (valid_date _) eqn:V; intros H; inversion H; subst; exact V.
Qed.

Lemma four_digits_parse_back (y : Z) (tail : string) :
  0 <= y <= 9999 -> four_digit_year (four_digits y ++ tail) = [(y, tail)].
Proof.
  intros H. unfold four_digits, two_digits, four_digit_year. cbn [String.append].
  rewrite !digit_char_is_digit, !digit_val_digit_char. cbn [andb].
  do 2 f_equal. Z.div_mod_to_equations. lia.
Qed.

Lemma month_alternatives (m : Z) (tail : string) :
  1 <= m <= 12 ->
  exists more,
    alternatives Dirm (two_digits m ++ String "-" tail) = (m, String "-" tail) :: more.
Proof.
  intros H.
  assert (C : m = 1 \/ m = 2 \/ m = 3 \/ m = 4 \/ m = 5 \/ m = 6 \/ m = 7 \/ m = 8
              \/ m = 9 \/ m = 10 \/ m = 11 \/ m = 12) by lia.
  each_value C ltac:(fun E => rewrite E; eexists; vm_compute; reflexivity).
Qed.

Lemma day_alternatives (d : Z) :
  1 <= d <= 31 ->
  exists more, alternatives Dird (two_digits d) = (d, EmptyString) :: more.
Proof.
  intros H.
  assert (C : d = 1 \/ d = 2 \/ d = 3 \/ d = 4 \/ d = 5 \/ d = 6 \/ d = 7 \/ d = 8
              \/ d = 9 \/ d = 10 \/ d = 11 \/ d = 12 \/ d = 13 \/ d = 14 \/ d = 15
              \/ d = 16 \/ d = 17 \/ d = 18 \/ d = 19 \/ d = 20 \/ d = 21 \/ d = 22
              \/ d = 23 \/ d = 24 \/ d = 25 \/ d = 26 \/ d = 27 \/ d = 28 \/ d = 29
              \/ d = 30 \/ d = 31) by lia.
  each_value C ltac:(fun E => rewrite E; eexists; vm_compute; reflexivity).
Qed.

(** A date written by [strftime] reads back under [%Y-%m-%d]. *)
Lemma strptime_strftime_ymd (d : date) :
  valid_date d = true -> strptime (strftime_ymd d) "%Y-%m-%d" = Some d.
Proof.
  intros V. pose proof V as V'. rewrite valid_date_spec in V'.
  destruct d as [y m dd]. cbn [year month day] in V'.
  destruct V' as (Hy & Hm & Hd).
  pose proof (days_in_month_bounds y m) as B.
  unfold strptime, strftime_ymd. cbn [year month day].
  change (compile_format "%Y-%m-%d") with [DirY; Lit "-"; Dirm; Lit "-"; Dird].
  cbn [match_format].
  change (alternatives DirY) with four_digit_year.
  rewrite four_digits_parse_back by lia.
  cbn [first_success fst snd String.append match_format].
  change (Ascii.eqb (lower_char "-") (lower_char "-")) with true. cbn iota.
  destruct (month_alternatives m (two_digits dd) ltac:(lia)) as [more ->].
  cbn [first_success fst snd match_format].
  change (Ascii.eqb (lower_char "-") (lower_char "-")) with true. cbn iota.
  destruct (day_alternatives dd ltac:(lia)) as [more' ->].
  cbn [first_success fst snd match_format set_field no_fields f_year f_month f_day].
  rewrite V. reflexivity.
Qed.

(** ** Date Extractor *)

Lemma scan_patterns_first (patterns : list (list Re.atom * string)) (query : string) :
  (exists before p after date,
      patterns = (before ++ p :: after)%list
      /\ (forall p', In p' before -> try_pattern query p' = None)
      /\ try_pattern query p = Some date
      /\ scan_patterns patterns query = Some date)
  \/ ((forall p, In p patterns -> try_pattern query p = None)
      /\ scan_patterns patterns query = None).
Proof.
  induction patterns as [| p rest IH]; simpl.
  - right. split; [intros p [] | reflexivity].
  - destruct (try_pattern query p) as [date |] eqn:E.
    + left. exists [], p, rest, date. repeat split; auto. intros p' [].
    + destruct IH as [(before & p0 & after & date & -> & Hb & Hp & Hs) | [Hall Hs]].
      * left. exists (p :: before), p0, after, date. repeat split; auto.
        intros p' [<- | Hin]; auto.
      * right. split; auto. intros p' [<- | Hin]; auto.
Qed.

Lemma first_keyword_none (query : string) :
  mentions "yesterday" query = false ->
  mentions "today" query = false ->
  mentions "tomorrow" query = false ->
  first_keyword TIME_KEYWORDS (lower query) = None.
Proof.
  unfold mentions. intros H1 H2 H3. simpl. rewrite H1, H2, H3. reflexivity.
Qed.

(** C2.  A query that mentions "yesterday", "today" or "tomorrow", in any
    case of letters, yields the clock's date moved by the offset of the
    keyword found (-1, 0, +1 days; the table order decides between several),
    written YYYY-MM-DD, with kind "relative"; dates written in the query
    play no part, as for "today or on 2023-01-01". *)
Theorem C2_relative_keyword (now : date) (query : string) :
  mentions "yesterday" query = true
  \/ mentions "today" query = true
  \/ mentions "tomorrow" query = true ->
  exists keyword offset,
    In (keyword, offset) [("yesterday", -1); ("today", 0); ("tomorrow", 1)]
    /\ mentions keyword query = true
    /\ first_keyword TIME_KEYWORDS (lower query) = Some (keyword, offset)
    /\ parse_date_from_query now query
       = Some (strftime_ymd (add_days now offset), "relative")
    /\ is_iso_date (strftime_ymd (add_days now offset)) = true
    /\ parse_date_from_query a_wednesday "today or on 2023-01-01"
       = Some ("2026-11-04", "relative").
Proof.
  intros H. unfold parse_date_from_query, mentions in *.
  cbn [first_keyword TIME_KEYWORDS].
  destruct (contains "yesterday" (lower query)) eqn:Y.
  { exists "yesterday", (-1). repeat split; auto using strftime_ymd_shape.
    simpl; auto. }
  destruct (contains "today" (lower query)) eqn:T.
  { exists "today", 0. repeat split; auto using strftime_ymd_shape.
    simpl; auto. }
  destruct (contains "tomorrow" (lower query)) eqn:M.
  { exists "tomorrow", 1. repeat split; auto using strftime_ymd_shape.
    simpl; auto. }
  destruct H as [H | [H | H]]; discriminate.
Qed.

Lemma C2_relative_keyword_witness :
  (mentions "yesterday" "Any matches TOMORROW, after 01/02/2024?" = true
   \/ mentions "today" "Any matches TOMORROW, after 01/02/2024?" = true
   \/ mentions "tomorrow" "Any matches TOMORROW, after 01/02/2024?" = true)
  /\ parse_date_from_query a_wednesday "Any matches TOMORROW, after 01/02/2024?"
     = Some ("2026-11-05", "relative").
Proof.
  assert (H : mentions "yesterday" "Any matches TOMORROW, after 01/02/2024?" = true
              \/ mentions "today" "Any matches TOMORROW, after 01/02/2024?" = true
              \/ mentions "tomorrow" "Any matches TOMORROW, after 01/02/2024?" = true)
    by (right; right; reflexivity).
  split; [exact H |].
  destruct (C2_relative_keyword a_wednesday _ H)
    as (keyword & offset & _ & _ & Hk & Hp & _).
  rewrite Hp. vm_compute in Hk. injection Hk as <- <-. reflexivity.
Defined.

(** C10.  A query that mentions both "today" and "yesterday", in either
    order and in any case of letters, yields yesterday's date with kind
    "relative": the keyword table is gone through in its own order,
    yesterday first. *)
Theorem C10_yesterday_before_today (now : date) (query : string) :
  mentions "today" query = true ->
  mentions "yesterday" query = true ->
  parse_date_from_query now query = Some (strftime_ymd (prev_day now), "relative")
  /\ add_days now (-1) = prev_day now
  /\ first_keyword TIME_KEYWORDS (lower query) = Some ("yesterday", -1).
Proof.
  intros _ Y. unfold parse_date_from_query, mentions in *.
  cbn [first_keyword TIME_KEYWORDS]. rewrite Y. repeat split; reflexivity.
Qed.

Lemma C10_yesterday_before_today_witness :
  mentions "today" "Today's games and YESTERDAY's results" = true
  /\ mentions "yesterday" "Today's games and YESTERDAY's results" = true
  /\ parse_date_from_query a_wednesday "Today's games and YESTERDAY's results"
     = Some ("2026-11-03", "relative").
Proof.
  split; [reflexivity | split; [reflexivity |]].
  exact (proj1 (C10_yesterday_before_today a_wednesday
                  "Today's games and YESTERDAY's results" eq_refl eq_refl)).
Defined.



(** ** Running computations *)

Lemma run_pbind {A B : Type} (w : world) (p : prog A) (f : A -> prog B) :
  forall made,
    run w made (pbind p f)
    = match run w made p with
      | (made', Ok a) => run w made' (f a)
      | (made', Raise e) => (made', Raise e)
      end.
Proof.
  induction p as [a | e | r k IH | r k IH]; intros made; simpl; auto.
Qed.

Lemma run_catch {A : Type} (w : world) (p : prog A) (h : exn -> prog A) :
  forall made,
    run w made (catch p h)
    = match run w made p with
      | (made', Ok a) => (made', Ok a)
      | (made', Raise e) => run w made' (h e)
      end.
Proof.
  induction p as [a | e | r k IH | r k IH]; intros made; simpl; auto.
Qed.

Lemma run_lift {A : Type} (w : world) (r : res A) (made : list request) :
  run w made (lift r) = (made, r).
Proof. destruct r; reflexivity. Qed.

Create Rewrite HintDb run.
#[local] Hint Rewrite @run_pbind @run_catch @run_lift : run.

Lemma run_get_matches_by_date (w : world) (made : list request) (date_str : string) :
  exists data, run w made (get_matches_by_date date_str)
               = ((made ++ [date_fetch date_str])%list, data).
Proof.
  unfold get_matches_by_date. simpl.
  destruct (on_get w made (GetMatches date_str)) as [response | e]; simpl; eauto.
  destruct (status_code response =? 200); simpl; eauto.
  rewrite run_lift. eauto.
Qed.

Lemma run_format_response_date (w : world) (made : list request) (query : string)
      (found : dict) :
  run w made (format_response_with_gemini query (JObj found) "date_matches")
  = ((made ++ [ReqPost (date_narration query found)])%list,
     Ok (narrated (on_post w made (date_narration query found)))).
Proof.
  unfold format_response_with_gemini, narration_prompt, date_narration.
  cbn [String.eqb Ascii.eqb Bool.eqb lift pbind catch run].
  destruct (on_post w made _); reflexivity.
Qed.

Lemma parse_date_nonempty (now : date) (query date_str date_type : string) :
  parse_date_from_query now query = Some (date_str, date_type) ->
  String.eqb date_str "" = false.
Proof.
  unfold parse_date_from_query.
  destruct (first_keyword _ _) as [[? ?] |];
    [| destruct (scan_patterns _ _)]; intros H; inversion H; reflexivity.
Qed.

Lemma add_date_context_nonempty (query date_str date_type : string) (d : dict) :
  d <> [] -> add_date_context query date_str date_type d <> [].
Proof.
  assert (S : forall k v (kv : dict), dict_set k v kv <> []).
  { intros k v [| [k' v'] r]; simpl; [| destruct (String.eqb k k')]; discriminate. }
  unfold add_date_context. intros H.
  destruct (String.eqb date_type "relative"); auto.
  destruct (first_keyword _ _) as [[? ?] |]; auto.
Qed.

Lemma format_matches_data_nonempty (data : json) (d : dict) :
  format_matches_data data = Ok d -> d <> [].
Proof.
  unfold format_matches_data.
  destruct (unusable data) as [[|] | e]; simpl; try discriminate.
  - intros H; inversion H; discriminate.
  - destruct (getitem data "matches") as [m | e]; simpl; try discriminate.
    destruct (iter m) as [l | e]; simpl; try discriminate.
    destruct (format_all l) as [f | e]; simpl; try discriminate.
    intros H; inversion H; discriminate.
Qed.

(** The Direct Date Path makes the one request of [get_matches_by_date] and
    never answers with an empty summary. *)
Lemma run_handle_date_based_query (w : world) (now : date) (query date_str date_type : string) :
  parse_date_from_query now query = Some (date_str, date_type) ->
  exists r, run w [] (handle_date_based_query now query) = ([date_fetch date_str], r)
            /\ match r with
               | Ok (Some found) => found <> []
               | Ok None => False
               | Raise _ => True
               end.
Proof.
  intros H. unfold handle_date_based_query. rewrite H.
  rewrite (parse_date_nonempty _ _ _ _ H).
  rewrite run_pbind.
  destruct (run_get_matches_by_date w [] date_str) as [data ->]. simpl app.
  destruct data as [data | e]; [| eexists; split; [reflexivity | exact I]].
  rewrite run_pbind, run_lift.
  destruct (format_matches_data data) as [d | e] eqn:F;
    [| eexists; split; [reflexivity | exact I]].
  simpl. eexists; split; [reflexivity |].
  apply add_date_context_nonempty. eapply format_matches_data_nonempty; eauto.
Qed.

(** ** Orchestrator: the date path comes first *)

(** C1.  When the Date Extractor returns a date for the query, the
    Orchestrator answers along the Direct Date Path: it fetches the matches
    of that date, and what the path found is narrated with mode
    "date_matches" and returned.  No request of the Endpoint Resolver and
    no call of the Normalizer is made, whatever the services answer (an
    exception met on the date path leaves the Orchestrator at once). *)
Theorem C1_date_path_takes_precedence
        (json_loads : string -> res json) (w : world) (now : date)
        (query date_str date_type : string) :
  parse_date_from_query now query = Some (date_str, date_type) ->
  existsb is_ask_endpoint (requests_of w (chatbot_response json_loads now query)) = false
  /\ existsb is_get_football (requests_of w (chatbot_response json_loads now query)) = false
  /\ exists r,
      run w [] (handle_date_based_query now query) = ([date_fetch date_str], r)
      /\ match r with
         | Ok (Some found) =>
             run w [] (chatbot_response json_loads now query)
             = run w [date_fetch date_str]
                   (format_response_with_gemini query (JObj found) "date_matches")
             /\ run w [] (chatbot_response json_loads now query)
                = ([date_fetch date_str; ReqPost (date_narration query found)],
                   Ok (narrated (on_post w [date_fetch date_str] (date_narration query found))))
         | Ok None => False
         | Raise e =>
             run w [] (chatbot_response json_loads now query) = ([date_fetch date_str], Raise e)
         end.
Proof.
  intros H.
  destruct (run_handle_date_based_query w now query date_str date_type H) as (r & Hr & Hne).
  assert (R : match r with
              | Ok (Some found) =>
                  run w [] (chatbot_response json_loads now query)
                  = ([date_fetch date_str; ReqPost (date_narration query found)],
                     Ok (narrated (on_post w [date_fetch date_str] (date_narration query found))))
              | Ok None => False
              | Raise e =>
                  run w [] (chatbot_response json_loads now query)
                  = ([date_fetch date_str], Raise e)
              end).
  { unfold chatbot_response. rewrite run_pbind, Hr.
    destruct r as [[found |] | e]; auto.
    destruct found as [| entry rest]; [contradiction |].
    apply run_format_response_date. }
  unfold requests_of.
  destruct r as [[found |] | e]; try contradiction.
  - rewrite R. repeat split; try reflexivity.
    exists (Ok (Some found)). split; auto. split; auto.
    rewrite run_format_response_date. reflexivity.
  - rewrite R. repeat split; try reflexivity.
    exists (Raise e). split; auto.
Qed.

Lemma C1_date_path_takes_precedence_witness :
  parse_date_from_query a_wednesday "Did Arsenal play today?" = Some ("2026-11-04", "relative")
  /\ existsb is_ask_endpoint
       (requests_of (calm_world "{}")
          (chatbot_response loads_examples a_wednesday "Did Arsenal play today?")) = false
  /\ outcome (calm_world "{}")
       (chatbot_response loads_examples a_wednesday "Did Arsenal play today?")
     = Ok "Arsenal beat Chelsea 2 - 1.".
Proof.
  split; [reflexivity |].
  split.
  - exact (proj1 (C1_date_path_takes_precedence loads_examples (calm_world "{}")
                    a_wednesday "Did Arsenal play today?" "2026-11-04" "relative" eq_refl)).
  - reflexivity.
Defined.

(** ** Match Formatter *)

Lemma get_path_cons (j : json) (k : string) (rest : list string) (v : json) :
  get_path j (k :: rest) = Some v ->
  exists u, getitem j k = Ok u /\ get_path u rest = Some v.
Proof.
  simpl. destruct j; try discriminate.
  destruct (lookup k kv) as [u |] eqn:L; try discriminate.
  intros H. exists u. simpl. rewrite L. auto.
Qed.

Lemma has_path_cons (j : json) (k : string) (rest : list string) :
  has_path j (k :: rest) = true ->
  exists u, getitem j k = Ok u /\ has_path u rest = true
            /\ get_path j (k :: rest) = get_path u rest.
Proof.
  unfold has_path. destruct (get_path j (k :: rest)) as [v |] eqn:G; try discriminate.
  intros _. destruct (get_path_cons _ _ _ _ G) as (u & Hu & Hv).
  exists u. rewrite Hv. auto.
Qed.

Lemma has_path_one (j : json) (k : string) :
  has_path j [k] = true ->
  exists u, getitem j k = Ok u /\ get_path j [k] = Some u.
Proof.
  intros H. destruct (has_path_cons _ _ _ H) as (u & Hu & _ & Hg).
  exists u. rewrite Hg. auto.
Qed.

Lemma has_path_two (j : json) (a b : string) :
  has_path j [a; b] = true ->
  exists u v, getitem j a = Ok u /\ getitem u b = Ok v /\ get_path j [a; b] = Some v.
Proof.
  intros H. destruct (has_path_cons _ _ _ H) as (u & Hu & Hr & Hg).
  destruct (has_path_one _ _ Hr) as (v & Hv & Hgv).
  exists u, v. rewrite Hg. auto.
Qed.

Lemma has_key (kv : dict) (k : string) :
  has k (JObj kv) = Ok (has_path (JObj kv) [k]).
Proof.
  unfold has, has_path. simpl. destruct (lookup k kv); reflexivity.
Qed.

Lemma full_time_path (match_ : json) (side : string) (v : json) :
  get_path match_ ["score"; "fullTime"; side] = Some v ->
  full_time match_ side = Ok v.
Proof.
  intros G. unfold full_time.
  destruct (get_path_cons _ _ _ _ G) as (s & Hs & G1).
  destruct (get_path_cons _ _ _ _ G1) as (f & Hf & G2).
  destruct (get_path_cons _ _ _ _ G2) as (h & Hh & G3).
  inversion G3; subst. rewrite Hs; simpl. rewrite Hf; simpl. exact Hh.
Qed.

Lemma no_score_path (match_ : json) (rest : list string) :
  has_path match_ ["score"] = false -> get_path match_ ("score" :: rest) = None.
Proof.
  unfold has_path. simpl. destruct match_; auto.
  destruct (lookup "score" kv); [discriminate | auto].
Qed.

Lemma format_match_well_formed (match_ : json) :
  well_formed match_ = true -> format_match match_ = Ok (summary match_).
Proof.
  unfold well_formed. intros H.
  rewrite !andb_true_iff in H.
  destruct H as (((((Wc & Wh) & Wa) & Wst) & Wdt) & Wscore).
  destruct (has_path_two _ _ _ Wc) as (c & cn & Hc & Hcn & Gc).
  destruct (has_path_two _ _ _ Wh) as (h & hn & Hh & Hhn & Gh).
  destruct (has_path_two _ _ _ Wa) as (a & an & Ha & Han & Ga).
  destruct (has_path_one _ _ Wst) as (st & Hst & Gst).
  destruct (has_path_one _ _ Wdt) as (dt & Hdt & Gdt).
  unfold format_match, summary, score_text.
  rewrite Hc; cbn [Json.bind]. rewrite Hcn; cbn [Json.bind].
  rewrite Hh; cbn [Json.bind]. rewrite Hhn; cbn [Json.bind].
  rewrite Ha; cbn [Json.bind]. rewrite Han; cbn [Json.bind].
  rewrite Hst; cbn [Json.bind]. rewrite Hdt; cbn [Json.bind].
  rewrite Gc, Gh, Ga, Gst, Gdt.
  unfold score_available.
  assert (D : exists kv, match_ = JObj kv).
  { destruct match_; try discriminate. eauto. }
  destruct D as [kv ->]. rewrite has_key. cbn [Json.bind].
  destruct (has_path (JObj kv) ["score"]) eqn:S.
  - destruct (get_path (JObj kv) ["score"; "fullTime"; "home"]) as [home |] eqn:Gh';
      [| discriminate].
    rewrite (full_time_path _ _ _ Gh'). cbn [Json.bind].
    destruct (is_none home) eqn:N; cbn [negb].
    + destruct (get_path (JObj kv) ["score"; "fullTime"; "away"]); reflexivity.
    + cbn [orb] in Wscore.
      unfold has_path in Wscore.
      destruct (get_path (JObj kv) ["score"; "fullTime"; "away"]) as [away |] eqn:Ga';
        [| discriminate].
      rewrite (full_time_path _ _ _ Ga'). reflexivity.
  - rewrite (no_score_path _ _ S). reflexivity.
Qed.

Lemma format_all_well_formed (records : list json) :
  (forall m, In m records -> well_formed m = true) ->
  format_all records = Ok (map summary records).
Proof.
  induction records as [| m rest IH]; intros H; simpl; auto.
  rewrite (format_match_well_formed m) by (apply H; left; auto).
  cbn [Json.bind]. rewrite IH by (intros; apply H; right; auto).
  reflexivity.
Qed.

(** C4, as the code has it.  On [None] and on an object that is empty, has
    no 'matches' entry or has an 'error' entry, the Match Formatter returns
    exactly {error: "No matches found or error in data"}.  On any other
    object whose 'matches' is a list of records that carry the keys read
    from them, it returns {matches: [...], count: N}, N being the number of
    records; the score of a summary is "home - away" when both full-time
    scores of the record are present and not null, and the text
    "Not played yet" when the record has no score or its full-time home
    score is null. *)
Theorem C4_format_matches_data :
  format_matches_data JNull = Ok no_matches_error
  /\ (forall kv,
        lookup "matches" kv = None \/ lookup "error" kv <> None ->
        format_matches_data (JObj kv) = Ok no_matches_error)
  /\ (forall kv records,
        lookup "matches" kv = Some (JArr records) ->
        lookup "error" kv = None ->
        (forall m, In m records -> well_formed m = true) ->
        format_matches_data (JObj kv)
        = Ok [ ("matches", JArr (map summary records));
               ("count", JInt (Z.of_nat (List.length records))) ]
        /\ forall i m, nth_error records i = Some m ->
             exists s, nth_error (map summary records) i = Some (JObj s)
                       /\ lookup "score" s = Some (JStr (score_text m))
                       /\ (forall home away,
                             get_path m ["score"; "fullTime"; "home"] = Some home ->
                             get_path m ["score"; "fullTime"; "away"] = Some away ->
                             home <> JNull -> away <> JNull ->
                             score_text m = Json.str home ++ " - " ++ Json.str away)
                       /\ (has_path m ["score"] = false
                           \/ get_path m ["score"; "fullTime"; "home"] = Some JNull ->
                           score_text m = "Not played yet"))
  /\ score_text (fixture JNull JNull) = "Not played yet"
  /\ score_text played_match = "2 - 1".
Proof.
  split; [reflexivity |]. split; [| split; [| split; reflexivity]].
  - intros kv H. unfold format_matches_data, unusable.
    destruct kv as [| entry rest]; [reflexivity |].
    cbn [truthy negb]. rewrite !has_key. unfold has_path. cbn [get_path Json.bind].
    destruct (lookup "matches" (entry :: rest)) as [m |]; [| reflexivity].
    cbn [negb]. destruct H as [H | H]; [discriminate |].
    destruct (lookup "error" (entry :: rest)); [reflexivity | contradiction].
  - intros kv records Hm He Hwf. split.
    + unfold format_matches_data, unusable.
      destruct kv as [| entry rest]; [discriminate |].
      cbn [truthy negb]. rewrite !has_key. unfold has_path. cbn [get_path Json.bind].
      rewrite Hm, He. cbn [negb Json.bind getitem]. rewrite Hm. cbn [Json.bind iter].
      rewrite (format_all_well_formed records Hwf). cbn [Json.bind].
      rewrite length_map. reflexivity.
    + intros i m Hi. rewrite nth_error_map, Hi. cbn [option_map].
      eexists. split; [reflexivity |]. split; [reflexivity |].
      unfold score_text. split.
      * intros home away -> -> Hh _.
        destruct home; try reflexivity. contradiction.
      * intros [Hs | ->].
        -- rewrite (no_score_path _ _ Hs). reflexivity.
        -- destruct (get_path m ["score"; "fullTime"; "away"]); reflexivity.
Qed.

Lemma C4_format_matches_data_witness :
  (lookup "matches" [("message", JStr "rate limit")] = None
   \/ lookup "error" [("message", JStr "rate limit")] <> None)
  /\ format_matches_data (JObj [("message", JStr "rate limit")]) = Ok no_matches_error
  /\ format_matches_data (JObj [("matches", JArr [played_match; fixture JNull JNull])])
     = Ok [ ("matches", JArr (map summary [played_match; fixture JNull JNull]));
            ("count", JInt 2) ].
Proof.
  assert (H : lookup "matches" [("message", JStr "rate limit")] = None
              \/ lookup "error" [("message", JStr "rate limit")] <> None)
    by (left; reflexivity).
  split; [exact H |]. split.
  - exact (proj1 (proj2 C4_format_matches_data) _ H).
  - refine (proj1 (proj1 (proj2 (proj2 C4_format_matches_data))
                     [("matches", JArr [played_match; fixture JNull JNull])]
                     [played_match; fixture JNull JNull] eq_refl eq_refl _)).
    intros m [<- | [<- | []]]; reflexivity.
Defined.

(** The statement of C4 on the away score does not hold: a record with a
    home score of 2 and a null away score is given the score "2 - None",
    where "both scores present and not null, else Not played yet" asks for
    "Not played yet". *)
Lemma C4_null_away_score_counterexample :
  well_formed (fixture (JInt 2) JNull) = true
  /\ score_text_spec (fixture (JInt 2) JNull) = "Not played yet"
  /\ exists s,
       format_matches_data (JObj [("matches", JArr [fixture (JInt 2) JNull])])
       = Ok [("matches", JArr [JObj s]); ("count", JInt 1)]
       /\ lookup "score" s = Some (JStr "2 - None")
       /\ lookup "score" s <> Some (JStr (score_text_spec (fixture (JInt 2) JNull))).
Proof.
  split; [reflexivity |]. split; [reflexivity |].
  eexists. split; [reflexivity |]. split; [reflexivity |]. discriminate.
Qed.

(** ** API Call Normalizer *)

Lemma prefix_split (p s : string) :
  String.prefix p s = true -> exists rest, s = p ++ rest.
Proof.
  revert s. induction p as [| c p IH]; intros s H.
  - exists s. reflexivity.
  - destruct s as [| c' s]; simpl in H; [discriminate |].
    destruct (ascii_dec c c') as [<- | ne]; [| discriminate].
    destruct (IH s H) as [rest ->]. exists rest. reflexivity.
Qed.

(** Filling a placeholder leaves the head [/competitions/] of a path alone. *)
Lemma replace_keeps_competitions (endpoint param text : string) :
  startswith endpoint "/competitions/" = true ->
  startswith (replace endpoint ("{" ++ param ++ "}") text) "/competitions/" = true.
Proof.
  unfold startswith. intros H.
  destruct (prefix_split _ _ H) as [rest ->].
  unfold replace. simpl.
  destruct (replace_from _ _ _ rest); reflexivity.
Qed.

Lemma substitute_param_competitions (endpoint param : string) (value : json) :
  startswith endpoint "/competitions/" = true ->
  id_is_text (param, value) = true ->
  substitute_param (JStr endpoint) param value
  = Ok (JStr (fill_placeholder endpoint (param, value))).
Proof.
  intros Hs Hid.
  unfold substitute_param, fill_placeholder, competition_param_text, id_is_text in *.
  cbn [fst snd method_str Json.bind] in *.
  destruct (String.eqb param "id") eqn:E.
  - rewrite Hs. destruct value; try discriminate.
    unfold competition_code, competition_id_rule. cbn [py_len Json.bind].
    destruct (len s <=? 3); cbn [method_str Json.bind Json.str];
      match goal with
      | |- context [table_get ?k ?t] => destruct (table_get k t)
      end; reflexivity.
  - destruct value; reflexivity.
Qed.

Lemma substitute_params_competitions (items : dict) :
  forall endpoint,
    startswith endpoint "/competitions/" = true ->
    forallb id_is_text items = true ->
    substitute_params (JStr endpoint) items
    = Ok (JStr (fold_left fill_placeholder items endpoint)).
Proof.
  induction items as [| [param value] rest IH]; intros endpoint Hs Hid; simpl.
  - reflexivity.
  - simpl in Hid. apply andb_prop in Hid. destruct Hid as [Hid Hrest].
    rewrite (substitute_param_competitions endpoint param value Hs Hid).
    cbn [Json.bind]. apply IH; auto.
    apply replace_keeps_competitions; auto.
Qed.

Lemma length_lower (s : string) : String.length (lower s) = String.length s.
Proof. induction s; simpl; auto. Qed.

Lemma length_upper (s : string) : String.length (upper s) = String.length s.
Proof. induction s; simpl; auto. Qed.

Lemma competition_names_are_long (k code : string) :
  table_get k COMPETITION_CODES = Some code -> (7 <= String.length k)%nat.
Proof.
  unfold COMPETITION_CODES, table_get.
  repeat match goal with
         | |- context [String.eqb k ?name] =>
             destruct (String.eqb_spec k name) as [-> | _]; [intros _; simpl; lia |]
         end.
  discriminate.
Qed.

Lemma short_id_is_uppercased (value : string) :
  len value <= 3 -> competition_id_rule value = upper value.
Proof.
  intros H. unfold competition_id_rule.
  destruct (Z.leb_spec (len value) 3) as [_ | ?]; [| lia].
  destruct (table_get (lower (upper value)) COMPETITION_CODES) as [code |] eqn:T; auto.
  apply competition_names_are_long in T.
  rewrite length_lower, length_upper in T. unfold len in H. lia.
Qed.

(** C5.  In a resolved call whose endpoint starts with "/competitions/", the
    value given for 'id' is upper-cased when it has at most three
    characters and then, when its lower-cased form is a key of the
    Competition Code Table, replaced by the code of the table; the outcome
    fills the placeholder {id}.  So "PL" stays "PL", "Premier League" and
    "premier league" become "PL", and a value of three letters that the
    table does not know is used upper-cased. *)
Theorem C5_competition_id (endpoint : string) (items : dict) :
  startswith endpoint "/competitions/" = true ->
  forallb id_is_text items = true ->
  substitute_params (JStr endpoint) items
  = Ok (JStr (fold_left fill_placeholder items endpoint))
  /\ (forall kv,
        lookup "endpoint" kv = Some (JStr endpoint) ->
        lookup "params" kv = Some (JObj items) ->
        build_request (JObj kv)
        = (filter_items <- items_of (JObj kv) "filters" ;;
           params <- normalize_filters filter_items [] ;;
           Ok (FOOTBALL_BASE_URL ++ fold_left fill_placeholder items endpoint, params)))
  /\ (forall value,
        In ("id", JStr value) items ->
        competition_code (JStr value) = Ok (JStr (competition_id_rule value))
        /\ competition_param_text "id" (JStr value) = competition_id_rule value)
  /\ competition_id_rule "PL" = "PL"
  /\ competition_id_rule "Premier League" = "PL"
  /\ competition_id_rule "premier league" = "PL"
  /\ competition_id_rule "xyz" = "XYZ"
  /\ (forall value,
        len value <= 3 ->
        table_get (lower (upper value)) COMPETITION_CODES = None
        /\ competition_id_rule value = upper value).
Proof.
  intros Hs Hid. split; [apply substitute_params_competitions; auto |].
  split; [| split].
  - intros kv He Hp. unfold build_request, items_of.
    rewrite !has_key. unfold has_path. cbn [get_path getitem].
    rewrite He, Hp. cbn [Json.bind].
    destruct items as [| item rest]; cbn [truthy method_dict Json.bind].
    + reflexivity.
    + rewrite (substitute_params_competitions (item :: rest) endpoint Hs Hid).
      reflexivity.
  - intros value _. split; [| reflexivity].
    unfold competition_code, competition_id_rule. cbn [py_len Json.bind].
    destruct (len value <=? 3); cbn [method_str Json.bind];
      match goal with
      | |- context [table_get ?k ?t] => destruct (table_get k t)
      end; reflexivity.
  - repeat (split; [reflexivity |]).
    intros value H. split; [| apply short_id_is_uppercased; auto].
    destruct (table_get (lower (upper value)) COMPETITION_CODES) as [code |] eqn:T; auto.
    apply competition_names_are_long in T.
    rewrite length_lower, length_upper in T. unfold len in H. lia.
Qed.

Lemma C5_competition_id_witness :
  startswith "/competitions/{id}/matches" "/competitions/" = true
  /\ forallb id_is_text [("id", JStr "Premier League")] = true
  /\ substitute_params (JStr "/competitions/{id}/matches") [("id", JStr "Premier League")]
     = Ok (JStr "/competitions/PL/matches")
  /\ build_request (JObj [ ("endpoint", JStr "/competitions/{id}/matches");
                           ("params", JObj [("id", JStr "Premier League")]) ])
     = Ok ("https://api.football-data.org/v4/competitions/PL/matches", []).
Proof.
  split; [reflexivity |]. split; [reflexivity |].
  split.
  - exact (proj1 (C5_competition_id "/competitions/{id}/matches"
                    [("id", JStr "Premier League")] eq_refl eq_refl)).
  - exact (proj1 (proj2 (C5_competition_id "/competitions/{id}/matches"
                           [("id", JStr "Premier League")] eq_refl eq_refl))
             [ ("endpoint", JStr "/competitions/{id}/matches");
               ("params", JObj [("id", JStr "Premier League")]) ] eq_refl eq_refl).
Defined.

Lemma dict_set_fresh (k : string) (v : json) (kv : dict) :
  ~ In k (map fst kv) -> dict_set k v kv = (kv ++ [(k, v)])%list.
Proof.
  induction kv as [| [k' v'] r IH]; simpl; intros H; auto.
  destruct (String.eqb_spec k k') as [-> | ne].
  - exfalso. apply H. left. reflexivity.
  - rewrite IH; auto.
Qed.

Lemma date_filter_is_not_status (filter_name : string) :
  is_date_filter filter_name = true -> String.eqb filter_name "status" = false.
Proof.
  unfold is_date_filter. simpl.
  destruct (String.eqb_spec filter_name "date") as [-> | _]; [reflexivity |].
  destruct (String.eqb_spec filter_name "dateFrom") as [-> | _]; [reflexivity |].
  destruct (String.eqb_spec filter_name "dateTo") as [-> | _]; [reflexivity |].
  discriminate.
Qed.

Lemma first_parse_rule (s : string) :
  match first_parse date_formats s with
  | Some parsed_date => strftime_ymd parsed_date
  | None => s
  end = date_filter_rule s.
Proof.
  unfold date_filter_rule, date_formats, first_parse.
  repeat match goal with
         | |- context [strptime s ?fmt] => destruct (strptime s fmt); [reflexivity |]
         end.
  reflexivity.
Qed.

Lemma normalize_filter_rule (filter_name : string) (value : json) :
  status_is_text (filter_name, value) = true ->
  normalize_filter filter_name value = Ok (filter_rule filter_name value).
Proof.
  unfold status_is_text, normalize_filter, reformat_date, map_status, filter_rule.
  cbn [fst snd]. intros Ht.
  assert (D : is_date_filter filter_name
              = String.eqb filter_name "date" || String.eqb filter_name "dateFrom"
                || String.eqb filter_name "dateTo").
  { unfold is_date_filter. simpl. rewrite orb_false_r, orb_assoc. reflexivity. }
  rewrite <- D.
  destruct (is_date_filter filter_name) eqn:F.
  - rewrite (date_filter_is_not_status _ F). cbn [andb].
    destruct value; try (destruct (truthy _); reflexivity).
    rewrite <- first_parse_rule.
    destruct s as [| c s]; [reflexivity |].
    cbn [truthy String.eqb negb].
    destruct (first_parse date_formats (String c s)); reflexivity.
  - cbn [andb]. destruct (String.eqb filter_name "status").
    + destruct value; try discriminate. cbn [method_str Json.bind].
      unfold status_rule. destruct (table_get (lower s) STATUS_MAPPING); reflexivity.
    + destruct value; reflexivity.
Qed.

Lemma normalize_filters_rule (items : dict) :
  forall params,
    NoDup (map fst params ++ map fst items) ->
    forallb status_is_text items = true ->
    normalize_filters items params
    = Ok (params ++ map (fun item => (fst item, filter_rule (fst item) (snd item))) items)%list.
Proof.
  induction items as [| [filter_name value] rest IH]; intros params Hnd Ht; simpl.
  - rewrite app_nil_r. reflexivity.
  - simpl in Ht. apply andb_prop in Ht. destruct Ht as [Ht Hrest].
    rewrite (normalize_filter_rule _ _ Ht). cbn [Json.bind].
    rewrite dict_set_fresh.
    + rewrite IH; auto.
      * rewrite <- app_assoc. reflexivity.
      * rewrite map_app, <- app_assoc. exact Hnd.
    + simpl in Hnd.
      apply NoDup_remove_2 in Hnd. intros Hin. apply Hnd.
      apply in_or_app. left. exact Hin.
Qed.



(** ** Endpoint Resolver *)

Lemma run_handle_no_date (w : world) (now : date) (query : string) :
  parse_date_from_query now query = None ->
  run w [] (handle_date_based_query now query) = ([], Ok None).
Proof. intros H. unfold handle_date_based_query. rewrite H. reflexivity. Qed.

Lemma run_ask_gemini_for_endpoint (json_loads : string -> res json) (w : world)
      (made : list request) (query : string) :
  run w made (ask_gemini_for_endpoint json_loads query)
  = ((made ++ [ReqPost (AskEndpoint query)])%list,
     Ok match on_post w made (AskEndpoint query) with
        | Ok json_text =>
            match json_loads (extract_json_text json_text) with
            | Ok endpoint_info => endpoint_info
            | Raise _ => JNull
            end
        | Raise _ => JNull
        end).
Proof.
  unfold ask_gemini_for_endpoint. simpl.
  autorewrite with run.
  destruct (on_post w made (AskEndpoint query)) as [json_text | e]; [| reflexivity].
  autorewrite with run.
  destruct (json_loads (extract_json_text json_text)); reflexivity.
Qed.

(** C7, as the code has it.  The text handed to the JSON parser is the
    content of the fenced json block when the reply has one, else the span
    from the first opening brace to the last closing brace when there is
    one, else the whole reply.  When that text fails to parse as JSON, or
    the request to the model fails, resolution returns absent; and on an
    absent resolution the Orchestrator returns the fixed clarification
    message without a call of the API. *)
Theorem C7_resolver_extraction
        (json_loads : string -> res json) (w : world) (now : date) (query : string) :
  parse_date_from_query now query = None ->
  (exists e, on_post w [] (AskEndpoint query) = Raise e)
  \/ (exists json_text e,
        on_post w [] (AskEndpoint query) = Ok json_text
        /\ json_loads (extract_json_text json_text) = Raise e) ->
  (forall reply,
      match Re.search_fenced reply, Re.search_braces reply with
      | Some fenced, _ => extract_json_text reply = fenced
      | None, Some span => extract_json_text reply = span
      | None, None => extract_json_text reply = reply
      end)
  /\ run w [] (ask_gemini_for_endpoint json_loads query)
     = ([ReqPost (AskEndpoint query)], Ok JNull)
  /\ run w [] (chatbot_response json_loads now query)
     = ([ReqPost (AskEndpoint query)], Ok clarification).
Proof.
  intros Hd Hfail.
  assert (R : run w [] (ask_gemini_for_endpoint json_loads query)
              = ([ReqPost (AskEndpoint query)], Ok JNull)).
  { rewrite run_ask_gemini_for_endpoint. simpl app.
    destruct Hfail as [[e ->] | (json_text & e & -> & ->)]; reflexivity. }
  split; [| split; [exact R |]].
  - intros reply. unfold extract_json_text.
    destruct (Re.search_fenced reply); [reflexivity |].
    destruct (Re.search_braces reply); reflexivity.
  - unfold chatbot_response.
    rewrite run_pbind, (run_handle_no_date w now query Hd), run_pbind, R.
    reflexivity.
Qed.

Lemma C7_resolver_extraction_witness :
  parse_date_from_query a_wednesday "Who tops the table?" = None
  /\ loads_examples (extract_json_text "I am not sure which endpoint fits.")
     = Raise (ValueError "Expecting value: line 1 column 1 (char 0)")
  /\ run (calm_world "I am not sure which endpoint fits.") []
         (chatbot_response loads_examples a_wednesday "Who tops the table?")
     = ([ReqPost (AskEndpoint "Who tops the table?")], Ok clarification).
Proof.
  split; [reflexivity |]. split; [reflexivity |].
  refine (proj2 (proj2 (C7_resolver_extraction loads_examples
                          (calm_world "I am not sure which endpoint fits.")
                          a_wednesday "Who tops the table?" eq_refl _))).
  right. exists "I am not sure which endpoint fits.".
  exists (ValueError "Expecting value: line 1 column 1 (char 0)").
  split; reflexivity.
Defined.

(** The statement of C7 on a reply with neither a fenced block nor a brace
    span does not hold: the reply [[1]] has neither, it is parsed as it is,
    resolution returns the list and the Orchestrator does not return the
    clarification message. *)
Lemma C7_bare_json_counterexample :
  Re.search_fenced "[1]" = None
  /\ Re.search_braces "[1]" = None
  /\ outcome (calm_world "[1]") (ask_gemini_for_endpoint loads_examples "Who tops the table?")
     = Ok (JArr [JInt 1])
  /\ outcome (calm_world "[1]") (ask_gemini_for_endpoint loads_examples "Who tops the table?")
     <> Ok JNull
  /\ outcome (calm_world "[1]")
       (chatbot_response loads_examples a_wednesday "Who tops the table?")
     = Ok (apology (AttributeError "'list' object has no attribute 'get'"))
  /\ outcome (calm_world "[1]")
       (chatbot_response loads_examples a_wednesday "Who tops the table?")
     <> Ok clarification.
Proof.
  repeat (split; [reflexivity |]). split; [discriminate |].
  split; [reflexivity |].
  vm_compute. discriminate.
Qed.

(** ** Failures of the API call *)

Lemma make_football_api_call_returns (w : world) (made : list request) (endpoint_info : json) :
  exists made' api_response,
    run w made (make_football_api_call endpoint_info) = (made', Ok api_response).
Proof.
  unfold make_football_api_call. rewrite run_catch.
  match goal with
  | |- context [run w made ?p] => destruct (run w made p) as [made' [j | e]]
  end; simpl; eauto.
Qed.

(** When the URL or the parameters cannot be built, no request is made
    and the exception becomes the error payload. *)
Lemma make_football_api_call_not_built (w : world) (made : list request)
      (endpoint_info : json) (e : exn) :
  build_request endpoint_info = Raise e ->
  run w made (make_football_api_call endpoint_info) = (made, Ok (error_payload e)).
Proof.
  intros H. unfold make_football_api_call.
  autorewrite with run. rewrite H. reflexivity.
Qed.

(** A competition id or a status that is not a text ends the call there. *)
Lemma competition_code_of_number (n : Z) :
  competition_code (JInt n) = Raise (TypeError "object of type 'int' has no len()").
Proof. reflexivity. Qed.

Lemma map_status_of_null :
  normalize_filter "status" JNull
  = Raise (AttributeError "'NoneType' object has no attribute 'lower'").
Proof. reflexivity. Qed.

Lemma build_request_of_dict (endpoint_info : json) (url : string) (params : dict) :
  build_request endpoint_info = Ok (url, params) ->
  exists kv endpoint, endpoint_info = JObj kv /\ lookup "endpoint" kv = Some endpoint.
Proof.
  unfold build_request. destruct endpoint_info; simpl; try discriminate.
  destruct (lookup "endpoint" kv) as [endpoint |] eqn:L; simpl; [eauto | discriminate].
Qed.

(** C8.  A call of the Normalizer never lets an exception out.  When the
    request to the data provider fails in transport, or is answered with an
    error status (400 to 599, which [raise_for_status] refuses), the call
    returns {error: message}; the Orchestrator goes on, hands the resolved
    call together with this error payload to the narrator in mode
    "api_response", and returns what the narrator returns. *)
Theorem C8_api_failure_is_narrated
        (json_loads : string -> res json) (w : world) (now : date) (query : string)
        (made : list request) (endpoint_info : json) (url : string) (params : dict)
        (e : exn) :
  parse_date_from_query now query = None ->
  run w [] (ask_gemini_for_endpoint json_loads query) = (made, Ok endpoint_info) ->
  truthy endpoint_info = true ->
  build_request endpoint_info = Ok (url, params) ->
  on_get w made (GetFootball url params) = Raise e
  \/ (exists response,
        on_get w made (GetFootball url params) = Ok response
        /\ 400 <= status_code response < 600
        /\ e = HTTPError (http_error response)) ->
  (forall w' made' info, exists made'' api_response,
      run w' made' (make_football_api_call info) = (made'', Ok api_response))
  /\ run w made (make_football_api_call endpoint_info)
     = ((made ++ [ReqGet (GetFootball url params)])%list,
        Ok (JObj [("error", JStr (str_exn e))]))
  /\ run w [] (chatbot_response json_loads now query)
     = run w (made ++ [ReqGet (GetFootball url params)])%list
           (format_response_with_gemini query
              (api_payload endpoint_info (JObj [("error", JStr (str_exn e))]))
              "api_response")
  /\ exists endpoint prompt,
      get_path endpoint_info ["endpoint"] = Some endpoint
      /\ prompt = api_response_prompt query (Json.str endpoint)
                    (dumps (JObj [("error", JStr (str_exn e))]))
      /\ run w [] (chatbot_response json_loads now query)
         = ((made ++ [ReqGet (GetFootball url params); ReqPost (AskNarration prompt)])%list,
            Ok (narrated (on_post w (made ++ [ReqGet (GetFootball url params)])%list
                            (AskNarration prompt)))).
Proof.
  intros Hd Hr Ht Hb Hfail.
  assert (C : run w made (make_football_api_call endpoint_info)
              = ((made ++ [ReqGet (GetFootball url params)])%list, Ok (error_payload e))).
  { unfold make_football_api_call.
    rewrite run_catch, run_pbind, run_lift, Hb. cbn [fst snd run].
    rewrite run_pbind, run_lift.
    destruct Hfail as [-> | (response & -> & Hs & ->)]; [reflexivity |].
    rewrite run_pbind, run_lift. unfold raise_for_status.
    destruct (Z.leb_spec 400 (status_code response)); [| lia].
    destruct (Z.ltb_spec (status_code response) 600); [| lia].
    reflexivity. }
  assert (O : run w [] (chatbot_response json_loads now query)
              = run w (made ++ [ReqGet (GetFootball url params)])%list
                    (format_response_with_gemini query
                       (api_payload endpoint_info (error_payload e)) "api_response")).
  { unfold chatbot_response.
    rewrite run_pbind, (run_handle_no_date w now query Hd), run_pbind, Hr, Ht.
    cbn [negb]. rewrite run_pbind, C. reflexivity. }
  split; [intros; apply make_football_api_call_returns |].
  split; [exact C |]. split; [exact O |].
  destruct (build_request_of_dict _ _ _ Hb) as (kv & endpoint & -> & He).
  exists endpoint. eexists. split; [simpl; rewrite He; reflexivity |].
  split; [reflexivity |].
  rewrite O. unfold format_response_with_gemini, narration_prompt, api_payload, get_default.
  cbn [String.eqb Ascii.eqb Bool.eqb method_dict Json.bind lookup].
  rewrite He. cbn [Json.bind lift pbind catch run].
  rewrite <- app_assoc. cbn [app].
  destruct (on_post w _ _); reflexivity.
Qed.

Lemma C8_api_failure_is_narrated_witness :
  parse_date_from_query a_wednesday "Premier League standings" = None
  /\ run (calm_world standings_reply) []
         (chatbot_response loads_examples a_wednesday "Premier League standings")
     = ([ ReqPost (AskEndpoint "Premier League standings");
          ReqGet (GetFootball "https://api.football-data.org/v4/competitions/PL/standings" []);
          ReqPost (AskNarration
                     (api_response_prompt "Premier League standings"
                        "/competitions/{id}/standings"
                        (dumps (JObj [("error", JStr "404 Client Error: Not Found")])))) ],
        Ok "Arsenal beat Chelsea 2 - 1.").
Proof.
  split; [reflexivity |].
  destruct (C8_api_failure_is_narrated loads_examples (calm_world standings_reply)
              a_wednesday "Premier League standings"
              [ReqPost (AskEndpoint "Premier League standings")]
              (JObj [ ("endpoint", JStr "/competitions/{id}/standings");
                      ("params", JObj [("id", JStr "PL")]) ])
              "https://api.football-data.org/v4/competitions/PL/standings" []
              (HTTPError "404 Client Error: Not Found")
              eq_refl eq_refl eq_refl eq_refl)
    as (_ & _ & _ & endpoint & prompt & He & Hp & Hrun).
  - right. eexists. split; [reflexivity |]. split; [simpl; lia | reflexivity].
  - rewrite Hrun, Hp. injection He as <-. reflexivity.
Defined.

(** ** Response Narrator *)

Lemma truncated_long (text : string) :
  10000 < len text -> truncated text = take (Z.to_nat 10000) text ++ "...".
Proof.
  intros H. unfold truncated.
  destruct (Z.ltb_spec 10000 (len text)); [reflexivity | lia].
Qed.

Lemma truncated_short (text : string) :
  len text <= 10000 -> truncated text = text.
Proof.
  intros H. unfold truncated.
  destruct (Z.ltb_spec 10000 (len text)); [lia | reflexivity].
Qed.

(** In mode "date_matches" the prompt carries the serialized payload cut to
    its first 10,000 characters and the mark "...". *)
Lemma date_matches_prompt_is_truncated (query : string) (data : json) :
  narration_prompt query data "date_matches"
  = Ok (date_matches_prompt query (truncated (dumps data))).
Proof. reflexivity. Qed.

(** In mode "api_response" the cut text is computed and not used: the
    prompt carries the whole serialized 'api_response'. *)
Lemma api_response_prompt_is_whole (query : string) (endpoint_info api_response endpoint : json) :
  get_path endpoint_info ["endpoint"] = Some endpoint ->
  narration_prompt query (api_payload endpoint_info api_response) "api_response"
  = Ok (api_response_prompt query (Json.str endpoint) (dumps api_response)).
Proof.
  intros H. destruct (get_path_cons _ _ _ _ H) as (u & Hu & Hv).
  inversion Hv; subst u.
  destruct endpoint_info; try discriminate.
  simpl in Hu. destruct (lookup "endpoint" kv) eqn:L; inversion Hu; subst.
  unfold narration_prompt, api_payload, get_default.
  cbn [String.eqb Ascii.eqb Bool.eqb method_dict Json.bind lookup].
  rewrite L. reflexivity.
Qed.

(** C9 at a payload whose 'api_response' serializes to more than 10,000
    characters, in mode "api_response": the prompt carries all of them and
    no mark "...", where the narrator is said to cut the data to its first
    10,000 characters and to add the mark; in mode "date_matches" the same
    payload is cut. *)
Theorem C9_api_response_is_not_truncated (w : world) :
  len (dumps long_api_response) = 10013
  /\ narration_prompt "Any news?" long_payload "api_response"
     = Ok (api_response_prompt "Any news?" "/matches" (dumps long_api_response))
  /\ requests_of w (format_response_with_gemini "Any news?" long_payload "api_response")
     = [ReqPost (AskNarration
                   (api_response_prompt "Any news?" "/matches" (dumps long_api_response)))]
  /\ contains "..." (api_response_prompt "Any news?" "/matches" (dumps long_api_response))
     = false
  /\ api_response_prompt "Any news?" "/matches" (dumps long_api_response)
     <> api_response_prompt "Any news?" "/matches" (truncated (dumps long_api_response))
  /\ narration_prompt "Any news?" long_payload "date_matches"
     = Ok (date_matches_prompt "Any news?"
             (take (Z.to_nat 10000) (dumps long_payload) ++ "...")).
Proof.
  assert (P : narration_prompt "Any news?" long_payload "api_response"
              = Ok (api_response_prompt "Any news?" "/matches" (dumps long_api_response)))
    by (vm_compute; reflexivity).
  split; [vm_compute; reflexivity |].
  split; [exact P |].
  split.
  { unfold requests_of, format_response_with_gemini. rewrite P.
    cbn [lift pbind catch run app].
    destruct (on_post w [] _); reflexivity. }
  split; [vm_compute; reflexivity |].
  split.
  - intros H. apply (f_equal len) in H. vm_compute in H. discriminate.
  - rewrite date_matches_prompt_is_truncated, truncated_long; [reflexivity |].
    vm_compute. reflexivity.
Qed.

(* Lemmas on text *)
Lemma lower_app (a b : string) : lower (a ++ b) = lower a ++ lower b.
Proof. induction a as [| c a IH]; simpl; [reflexivity | rewrite IH; reflexivity]. Qed.

Lemma prefix_app_self (k b : string) : String.prefix k (k ++ b) = true.
Proof.
  induction k as [| c k IH]; simpl.
  - destruct b; reflexivity.
  - destruct (ascii_dec c c) as [_ | ne]; [exact IH | contradiction].
Qed.

Lemma contains_unfold (k hay : string) :
  contains k hay
  = String.prefix k hay
    || match hay with
       | EmptyString => false
       | String _ r => contains k r
       end.
Proof. destruct hay; reflexivity. Qed.

Lemma contains_app (k a b : string) : contains k (a ++ k ++ b) = true.
Proof.
  induction a as [| c a IH].
  - cbn [String.append]. rewrite contains_unfold, prefix_app_self. reflexivity.
  - cbn [String.append]. rewrite contains_unfold, IH. apply orb_true_r.
Qed.

Lemma contains_other_chars (k0 : ascii) (k s : string) (p : ascii -> bool) :
  p k0 = false -> all_chars p s = true -> contains (String k0 k) s = false.
Proof.
  intros Hk. induction s as [| c s IH]; simpl; intros H.
  - reflexivity.
  - apply andb_prop in H. destruct H as [Hc Hs].
    destruct (ascii_dec k0 c) as [<- | ne]; [congruence |].
    apply IH; auto.
Qed.

Lemma strftime_ymd_chars (d : date) : all_chars date_char (strftime_ymd d) = true.
Proof.
  unfold strftime_ymd, four_digits, two_digits, date_char.
  cbn [String.append all_chars]. rewrite !digit_char_is_digit. reflexivity.
Qed.

Lemma strftime_ymd_no_keyword (d : date) (keyword : string) (offset : Z) :
  In (keyword, offset) TIME_KEYWORDS -> mentions keyword (strftime_ymd d) = false.
Proof.
  assert (L : lower (strftime_ymd d) = strftime_ymd d).
  { unfold strftime_ymd, four_digits, two_digits. cbn [String.append lower].
    assert (D : forall n, lower_char (digit_char n) = digit_char n).
    { intros n. unfold lower_char.
      pose proof (digit_char_is_digit n) as H. unfold is_digit, is_upper in *.
      apply andb_prop in H. destruct H as [_ H]. apply N.leb_le in H.
      destruct (N.leb_spec 65 (code (digit_char n))); [lia | reflexivity]. }
    rewrite !D. reflexivity. }
  unfold mentions. rewrite L. pose proof (strftime_ymd_chars d) as C.
  intros [H | [H | [H | []]]]; inversion H; subst;
    apply (contains_other_chars _ _ _ date_char); auto.
Qed.

(** * Further properties *)

(** ** Date Extractor *)

Lemma valid_next_day (d : date) :
  valid_date d = true -> year d < 9999 -> valid_date (next_day d) = true.
Proof.
  rewrite !valid_date_spec. destruct d as [y m dd]. cbn [year month day].
  intros (Hy & Hm & Hd) Hlt. unfold next_day. cbn [year month day].
  pose proof (days_in_month_bounds y (m + 1)) as B.
  pose proof (days_in_month_bounds (y + 1) 1) as B'.
  destruct (Z.ltb_spec dd (days_in_month y m)); cbn [year month day]; [lia |].
  destruct (Z.ltb_spec m 12); cbn [year month day]; lia.
Qed.

Lemma valid_prev_day (d : date) :
  valid_date d = true -> 1 < year d -> valid_date (prev_day d) = true.
Proof.
  rewrite !valid_date_spec. destruct d as [y m dd]. cbn [year month day].
  intros (Hy & Hm & Hd) Hlt. unfold prev_day. cbn [year month day].
  pose proof (days_in_month_bounds y (m - 1)) as B.
  destruct (Z.ltb_spec 1 dd); cbn [year month day]; [lia |].
  destruct (Z.ltb_spec 1 m); cbn [year month day]; [lia |].
  replace (days_in_month (y - 1) 12) with 31 by reflexivity. lia.
Qed.

Lemma clock_ok_spec (now : date) :
  clock_ok now = true <-> valid_date now = true /\ 1 < year now < 9999.
Proof.
  unfold clock_ok. rewrite !andb_true_iff, !Z.ltb_lt. tauto.
Qed.

Lemma valid_add_days (now : date) (keyword : string) (offset : Z) :
  clock_ok now = true ->
  In (keyword, offset) TIME_KEYWORDS ->
  valid_date (add_days now offset) = true.
Proof.
  rewrite clock_ok_spec. intros (V & Hy) [H | [H | [H | []]]]; inversion H; subst.
  - apply valid_prev_day; auto; lia.
  - exact V.
  - apply valid_next_day; auto; lia.
Qed.

Lemma first_keyword_found (keywords : list (string * Z)) (text keyword : string) (offset : Z) :
  first_keyword keywords text = Some (keyword, offset) ->
  In (keyword, offset) keywords /\ contains keyword text = true.
Proof.
  induction keywords as [| [k o] rest IH]; simpl; [discriminate |].
  destruct (contains k text) eqn:C.
  - intros H; inversion H; subst. auto.
  - intros H. destruct (IH H). auto.
Qed.

Lemma first_keyword_absent (keywords : list (string * Z)) (text : string) :
  first_keyword keywords text = None ->
  forall keyword offset, In (keyword, offset) keywords -> contains keyword text = false.
Proof.
  induction keywords as [| [k o] rest IH]; simpl; intros H keyword offset Hin.
  - contradiction.
  - destruct (contains k text) eqn:C; [discriminate |].
    destruct Hin as [E | Hin]; [inversion E; subst; exact C | eauto].
Qed.

Lemma scan_patterns_valid (patterns : list (list Re.atom * string)) (query : string) (d : date) :
  scan_patterns patterns query = Some d -> valid_date d = true.
Proof.
  induction patterns as [| p rest IH]; simpl; [discriminate |].
  unfold try_pattern.
  destruct (Re.search (fst p) query) as [m |]; auto.
  destruct (strptime m (snd p)) as [d' |] eqn:P; auto.
  intros H; inversion H; subst. eapply strptime_valid; eauto.
Qed.

Lemma parse_date_is_valid_date (now : date) (query date_str date_type : string) :
  clock_ok now = true ->
  parse_date_from_query now query = Some (date_str, date_type) ->
  exists d, valid_date d = true /\ date_str = strftime_ymd d.
Proof.
  intros Hc. unfold parse_date_from_query.
  destruct (first_keyword TIME_KEYWORDS (lower query)) as [[keyword offset] |] eqn:K.
  - destruct (first_keyword_found _ _ _ _ K) as [Hin _].
    intros H; inversion H; subst. eexists. split; [eapply valid_add_days; eauto | reflexivity].
  - destruct (scan_patterns date_patterns query) as [d |] eqn:S; [| discriminate].
    intros H; inversion H; subst. eexists. split; [eapply scan_patterns_valid; eauto | reflexivity].
Qed.



Lemma parse_iso_text (now : date) (d : date) :
  valid_date d = true ->
  parse_date_from_query now (strftime_ymd d) = Some (strftime_ymd d, "specific").
Proof.
  intros V. unfold parse_date_from_query.
  assert (K : first_keyword TIME_KEYWORDS (lower (strftime_ymd d)) = None).
  { apply first_keyword_none; eapply strftime_ymd_no_keyword; simpl; eauto. }
  rewrite K.
  assert (S : Re.search (fst (nth 0 date_patterns ([], ""))) (strftime_ymd d)
              = Some (strftime_ymd d)).
  { pose proof (strftime_ymd_shape d) as Sh. unfold is_iso_date in Sh.
    destruct (strftime_ymd d) as [| c r] eqn:E.
    - unfold strftime_ymd, four_digits in E. discriminate.
    - cbn [Re.search].
      destruct (Re.match_here _ (String c r)) as [m |]; [| discriminate].
      apply String.eqb_eq in Sh. subst m. reflexivity. }
  change date_patterns with (nth 0 date_patterns ([], "") :: tl date_patterns).
  cbn [scan_patterns]. unfold try_pattern. rewrite S.
  change (snd (nth 0 date_patterns ([], ""))) with "%Y-%m-%d".
  rewrite (strptime_strftime_ymd d V). reflexivity.
Qed.



(** A keyword is found anywhere in the query, in any case of letters and
    inside a longer word: a query that embeds a text whose lower-cased form
    is a keyword is a relative date query, for that keyword's offset or for
    the offset of a keyword that comes before it in the table. *)
Theorem keyword_found_inside_text (now : date) (before word after keyword : string) (offset : Z) :
  In (keyword, offset) TIME_KEYWORDS ->
  lower word = keyword ->
  exists found found_offset,
    In (found, found_offset) TIME_KEYWORDS
    /\ found_offset <= offset
    /\ parse_date_from_query now (before ++ word ++ after)
       = Some (strftime_ymd (add_days now found_offset), "relative").
Proof.
  intros Hin Hl.
  assert (M : contains keyword (lower (before ++ word ++ after)) = true).
  { rewrite !lower_app, Hl. apply contains_app. }
  unfold parse_date_from_query. cbn [first_keyword TIME_KEYWORDS].
  destruct (contains "yesterday" _) eqn:Y.
  { exists "yesterday", (-1). split; [simpl; auto |]. split; [| reflexivity].
    destruct Hin as [H | [H | [H | []]]]; inversion H; lia. }
  destruct (contains "today" _) eqn:T.
  { exists "today", 0. split; [simpl; auto |]. split; [| reflexivity].
    destruct Hin as [H | [H | [H | []]]]; inversion H; subst; try lia. congruence. }
  destruct (contains "tomorrow" _) eqn:W.
  { exists "tomorrow", 1. split; [simpl; auto |]. split; [| reflexivity].
    destruct Hin as [H | [H | [H | []]]]; inversion H; subst; try lia; congruence. }
  destruct Hin as [H | [H | [H | []]]]; inversion H; subst; congruence.
Qed.

Lemma keyword_found_inside_text_witness :
  In ("tomorrow", 1) TIME_KEYWORDS
  /\ lower "TOMORROW" = "tomorrow"
  /\ parse_date_from_query a_wednesday "tickets for TOMORROWland" = Some ("2026-11-05", "relative").
Proof.
  split; [simpl; auto |]. split; [reflexivity |].
  destruct (keyword_found_inside_text a_wednesday "tickets for " "TOMORROW" "land"
              "tomorrow" 1 (or_intror (or_intror (or_introl eq_refl))) eq_refl)
    as (found & found_offset & _ & _ & H).
  reflexivity.
Defined.

(** ** Match Formatter *)

Lemma bind_ok {A B : Type} (r : res A) (k : A -> res B) (b : B) :
  Json.bind r k = Ok b -> exists a, r = Ok a /\ k a = Ok b.
Proof. destruct r as [a | e]; simpl; [eauto | discriminate]. Qed.

Lemma format_match_summary (match_ summarized : json) :
  format_match match_ = Ok summarized -> is_summary summarized = true.
Proof.
  unfold format_match. intros H.
  repeat (apply bind_ok in H; destruct H as (? & _ & H)).
  match type of H with
  | (if ?available then _ else _) = _ => destruct available
  end.
  - repeat (apply bind_ok in H; destruct H as (? & _ & H)).
    inversion H; reflexivity.
  - inversion H; reflexivity.
Qed.

Lemma format_all_summaries (records summaries : list json) :
  format_all records = Ok summaries ->
  forallb is_summary summaries = true
  /\ List.length summaries = List.length records.
Proof.
  revert summaries. induction records as [| m rest IH]; simpl; intros summaries H.
  - inversion H; auto.
  - apply bind_ok in H. destruct H as (j & Hj & H).
    apply bind_ok in H. destruct H as (l & Hl & H).
    inversion H; subst. destruct (IH l Hl) as [Hs Hlen].
    simpl. rewrite (format_match_summary _ _ Hj), Hs, Hlen. auto.
Qed.

(** Whatever it is given, the Match Formatter returns, when it returns,
    either exactly the error object or an object with exactly the entries
    'matches' and 'count': one summary of six entries per element of the
    input's 'matches', and their number as count. *)
Theorem format_matches_data_shape (matches_data : json) (formatted : dict) :
  format_matches_data matches_data = Ok formatted ->
  formatted = no_matches_error
  \/ exists matches records summaries,
      getitem matches_data "matches" = Ok matches
      /\ iter matches = Ok records
      /\ formatted = [ ("matches", JArr summaries);
                       ("count", JInt (Z.of_nat (List.length records))) ]
      /\ List.length summaries = List.length records
      /\ forallb is_summary summaries = true.
Proof.
  unfold format_matches_data. intros H.
  apply bind_ok in H. destruct H as ([|] & _ & H).
  - inversion H; auto.
  - apply bind_ok in H. destruct H as (matches & Hm & H).
    apply bind_ok in H. destruct H as (records & Hr & H).
    apply bind_ok in H. destruct H as (summaries & Hs & H).
    destruct (format_all_summaries _ _ Hs) as [Hsum Hlen].
    right. exists matches, records, summaries.
    inversion H; subst. rewrite Hlen. auto.
Qed.

Lemma format_matches_data_shape_witness :
  format_matches_data (JObj [("matches", JArr [played_match; fixture JNull JNull])])
  = Ok [ ("matches", JArr (map summary [played_match; fixture JNull JNull]));
         ("count", JInt 2) ]
  /\ forallb is_summary (map summary [played_match; fixture JNull JNull]) = true.
Proof.
  split; [reflexivity |].
  destruct (format_matches_data_shape
              (JObj [("matches", JArr [played_match; fixture JNull JNull])])
              [ ("matches", JArr (map summary [played_match; fixture JNull JNull]));
                ("count", JInt 2) ] eq_refl)
    as [H | (matches & records & summaries & _ & _ & H & _ & Hs)].
  - discriminate.
  - inversion H; subst. exact Hs.
Defined.

Lemma format_all_first_failure (good rest : list json) (bad : json) (e : exn) :
  (forall m, In m good -> well_formed m = true) ->
  format_match bad = Raise e ->
  format_all (good ++ bad :: rest) = Raise e.
Proof.
  intros Hg Hb. induction good as [| m good IH]; simpl.
  - rewrite Hb. reflexivity.
  - rewrite (format_match_well_formed m) by (apply Hg; left; auto).
    cbn [Json.bind]. rewrite IH by (intros; apply Hg; right; auto).
    reflexivity.
Qed.

(** One record that cannot be summarized aborts the whole call: the
    exception of the first such record is raised and no summary is
    returned, however many records are in order.  A record without the
    key 'competition' raises KeyError('competition'); a record that is
    null raises TypeError. *)
Theorem malformed_record_aborts_formatting
        (kv : dict) (good rest : list json) (bad : json) (e : exn) :
  lookup "matches" kv = Some (JArr (good ++ bad :: rest)) ->
  lookup "error" kv = None ->
  (forall m, In m good -> well_formed m = true) ->
  format_match bad = Raise e ->
  format_matches_data (JObj kv) = Raise e
  /\ (forall fields,
        lookup "competition" fields = None ->
        format_match (JObj fields) = Raise (KeyError "competition"))
  /\ format_match JNull = Raise (TypeError "'NoneType' object is not subscriptable").
Proof.
  intros Hm He Hg Hb. split; [| split; [| reflexivity]].
  - unfold format_matches_data, unusable.
    destruct kv as [| entry more]; [discriminate |].
    cbn [truthy negb]. rewrite !has_key. unfold has_path. cbn [get_path Json.bind].
    rewrite Hm, He. cbn [negb Json.bind getitem]. rewrite Hm. cbn [Json.bind iter].
    rewrite (format_all_first_failure good rest bad e Hg Hb). reflexivity.
  - intros fields H. unfold format_match. cbn [getitem]. rewrite H. reflexivity.
Qed.

Lemma malformed_record_aborts_formatting_witness :
  format_matches_data
    (JObj [("matches", JArr [played_match; JObj [("status", JStr "TIMED")]; played_match])])
  = Raise (KeyError "competition").
Proof.
  refine (proj1 (malformed_record_aborts_formatting
                   [("matches", JArr ([played_match] ++ JObj [("status", JStr "TIMED")]
                                        :: [played_match]))]
                   [played_match] [played_match] (JObj [("status", JStr "TIMED")])
                   (KeyError "competition") eq_refl eq_refl _ eq_refl)).
  intros m [<- | []]. reflexivity.
Defined.

(** ** Running the components *)

Lemma run_get_matches_exact (w : world) (made : list request) (date_str : string) :
  run w made (get_matches_by_date date_str)
  = ((made ++ [date_fetch date_str])%list, fetch_result (on_get w made (GetMatches date_str))).
Proof.
  unfold get_matches_by_date, fetch_result. simpl.
  destruct (on_get w made (GetMatches date_str)) as [response | e]; [| reflexivity].
  destruct (status_code response =? 200); [apply run_lift | reflexivity].
Qed.

Lemma run_handle_exact (w : world) (now : date) (query date_str date_type : string) :
  parse_date_from_query now query = Some (date_str, date_type) ->
  run w [] (handle_date_based_query now query)
  = ([date_fetch date_str],
     found <- date_path_result w query date_str date_type ;; Ok (Some found)).
Proof.
  intros H. unfold handle_date_based_query, date_path_result.
  rewrite H, (parse_date_nonempty _ _ _ _ H).
  rewrite run_pbind, run_get_matches_exact. simpl app.
  destruct (fetch_result _) as [data | e]; [| reflexivity].
  rewrite run_pbind, run_lift. cbn [Json.bind].
  destruct (format_matches_data data); reflexivity.
Qed.

Lemma date_path_result_nonempty (w : world) (query date_str date_type : string) (found : dict) :
  date_path_result w query date_str date_type = Ok found -> found <> [].
Proof.
  unfold date_path_result. intros H.
  apply bind_ok in H. destruct H as (data & _ & H).
  apply bind_ok in H. destruct H as (d & Hd & H).
  inversion H. apply add_date_context_nonempty.
  eapply format_matches_data_nonempty; eauto.
Qed.

Lemma run_narrator (w : world) (made : list request) (query : string) (data : json)
      (data_type : string) :
  run w made (format_response_with_gemini query data data_type)
  = match narration_prompt query data data_type with
    | Ok prompt =>
        ((made ++ [ReqPost (AskNarration prompt)])%list,
         Ok (narrated (on_post w made (AskNarration prompt))))
    | Raise e => (made, Ok (apology e))
    end.
Proof.
  unfold format_response_with_gemini. rewrite run_catch, run_pbind, run_lift.
  destruct (narration_prompt query data data_type) as [prompt | e]; [| reflexivity].
  cbn [run]. rewrite run_lift.
  destruct (on_post w made (AskNarration prompt)); reflexivity.
Qed.

Lemma run_api_call (w : world) (made : list request) (endpoint_info : json) :
  run w made (make_football_api_call endpoint_info)
  = match build_request endpoint_info with
    | Ok (url, params) =>
        ((made ++ [ReqGet (GetFootball url params)])%list,
         Ok (api_result (on_get w made (GetFootball url params))))
    | Raise e => (made, Ok (error_payload e))
    end.
Proof.
  unfold make_football_api_call, api_result. rewrite run_catch, run_pbind, run_lift.
  destruct (build_request endpoint_info) as [[url params] | e]; [| reflexivity].
  cbn [fst snd run]. rewrite run_pbind, run_lift.
  destruct (on_get w made (GetFootball url params)) as [response | e]; [| reflexivity].
  cbn [Json.bind]. rewrite run_pbind, run_lift.
  destruct (raise_for_status response) as [[] | e]; [| reflexivity].
  cbn [Json.bind]. rewrite run_lift.
  destruct (json_body response); reflexivity.
Qed.

Lemma run_resolver (json_loads : string -> res json) (w : world) (made : list request)
      (query : string) :
  run w made (ask_gemini_for_endpoint json_loads query)
  = ((made ++ [ReqPost (AskEndpoint query)])%list,
     Ok (resolved json_loads (on_post w made (AskEndpoint query)))).
Proof.
  rewrite run_ask_gemini_for_endpoint. unfold resolved.
  destruct (on_post w made (AskEndpoint query)) as [text | e]; [| reflexivity].
  cbn [Json.bind]. destruct (json_loads (extract_json_text text)); reflexivity.
Qed.

Lemma run_chatbot_date (json_loads : string -> res json) (w : world) (now : date)
      (query date_str date_type : string) :
  parse_date_from_query now query = Some (date_str, date_type) ->
  run w [] (chatbot_response json_loads now query)
  = match date_path_result w query date_str date_type with
    | Ok found =>
        ([date_fetch date_str; ReqPost (date_narration query found)],
         Ok (narrated (on_post w [date_fetch date_str] (date_narration query found))))
    | Raise e => ([date_fetch date_str], Raise e)
    end.
Proof.
  intros H. unfold chatbot_response.
  rewrite run_pbind, (run_handle_exact w now query date_str date_type H).
  destruct (date_path_result w query date_str date_type) as [found | e] eqn:D;
    [| reflexivity].
  cbn [Json.bind].
  destruct found as [| entry more];
    [exfalso; eapply date_path_result_nonempty; eauto |].
  apply run_format_response_date.
Qed.

Lemma run_chatbot_model (json_loads : string -> res json) (w : world) (now : date)
      (query : string) :
  parse_date_from_query now query = None ->
  run w [] (chatbot_response json_loads now query)
  = let asked := [ReqPost (AskEndpoint query)] in
    let endpoint_info := resolved json_loads (on_post w [] (AskEndpoint query)) in
    if truthy endpoint_info
    then match run w asked (make_football_api_call endpoint_info) with
         | (made, Ok api_response) =>
             run w made (format_response_with_gemini query
                           (api_payload endpoint_info api_response) "api_response")
         | (made, Raise e) => (made, Raise e)
         end
    else (asked, Ok clarification).
Proof.
  intros H. unfold chatbot_response.
  rewrite run_pbind, (run_handle_no_date w now query H), run_pbind, run_resolver.
  cbn [app]. cbv zeta.
  destruct (truthy (resolved json_loads (on_post w [] (AskEndpoint query))));
    cbn [negb]; [| reflexivity].
  rewrite run_pbind. reflexivity.
Qed.

(** ** Direct Date Path *)

Lemma lookup_dict_set (k : string) (v : json) (kv : dict) :
  lookup k (dict_set k v kv) = Some v.
Proof.
  induction kv as [| [k' v'] r IH]; simpl.
  - rewrite String.eqb_refl. reflexivity.
  - destruct (String.eqb k k') eqn:E; simpl; rewrite ?String.eqb_refl, ?E; auto.
Qed.

Lemma format_matches_data_keys (matches_data : json) (formatted : dict) :
  format_matches_data matches_data = Ok formatted ->
  formatted = no_matches_error
  \/ exists summaries count, formatted = [("matches", JArr summaries); ("count", JInt count)].
Proof.
  unfold format_matches_data. intros H.
  apply bind_ok in H. destruct H as ([|] & _ & H).
  - inversion H; auto.
  - repeat (apply bind_ok in H; destruct H as (? & _ & H)).
    inversion H; eauto.
Qed.

Lemma parse_date_kinds (now : date) (query date_str date_type : string) :
  parse_date_from_query now query = Some (date_str, date_type) ->
  (date_type = "relative"
   /\ exists keyword offset,
       first_keyword TIME_KEYWORDS (lower query) = Some (keyword, offset)
       /\ date_str = strftime_ymd (add_days now offset))
  \/ (date_type = "specific" /\ first_keyword TIME_KEYWORDS (lower query) = None).
Proof.
  unfold parse_date_from_query.
  destruct (first_keyword TIME_KEYWORDS (lower query)) as [[keyword offset] |].
  - intros H; inversion H; subst. left. eauto.
  - destruct (scan_patterns date_patterns query); [| discriminate].
    intros H; inversion H; subst. right. auto.
Qed.

(** The summary of the Direct Date Path is what the Match Formatter
    returned with one entry added at its end, 'date_context': the keyword
    of the table that was found (in lower case, whatever the query's case)
    for a relative date, the date written YYYY-MM-DD for a specific one. *)
Theorem date_context_is_attached (w : world) (now : date)
        (query date_str date_type : string) (made : list request) (found : dict) :
  parse_date_from_query now query = Some (date_str, date_type) ->
  run w [] (handle_date_based_query now query) = (made, Ok (Some found)) ->
  exists matches_data formatted context,
    fetch_result (on_get w [] (GetMatches date_str)) = Ok matches_data
    /\ format_matches_data matches_data = Ok formatted
    /\ found = (formatted ++ [("date_context", JStr context)])%list
    /\ lookup "date_context" found = Some (JStr context)
    /\ ((date_type = "relative"
         /\ exists offset,
             first_keyword TIME_KEYWORDS (lower query) = Some (context, offset)
             /\ date_str = strftime_ymd (add_days now offset))
        \/ (date_type = "specific" /\ context = date_str)).
Proof.
  intros H R. rewrite (run_handle_exact w now query date_str date_type H) in R.
  inversion R as [[Hm R']]. clear R.
  apply bind_ok in R'. destruct R' as (found' & D & E). inversion E; subst found'.
  unfold date_path_result in D.
  apply bind_ok in D. destruct D as (data & Hdata & D).
  apply bind_ok in D. destruct D as (formatted & Hf & D).
  inversion D as [Hfound]. clear D.
  exists data, formatted.
  assert (A : forall ctx, dict_set "date_context" (JStr ctx) formatted
                          = (formatted ++ [("date_context", JStr ctx)])%list).
  { intros ctx.
    destruct (format_matches_data_keys _ _ Hf) as [-> | (l & n & ->)]; reflexivity. }
  unfold add_date_context.
  destruct (parse_date_kinds now query date_str date_type H)
    as [(-> & keyword & offset & K & ->) | (-> & K)].
  - exists keyword. rewrite K. cbn [String.eqb Ascii.eqb Bool.eqb].
    repeat split; auto using lookup_dict_set. left. split; eauto.
  - exists date_str. cbn [String.eqb Ascii.eqb Bool.eqb].
    repeat split; auto using lookup_dict_set.
Qed.

Lemma date_context_is_attached_witness :
  parse_date_from_query a_wednesday "Games TODAY?" = Some ("2026-11-04", "relative")
  /\ exists found,
       run (calm_world "{}") [] (handle_date_based_query a_wednesday "Games TODAY?")
       = ([date_fetch "2026-11-04"], Ok (Some found))
       /\ lookup "date_context" found = Some (JStr "today").
Proof.
  split; [reflexivity |]. eexists. split; [reflexivity |].
  destruct (date_context_is_attached (calm_world "{}") a_wednesday "Games TODAY?"
              "2026-11-04" "relative" _ _ eq_refl eq_refl)
    as (data & formatted & context & _ & _ & _ & L & _).
  reflexivity.
Defined.

(** When the data provider answers the date query with a status other
    than 200, the Direct Date Path makes no use of the body, and the
    status does not reach the narrator: the fetch returns
    {error: "API Error: <status>"}, and the summary made of it is the
    fixed error of the Match Formatter with the date context, the same for
    every such status. *)
Theorem provider_status_is_not_in_summary (w : world) (now : date)
        (query date_str date_type : string) (response : response) :
  parse_date_from_query now query = Some (date_str, date_type) ->
  on_get w [] (GetMatches date_str) = Ok response ->
  status_code response <> 200 ->
  run w [] (get_matches_by_date date_str)
  = ([date_fetch date_str],
     Ok (JObj [("error", JStr ("API Error: " ++ str_of_Z (status_code response)))]))
  /\ exists context,
      run w [] (handle_date_based_query now query)
      = ([date_fetch date_str],
         Ok (Some [ ("error", JStr "No matches found or error in data");
                    ("date_context", JStr context) ]))
      /\ (context = date_str \/ exists offset, In (context, offset) TIME_KEYWORDS).
Proof.
  intros H G S.
  assert (F : fetch_result (on_get w [] (GetMatches date_str))
              = Ok (JObj [("error", JStr ("API Error: " ++ str_of_Z (status_code response)))])).
  { rewrite G. unfold fetch_result.
    destruct (Z.eqb_spec (status_code response) 200); [contradiction | reflexivity]. }
  split; [rewrite run_get_matches_exact, F; reflexivity |].
  rewrite (run_handle_exact w now query date_str date_type H).
  unfold date_path_result. rewrite F. cbn [Json.bind].
  change (format_matches_data (JObj [("error", JStr _)])) with (Ok no_matches_error).
  cbn [Json.bind]. unfold add_date_context.
  destruct (parse_date_kinds now query date_str date_type H)
    as [(-> & keyword & offset & K & ->) | (-> & K)].
  - exists keyword. rewrite K. split; [reflexivity |]. right. exists offset.
    apply (first_keyword_found _ _ _ _ K).
  - exists date_str. split; [reflexivity | auto].
Qed.

Lemma provider_status_is_not_in_summary_witness :
  parse_date_from_query a_wednesday "results of 01-11-2026" = Some ("2026-11-01", "specific")
  /\ run (mkworld (fun _ _ => Ok (mkresponse 429 "" (Raise (ValueError "Expecting value"))))
                  (fun _ _ => Ok "")) []
         (handle_date_based_query a_wednesday "results of 01-11-2026")
     = ([date_fetch "2026-11-01"],
        Ok (Some [ ("error", JStr "No matches found or error in data");
                   ("date_context", JStr "2026-11-01") ])).
Proof.
  split; [reflexivity |].
  destruct (provider_status_is_not_in_summary
              (mkworld (fun _ _ => Ok (mkresponse 429 "" (Raise (ValueError "Expecting value"))))
                       (fun _ _ => Ok ""))
              a_wednesday "results of 01-11-2026" "2026-11-01" "specific"
              (mkresponse 429 "" (Raise (ValueError "Expecting value")))
              eq_refl eq_refl ltac:(discriminate))
    as (_ & context & R & _).
  reflexivity.
Defined.

(** ** Orchestrator *)

(** The date path has no handler of its own: a transport failure of the
    date query, a body of a 200 answer that is not JSON, or a record the
    Match Formatter cannot read raises out of [chatbot_response]; nothing
    is narrated and the Endpoint Resolver is not tried instead. *)
Theorem date_path_exception_propagates
        (json_loads : string -> res json) (w : world) (now : date)
        (query date_str date_type : string) (e : exn) :
  parse_date_from_query now query = Some (date_str, date_type) ->
  on_get w [] (GetMatches date_str) = Raise e
  \/ (exists response,
        on_get w [] (GetMatches date_str) = Ok response
        /\ status_code response = 200
        /\ (json_body response = Raise e
            \/ exists matches_data,
                json_body response = Ok matches_data
                /\ format_matches_data matches_data = Raise e)) ->
  run w [] (chatbot_response json_loads now query) = ([date_fetch date_str], Raise e).
Proof.
  intros H F. rewrite (run_chatbot_date json_loads w now query date_str date_type H).
  unfold date_path_result, fetch_result.
  destruct F as [-> | (response & -> & -> & [-> | (data & -> & F)])]; cbn [Z.eqb Pos.eqb Json.bind];
    try reflexivity.
  rewrite F. reflexivity.
Qed.

Lemma date_path_exception_propagates_witness :
  parse_date_from_query a_wednesday "matches tomorrow" = Some ("2026-11-05", "relative")
  /\ run (mkworld (fun _ _ => Raise (RequestException "Connection refused"))
                  (fun _ _ => Ok "unused")) []
         (chatbot_response loads_examples a_wednesday "matches tomorrow")
     = ([date_fetch "2026-11-05"], Raise (RequestException "Connection refused")).
Proof.
  split; [reflexivity |].
  apply (date_path_exception_propagates loads_examples
           (mkworld (fun _ _ => Raise (RequestException "Connection refused"))
                    (fun _ _ => Ok "unused"))
           a_wednesday "matches tomorrow" "2026-11-05" "relative"
           (RequestException "Connection refused") eq_refl).
  left. reflexivity.
Defined.

Lemma narration_prompt_of_dict (query : string) (fields : dict) (api_response : json) :
  exists prompt,
    narration_prompt query (api_payload (JObj fields) api_response) "api_response" = Ok prompt.
Proof.
  unfold narration_prompt, api_payload, get_default.
  cbn [String.eqb Ascii.eqb Bool.eqb method_dict Json.bind lookup].
  destruct (lookup "endpoint" fields); cbn [Json.bind]; eexists; reflexivity.
Qed.

Lemma build_request_needs_dict (endpoint_info : json) :
  is_object endpoint_info = false ->
  exists e, build_request endpoint_info = Raise e.
Proof.
  unfold build_request. destruct endpoint_info; simpl; try discriminate; eauto.
Qed.

(** Without a date in the query the Orchestrator always returns an
    answer, whatever the services do: every failure on the way (of the
    model, of the parser, of the data provider, of the narration) ends in
    a text, never in an exception. *)
Theorem model_path_always_answers
        (json_loads : string -> res json) (w : world) (now : date) (query : string) :
  parse_date_from_query now query = None ->
  exists made answer,
    run w [] (chatbot_response json_loads now query) = (made, Ok answer)
    /\ hd_error made = Some (ReqPost (AskEndpoint query)).
Proof.
  intros H. rewrite (run_chatbot_model json_loads w now query H). cbv zeta.
  destruct (truthy _); [| eauto].
  rewrite run_api_call.
  destruct (build_request _) as [[url params] | e]; rewrite run_narrator;
    destruct (narration_prompt _ _ _); eauto.
Qed.

Lemma model_path_always_answers_witness :
  parse_date_from_query a_wednesday "Premier League standings" = None
  /\ outcome (mkworld (fun _ _ => Raise (RequestException "Connection refused"))
                      (fun _ r => match r with
                                  | AskEndpoint _ => Ok standings_reply
                                  | AskNarration _ => Raise (RequestException "timed out")
                                  end))
       (chatbot_response loads_examples a_wednesday "Premier League standings")
     = Ok (apology (RequestException "timed out")).
Proof.
  split; [reflexivity |].
  destruct (model_path_always_answers loads_examples
              (mkworld (fun _ _ => Raise (RequestException "Connection refused"))
                       (fun _ r => match r with
                                   | AskEndpoint _ => Ok standings_reply
                                   | AskNarration _ => Raise (RequestException "timed out")
                                   end))
              a_wednesday "Premier League standings" eq_refl)
    as (made & answer & _ & _).
  reflexivity.
Defined.

(** The requests of one call of [chatbot_response], in any world, are one
    of five sequences: the date query alone or followed by its narration;
    or the endpoint question alone, followed by a narration, or followed by
    one API call and its narration.  So nothing is asked twice, at most
    three requests are made, and the date query and the endpoint question
    never occur together. *)
Theorem chatbot_request_sequences
        (json_loads : string -> res json) (w : world) (now : date) (query : string) :
  let made := requests_of w (chatbot_response json_loads now query) in
  ((exists date_str date_type,
       parse_date_from_query now query = Some (date_str, date_type)
       /\ (made = [date_fetch date_str]
           \/ exists prompt, made = [date_fetch date_str; ReqPost (AskNarration prompt)]))
   \/ (parse_date_from_query now query = None
       /\ (made = [ReqPost (AskEndpoint query)]
           \/ (exists prompt,
                 made = [ReqPost (AskEndpoint query); ReqPost (AskNarration prompt)])
           \/ exists url params prompt,
               made = [ReqPost (AskEndpoint query); ReqGet (GetFootball url params);
                       ReqPost (AskNarration prompt)])))
  /\ (List.length made <= 3)%nat.
Proof.
  cbv zeta. unfold requests_of.
  assert (S :
    (exists date_str date_type,
       parse_date_from_query now query = Some (date_str, date_type)
       /\ (fst (run w [] (chatbot_response json_loads now query)) = [date_fetch date_str]
           \/ exists prompt,
               fst (run w [] (chatbot_response json_loads now query))
               = [date_fetch date_str; ReqPost (AskNarration prompt)]))
    \/ (parse_date_from_query now query = None
        /\ (fst (run w [] (chatbot_response json_loads now query))
            = [ReqPost (AskEndpoint query)]
            \/ (exists prompt,
                  fst (run w [] (chatbot_response json_loads now query))
                  = [ReqPost (AskEndpoint query); ReqPost (AskNarration prompt)])
            \/ exists url params prompt,
                fst (run w [] (chatbot_response json_loads now query))
                = [ReqPost (AskEndpoint query); ReqGet (GetFootball url params);
                   ReqPost (AskNarration prompt)]))).
  { destruct (parse_date_from_query now query) as [[date_str date_type] |] eqn:P.
    - left. exists date_str, date_type. split; [reflexivity |].
      rewrite (run_chatbot_date json_loads w now query date_str date_type P).
      destruct (date_path_result w query date_str date_type) as [found | e]; cbn [fst];
        [right; eexists; reflexivity | left; reflexivity].
    - right. split; [reflexivity |].
      rewrite (run_chatbot_model json_loads w now query P). cbv zeta.
      destruct (truthy _); [| left; reflexivity].
      rewrite run_api_call.
      destruct (build_request _) as [[url params] | e] eqn:B; rewrite run_narrator.
      + destruct (build_request_of_dict _ _ _ B) as (fields & endpoint & E & _).
        rewrite E.
        destruct (narration_prompt_of_dict query fields
                    (api_result (on_get w [ReqPost (AskEndpoint query)]
                                   (GetFootball url params)))) as [prompt ->].
        right. right. exists url, params, prompt. reflexivity.
      + destruct (narration_prompt _ _ _) as [prompt | e'];
          [right; left; exists prompt; reflexivity | left; reflexivity]. }
  split; [exact S |].
  destruct S as [(d & t & _ & [-> | [p ->]]) | (_ & [-> | [[p ->] | (u & ps & p & ->)]])];
    simpl; lia.
Qed.

(** A resolution that is valid JSON but false in Python ({}, [], 0, "",
    false, null) is treated as no resolution: the clarification message is
    returned and nothing else is requested. *)
Theorem empty_resolution_asks_to_rephrase
        (json_loads : string -> res json) (w : world) (now : date) (query reply : string)
        (endpoint_info : json) :
  parse_date_from_query now query = None ->
  on_post w [] (AskEndpoint query) = Ok reply ->
  json_loads (extract_json_text reply) = Ok endpoint_info ->
  truthy endpoint_info = false ->
  run w [] (chatbot_response json_loads now query)
  = ([ReqPost (AskEndpoint query)], Ok clarification).
Proof.
  intros H R L T. rewrite (run_chatbot_model json_loads w now query H). cbv zeta.
  unfold resolved. rewrite R. cbn [Json.bind]. rewrite L, T. reflexivity.
Qed.

Lemma empty_resolution_asks_to_rephrase_witness :
  parse_date_from_query a_wednesday "Who tops the table?" = None
  /\ loads_examples (extract_json_text "Here you are: {}") = Ok (JObj [])
  /\ run (calm_world "Here you are: {}") []
         (chatbot_response loads_examples a_wednesday "Who tops the table?")
     = ([ReqPost (AskEndpoint "Who tops the table?")], Ok clarification).
Proof.
  split; [reflexivity |]. split; [reflexivity |].
  exact (empty_resolution_asks_to_rephrase loads_examples (calm_world "Here you are: {}")
           a_wednesday "Who tops the table?" "Here you are: {}" (JObj [])
           eq_refl eq_refl eq_refl eq_refl).
Defined.

(** A resolution that is true in Python but is no object (a list, a
    text, a number, true) reaches neither the data provider nor the model
    again: the API call fails on the lookup of 'endpoint', the narrator
    fails on [endpoint_info.get], and the answer is the apology with that
    last error. *)
Theorem non_object_resolution_is_apologized
        (json_loads : string -> res json) (w : world) (now : date) (query reply : string)
        (endpoint_info : json) :
  parse_date_from_query now query = None ->
  on_post w [] (AskEndpoint query) = Ok reply ->
  json_loads (extract_json_text reply) = Ok endpoint_info ->
  truthy endpoint_info = true ->
  is_object endpoint_info = false ->
  run w [] (chatbot_response json_loads now query)
  = ([ReqPost (AskEndpoint query)],
     Ok ("I'm sorry, but I encountered an error processing the football data. Error: '"
         ++ type_name endpoint_info ++ "' object has no attribute 'get'")).
Proof.
  intros H R L T O. rewrite (run_chatbot_model json_loads w now query H). cbv zeta.
  unfold resolved. rewrite R. cbn [Json.bind]. rewrite L, T.
  rewrite run_api_call.
  destruct (build_request_needs_dict _ O) as [e ->].
  rewrite run_narrator.
  destruct endpoint_info; try discriminate; reflexivity.
Qed.

Lemma non_object_resolution_is_apologized_witness :
  parse_date_from_query a_wednesday "Who tops the table?" = None
  /\ run (calm_world "[1]") []
         (chatbot_response loads_examples a_wednesday "Who tops the table?")
     = ([ReqPost (AskEndpoint "Who tops the table?")],
        Ok "I'm sorry, but I encountered an error processing the football data. Error: 'list' object has no attribute 'get'").
Proof.
  split; [reflexivity |].
  exact (non_object_resolution_is_apologized loads_examples (calm_world "[1]")
           a_wednesday "Who tops the table?" "[1]" (JArr [JInt 1])
           eq_refl eq_refl eq_refl eq_refl eq_refl).
Defined.

(** A resolved call without the key 'endpoint' sends nothing to the data
    provider: the API call returns {error: "'endpoint'"}, the text of the
    KeyError, and the narrator is told "Unknown endpoint". *)
Theorem missing_endpoint_is_narrated
        (json_loads : string -> res json) (w : world) (now : date) (query reply : string)
        (fields : dict) :
  parse_date_from_query now query = None ->
  on_post w [] (AskEndpoint query) = Ok reply ->
  json_loads (extract_json_text reply) = Ok (JObj fields) ->
  fields <> [] ->
  lookup "endpoint" fields = None ->
  (forall made, run w made (make_football_api_call (JObj fields))
                = (made, Ok (JObj [("error", JStr "'endpoint'")])))
  /\ exists prompt,
      prompt = api_response_prompt query "Unknown endpoint"
                 (dumps (JObj [("error", JStr "'endpoint'")]))
      /\ run w [] (chatbot_response json_loads now query)
         = ([ReqPost (AskEndpoint query); ReqPost (AskNarration prompt)],
            Ok (narrated (on_post w [ReqPost (AskEndpoint query)] (AskNarration prompt)))).
Proof.
  intros H R L N E.
  assert (B : build_request (JObj fields) = Raise (KeyError "endpoint")).
  { unfold build_request. cbn [getitem]. rewrite E. reflexivity. }
  split.
  - intros made. rewrite run_api_call, B. reflexivity.
  - eexists. split; [reflexivity |].
    rewrite (run_chatbot_model json_loads w now query H). cbv zeta.
    unfold resolved. rewrite R. cbn [Json.bind]. rewrite L.
    assert (T : truthy (JObj fields) = true)
      by (destruct fields; [contradiction | reflexivity]).
    rewrite T, run_api_call, B, run_narrator.
    unfold narration_prompt, api_payload, get_default.
    cbn [String.eqb Ascii.eqb Bool.eqb method_dict Json.bind lookup].
    rewrite E. reflexivity.
Qed.

Lemma missing_endpoint_is_narrated_witness :
  parse_date_from_query a_wednesday "Who tops the table?" = None
  /\ run (mkworld (fun _ _ => Raise (RequestException "unused"))
                  (fun _ r => match r with
                              | AskEndpoint _ => Ok explanation_reply
                              | AskNarration _ => Ok "Something went wrong."
                              end)) []
         (chatbot_response loads_explanation a_wednesday "Who tops the table?")
     = ([ ReqPost (AskEndpoint "Who tops the table?");
          ReqPost (AskNarration
                     (api_response_prompt "Who tops the table?" "Unknown endpoint"
                        (dumps (JObj [("error", JStr "'endpoint'")])))) ],
        Ok "Something went wrong.").
Proof.
  split; [reflexivity |].
  destruct (missing_endpoint_is_narrated loads_explanation
              (mkworld (fun _ _ => Raise (RequestException "unused"))
                       (fun _ r => match r with
                                   | AskEndpoint _ => Ok explanation_reply
                                   | AskNarration _ => Ok "Something went wrong."
                                   end))
              a_wednesday "Who tops the table?" explanation_reply
              [("explanation", JStr "standings")]
              eq_refl eq_refl eq_refl ltac:(discriminate) eq_refl)
    as (_ & prompt & -> & R).
  exact R.
Defined.

(** ** Response Narrator *)

(** The narrator never raises and asks the model at most once: what it
    returns is the model's text, or the apology with the error when the
    request fails or when no prompt can be built (then nothing is asked). *)
Theorem narrator_always_returns (w : world) (made : list request) (query : string)
        (data : json) (data_type : string) :
  exists made' text,
    run w made (format_response_with_gemini query data data_type) = (made', Ok text)
    /\ ((made' = made /\ exists e, narration_prompt query data data_type = Raise e
                                   /\ text = apology e)
        \/ exists prompt,
            narration_prompt query data data_type = Ok prompt
            /\ made' = (made ++ [ReqPost (AskNarration prompt)])%list
            /\ (forall reply, on_post w made (AskNarration prompt) = Ok reply -> text = reply)
            /\ (forall e, on_post w made (AskNarration prompt) = Raise e -> text = apology e)).
Proof.
  rewrite run_narrator.
  destruct (narration_prompt query data data_type) as [prompt | e].
  - do 2 eexists. split; [reflexivity |]. right. exists prompt.
    repeat split; auto; intros x Hx; rewrite Hx; reflexivity.
  - do 2 eexists. split; [reflexivity |]. left. eauto.
Qed.

Lemma narrator_always_returns_witness :
  exists made' text,
    run (calm_world "{}") [] (format_response_with_gemini "Who won?" JNull "api_response")
    = (made', Ok text).
Proof.
  destruct (narrator_always_returns (calm_world "{}") [] "Who won?" JNull "api_response")
    as (made' & text & R & _).
  exists made', text. exact R.
Defined.

Lemma length_take (n : nat) (s : string) :
  (n <= String.length s)%nat -> String.length (take n s) = n.
Proof.
  revert s. induction n as [| n IH]; intros s H.
  - destruct s; reflexivity.
  - destruct s as [| c s]; simpl in *; [lia |]. rewrite IH; lia.
Qed.

Lemma append_length (a b : string) :
  String.length (a ++ b) = (String.length a + String.length b)%nat.
Proof. induction a; simpl; auto. Qed.

Lemma take_prefix (n : nat) (s : string) : String.prefix (take n s) s = true.
Proof.
  revert s. induction n as [| n IH]; intros s.
  - destruct s; reflexivity.
  - destruct s as [| c s]; simpl; [reflexivity |].
    destruct (ascii_dec c c); [apply IH | contradiction].
Qed.

(** The data cut for the prompt is never longer than 10,003 characters: a
    text of at most 10,000 characters is kept whole, a longer one gives
    its first 10,000 characters followed by the three dots.  In mode
    "date_matches" the prompt is this data, the query and 693 characters
    of fixed text. *)
Theorem truncated_is_bounded (text query : string) :
  len (truncated text) <= 10003
  /\ (len text <= 10000 -> truncated text = text)
  /\ (10000 < len text ->
      exists head, truncated text = head ++ "..."
                   /\ len head = 10000
                   /\ String.prefix head text = true)
  /\ len (date_matches_prompt query (truncated text))
     = 693 + len query + len (truncated text).
Proof.
  assert (L : 10000 < len text ->
              exists head, truncated text = head ++ "..."
                           /\ len head = 10000
                           /\ String.prefix head text = true).
  { intros H. rewrite truncated_long by exact H.
    eexists. split; [reflexivity |]. split; [| apply take_prefix].
    unfold len in *. rewrite length_take; lia. }
  split; [| split; [apply truncated_short | split; [exact L |]]].
  - destruct (Z.ltb_spec 10000 (len text)) as [H | H].
    + destruct (L H) as (head & -> & Hh & _).
      unfold len in *. rewrite append_length. simpl String.length. lia.
    + rewrite truncated_short; lia.
  - unfold date_matches_prompt, prompt_line, len.
    repeat rewrite append_length. simpl String.length. lia.
Qed.

Lemma truncated_is_bounded_witness :
  (len "Arsenal" <= 10000 /\ truncated "Arsenal" = "Arsenal")
  /\ (10000 < len long_note
      /\ exists head, truncated long_note = head ++ "..." /\ len head = 10000).
Proof.
  split.
  - split; [vm_compute; discriminate |].
    apply (proj1 (proj2 (truncated_is_bounded "Arsenal" ""))).
    vm_compute; discriminate.
  - assert (H : 10000 < len long_note) by (vm_compute; reflexivity).
    split; [exact H |].
    destruct (proj1 (proj2 (proj2 (truncated_is_bounded long_note ""))) H)
      as (head & E & L & _).
    exists head. split; assumption.
Defined.

(** ** API Call Normalizer *)

Lemma upper_char_idempotent (c : ascii) : upper_char (upper_char c) = upper_char c.
Proof.
  unfold upper_char. destruct (is_lower c) eqn:L; [| rewrite L; reflexivity].
  unfold is_lower in *. apply andb_prop in L. destruct L as [L1 L2].
  apply N.leb_le in L1. apply N.leb_le in L2.
  assert (E : code (ascii_of_N (code c - 32)) = (code c - 32)%N).
  { unfold code in *. apply N_ascii_embedding. lia. }
  rewrite E.
  destruct (N.leb_spec 97 (code c - 32)); [lia | reflexivity].
Qed.

Lemma upper_idempotent (s : string) : upper (upper s) = upper s.
Proof. induction s as [| c s IH]; simpl; [| rewrite upper_char_idempotent, IH]; reflexivity. Qed.

Lemma competition_codes_are_fixed (name code : string) :
  table_get name COMPETITION_CODES = Some code -> competition_id_rule code = code.
Proof.
  unfold COMPETITION_CODES, table_get.
  repeat match goal with
         | |- context [String.eqb name ?k] =>
             destruct (String.eqb name k);
             [intros H; inversion H; reflexivity |]
         end.
  discriminate.
Qed.

Lemma len_is_length (s : string) : len s = Z.of_nat (String.length s).
Proof. reflexivity. Qed.

Lemma competition_id_rule_idempotent (value : string) :
  competition_id_rule (competition_id_rule value) = competition_id_rule value.
Proof.
  destruct (Z.leb_spec (len value) 3) as [S | L].
  - rewrite (short_id_is_uppercased value S).
    rewrite short_id_is_uppercased.
    + apply upper_idempotent.
    + unfold len in *. rewrite length_upper. exact S.
  - destruct (table_get (lower value) COMPETITION_CODES) as [code |] eqn:T.
    + assert (E : competition_id_rule value = code).
      { unfold competition_id_rule.
        destruct (Z.leb_spec (len value) 3); [lia |]. rewrite T. reflexivity. }
      rewrite E. eapply competition_codes_are_fixed; eauto.
    + assert (E : competition_id_rule value = value).
      { unfold competition_id_rule.
        destruct (Z.leb_spec (len value) 3); [lia |]. rewrite T. reflexivity. }
      rewrite E. exact E.
Qed.

(** Competition names are matched whatever their case of letters, and a
    competition id that went through the Normalizer goes through it
    unchanged a second time: names become codes, codes and short ids
    become upper case, and those are left alone. *)
Theorem competition_ids_are_canonical (value name code : string) :
  (table_get name COMPETITION_CODES = Some code ->
   lower value = name ->
   competition_code (JStr value) = Ok (JStr code))
  /\ (forall normalized,
        competition_code (JStr value) = Ok (JStr normalized) ->
        competition_code (JStr normalized) = Ok (JStr normalized)).
Proof.
  assert (R : forall v, competition_code (JStr v) = Ok (JStr (competition_id_rule v))).
  { intros v. unfold competition_code, competition_id_rule. cbn [py_len Json.bind].
    destruct (len v <=? 3); cbn [method_str Json.bind];
      match goal with
      | |- context [table_get ?k ?t] => destruct (table_get k t)
      end; reflexivity. }
  split.
  - intros T L. rewrite R. f_equal. f_equal. unfold competition_id_rule.
    pose proof (competition_names_are_long _ _ T) as Hlen.
    rewrite <- L, length_lower in Hlen.
    destruct (Z.leb_spec (len value) 3) as [S | _]; [unfold len in S; lia |].
    rewrite L, T. reflexivity.
  - intros normalized H. rewrite R in H. inversion H; subst.
    rewrite R, competition_id_rule_idempotent. reflexivity.
Qed.

Lemma competition_ids_are_canonical_witness :
  table_get "la liga" COMPETITION_CODES = Some "PD"
  /\ lower "La Liga" = "la liga"
  /\ competition_code (JStr "La Liga") = Ok (JStr "PD")
  /\ competition_code (JStr "PD") = Ok (JStr "PD").
Proof.
  split; [reflexivity |]. split; [reflexivity |].
  pose proof (competition_ids_are_canonical "La Liga" "la liga" "PD") as [H1 H2].
  split; [exact (H1 eq_refl eq_refl) | exact (H2 "PD" (H1 eq_refl eq_refl))].
Defined.

Lemma status_values_are_fixed (name status : string) :
  table_get name STATUS_MAPPING = Some status -> status_rule status = status.
Proof.
  unfold STATUS_MAPPING, table_get.
  repeat match goal with
         | |- context [String.eqb name ?k] =>
             destruct (String.eqb name k);
             [intros H; inversion H; reflexivity |]
         end.
  discriminate.
Qed.

Lemma status_rule_idempotent (s : string) : status_rule (status_rule s) = status_rule s.
Proof.
  destruct (table_get (lower s) STATUS_MAPPING) as [status |] eqn:T.
  - assert (E : status_rule s = status) by (unfold status_rule; rewrite T; reflexivity).
    rewrite E. eapply status_values_are_fixed; eauto.
  - assert (E : status_rule s = s) by (unfold status_rule; rewrite T; reflexivity).
    rewrite E. exact E.
Qed.

Lemma date_filter_rule_cases (s : string) :
  date_filter_rule s = s
  \/ exists d, valid_date d = true /\ date_filter_rule s = strftime_ymd d.
Proof.
  unfold date_filter_rule.
  repeat match goal with
         | |- context [strptime s ?fmt] =>
             let P := fresh "P" in
             destruct (strptime s fmt) as [d |] eqn:P;
             [right; exists d; split; [eapply strptime_valid; eauto | reflexivity] |]
         end.
  left. reflexivity.
Qed.

Lemma date_filter_rule_of_iso (d : date) :
  valid_date d = true -> date_filter_rule (strftime_ymd d) = strftime_ymd d.
Proof.
  intros V. unfold date_filter_rule. rewrite (strptime_strftime_ymd d V). reflexivity.
Qed.

Lemma date_filter_rule_idempotent (s : string) :
  date_filter_rule (date_filter_rule s) = date_filter_rule s.
Proof.
  destruct (date_filter_rule_cases s) as [E | (d & V & E)]; rewrite E.
  - exact E.
  - apply date_filter_rule_of_iso; auto.
Qed.

Lemma filter_rule_idempotent (filter_name : string) (value : json) :
  filter_rule filter_name (filter_rule filter_name value) = filter_rule filter_name value.
Proof.
  unfold filter_rule. destruct value; auto.
  destruct (String.eqb filter_name "date" || String.eqb filter_name "dateFrom"
            || String.eqb filter_name "dateTo") eqn:D.
  - rewrite date_filter_rule_idempotent. reflexivity.
  - destruct (String.eqb filter_name "status") eqn:S.
    + rewrite status_rule_idempotent. reflexivity.
    + reflexivity.
Qed.

Lemma filter_rule_keeps_text (filter_name : string) (value : json) :
  status_is_text (filter_name, value) = true ->
  status_is_text (filter_name, filter_rule filter_name value) = true.
Proof.
  unfold status_is_text, filter_rule. cbn [fst snd].
  destruct (String.eqb filter_name "status") eqn:S; auto.
  destruct value; try discriminate. intros _.
  destruct (String.eqb filter_name "date" || String.eqb filter_name "dateFrom"
            || String.eqb filter_name "dateTo"); reflexivity.
Qed.

(** The filters that a call was sent with are left as they are by a
    second normalization: a date rewritten as YYYY-MM-DD reads back as
    itself, and every value of the Status Table is mapped to itself. *)
Theorem filter_normalization_is_idempotent (filters params : dict) :
  NoDup (map fst filters) ->
  forallb status_is_text filters = true ->
  normalize_filters filters [] = Ok params ->
  normalize_filters params [] = Ok params
  /\ map fst params = map fst filters.
Proof.
  intros Hnd Ht H.
  rewrite (normalize_filters_rule filters [] Hnd Ht) in H.
  cbn [app] in H. injection H as <-.
  assert (K : map fst (map (fun item => (fst item, filter_rule (fst item) (snd item))) filters)
              = map fst filters).
  { rewrite map_map. apply map_ext. reflexivity. }
  split; [| exact K].
  rewrite (normalize_filters_rule _ []).
  - cbn [app]. rewrite map_map. apply f_equal. apply map_ext.
    intros [k v]. cbn [fst snd]. rewrite filter_rule_idempotent. reflexivity.
  - cbn [app map]. rewrite K. exact Hnd.
  - rewrite forallb_forall in *. intros item Hin.
    apply in_map_iff in Hin. destruct Hin as ([k v] & <- & Hin).
    cbn [fst snd]. apply filter_rule_keeps_text. apply (Ht _ Hin).
Qed.

Lemma filter_normalization_is_idempotent_witness :
  normalize_filters [("dateFrom", JStr "04/03/2025"); ("status", JStr "Live")] []
  = Ok [("dateFrom", JStr "2025-03-04"); ("status", JStr "LIVE")]
  /\ normalize_filters [("dateFrom", JStr "2025-03-04"); ("status", JStr "LIVE")] []
     = Ok [("dateFrom", JStr "2025-03-04"); ("status", JStr "LIVE")].
Proof.
  split; [reflexivity |].
  refine (proj1 (filter_normalization_is_idempotent
                   [("dateFrom", JStr "04/03/2025"); ("status", JStr "Live")]
                   [("dateFrom", JStr "2025-03-04"); ("status", JStr "LIVE")]
                   _ eq_refl eq_refl)).
  simpl. repeat constructor; simpl; intuition discriminate.
Defined.

(** ** Dates written with slashes *)

Lemma month_values (m : Z) :
  1 <= m <= 12 ->
  m = 1 \/ m = 2 \/ m = 3 \/ m = 4 \/ m = 5 \/ m = 6 \/ m = 7 \/ m = 8
  \/ m = 9 \/ m = 10 \/ m = 11 \/ m = 12.
Proof. lia. Qed.

Lemma day_values (d : Z) :
  1 <= d <= 31 ->
  d = 1 \/ d = 2 \/ d = 3 \/ d = 4 \/ d = 5 \/ d = 6 \/ d = 7 \/ d = 8
  \/ d = 9 \/ d = 10 \/ d = 11 \/ d = 12 \/ d = 13 \/ d = 14 \/ d = 15
  \/ d = 16 \/ d = 17 \/ d = 18 \/ d = 19 \/ d = 20 \/ d = 21 \/ d = 22
  \/ d = 23 \/ d = 24 \/ d = 25 \/ d = 26 \/ d = 27 \/ d = 28 \/ d = 29
  \/ d = 30 \/ d = 31.
Proof. lia. Qed.

Lemma month_alternatives_any (m : Z) (tail : string) :
  1 <= m <= 12 ->
  exists more, alternatives Dirm (two_digits m ++ tail) = (m, tail) :: more.
Proof.
  intros H. pose proof (month_values m H) as C.
  each_value C ltac:(fun E => rewrite E; eexists; vm_compute; reflexivity).
Qed.

Lemma day_alternatives_any (d : Z) (tail : string) :
  1 <= d <= 31 ->
  exists more, alternatives Dird (two_digits d ++ tail) = (d, tail) :: more.
Proof.
  intros H. pose proof (day_values d H) as C.
  each_value C ltac:(fun E => rewrite E; eexists; vm_compute; reflexivity).
Qed.

Lemma four_digits_parse_end (y : Z) :
  0 <= y <= 9999 -> four_digit_year (four_digits y) = [(y, EmptyString)].
Proof.
  intros H. unfold four_digits, two_digits, four_digit_year.
  rewrite !digit_char_is_digit, !digit_val_digit_char. cbn [andb].
  do 2 f_equal. Z.div_mod_to_equations. lia.
Qed.

(** A text that starts with two digits and a slash is no date under the
    two formats written with dashes. *)
Lemma dash_formats_reject_slash (v : Z) (tail : string) :
  1 <= v <= 31 ->
  strptime (two_digits v ++ String "/" tail) "%Y-%m-%d" = None
  /\ strptime (two_digits v ++ String "/" tail) "%d-%m-%Y" = None.
Proof.
  intros H. split.
  - unfold strptime, two_digits.
    change (compile_format "%Y-%m-%d") with [DirY; Lit "-"; Dirm; Lit "-"; Dird].
    cbn [String.append match_format alternatives four_digit_year].
    destruct tail as [| c tail]; [reflexivity |].
    rewrite !digit_char_is_digit. reflexivity.
  - pose proof (day_values v H) as C.
    each_value C ltac:(fun E => rewrite E; vm_compute; reflexivity).
Qed.

Lemma day_first_reads (d : date) :
  valid_date d = true -> strptime (day_first d) "%d/%m/%Y" = Some d.
Proof.
  intros V. pose proof V as V'. rewrite valid_date_spec in V'.
  destruct d as [y m dd]. cbn [year month day] in V'.
  destruct V' as (Hy & Hm & Hd).
  pose proof (days_in_month_bounds y m) as B.
  unfold strptime, day_first. cbn [year month day].
  change (compile_format "%d/%m/%Y") with [Dird; Lit "/"; Dirm; Lit "/"; DirY].
  cbn [match_format].
  destruct (day_alternatives_any dd ("/" ++ two_digits m ++ "/" ++ four_digits y)
              ltac:(lia)) as [more ->].
  cbn [first_success fst snd String.append match_format].
  change (Ascii.eqb (lower_char "/") (lower_char "/")) with true. cbn iota.
  destruct (month_alternatives_any m (String "/" (four_digits y)) ltac:(lia)) as [more' ->].
  cbn [first_success fst snd match_format].
  change (Ascii.eqb (lower_char "/") (lower_char "/")) with true. cbn iota.
  change (alternatives DirY) with four_digit_year.
  rewrite four_digits_parse_end by lia.
  cbn [first_success fst snd match_format set_field no_fields f_year f_month f_day].
  rewrite V. reflexivity.
Qed.

Lemma month_first_reads (d : date) :
  valid_date d = true -> strptime (month_first d) "%m/%d/%Y" = Some d.
Proof.
  intros V. pose proof V as V'. rewrite valid_date_spec in V'.
  destruct d as [y m dd]. cbn [year month day] in V'.
  destruct V' as (Hy & Hm & Hd).
  pose proof (days_in_month_bounds y m) as B.
  unfold strptime, month_first. cbn [year month day].
  change (compile_format "%m/%d/%Y") with [Dirm; Lit "/"; Dird; Lit "/"; DirY].
  cbn [match_format].
  destruct (month_alternatives_any m ("/" ++ two_digits dd ++ "/" ++ four_digits y)
              ltac:(lia)) as [more ->].
  cbn [first_success fst snd String.append match_format].
  change (Ascii.eqb (lower_char "/") (lower_char "/")) with true. cbn iota.
  destruct (day_alternatives_any dd (String "/" (four_digits y)) ltac:(lia)) as [more' ->].
  cbn [first_success fst snd match_format].
  change (Ascii.eqb (lower_char "/") (lower_char "/")) with true. cbn iota.
  change (alternatives DirY) with four_digit_year.
  rewrite four_digits_parse_end by lia.
  cbn [first_success fst snd match_format set_field no_fields f_year f_month f_day].
  rewrite V. reflexivity.
Qed.

(** A month-first text whose day is above 12 is no date read day first. *)
Lemma day_first_rejects_month_first (d : date) :
  valid_date d = true -> 12 < day d -> strptime (month_first d) "%d/%m/%Y" = None.
Proof.
  intros V. rewrite valid_date_spec in V.
  destruct d as [y m dd]. cbn [year month day] in *.
  destruct V as (Hy & Hm & Hd). intros Hgt.
  pose proof (days_in_month_bounds y m) as B.
  assert (Cm : m = 1 \/ m = 2 \/ m = 3 \/ m = 4 \/ m = 5 \/ m = 6 \/ m = 7 \/ m = 8
               \/ m = 9 \/ m = 10 \/ m = 11 \/ m = 12) by lia.
  assert (Cd : dd = 13 \/ dd = 14 \/ dd = 15 \/ dd = 16 \/ dd = 17 \/ dd = 18
               \/ dd = 19 \/ dd = 20 \/ dd = 21 \/ dd = 22 \/ dd = 23 \/ dd = 24
               \/ dd = 25 \/ dd = 26 \/ dd = 27 \/ dd = 28 \/ dd = 29 \/ dd = 30
               \/ dd = 31) by lia.
  clear Hm Hd Hgt B.
  unfold month_first. cbn [year month day].
  each_value Cm ltac:(fun Em =>
    rewrite Em; clear Em;
    each_value Cd ltac:(fun Ed => rewrite Ed; vm_compute; reflexivity)).
Qed.



(** ** The endpoint catalog *)

(** Every entry of the catalog that takes an id takes a number for it,
    except under /competitions/: there the length of the id is taken
    first, which a number does not have, so that a competition given by a
    number ends in the error payload with no request; elsewhere the number
    is written into the path as it is. *)
Theorem catalog_ids_given_as_numbers (d : descriptor) (n : Z) :
  In d ENDPOINTS ->
  d_params d = ["id"] ->
  let endpoint_info :=
    JObj [("endpoint", JStr (d_endpoint d)); ("params", JObj [("id", JInt n)])] in
  if startswith (d_endpoint d) "/competitions/"
  then build_request endpoint_info = Raise (TypeError "object of type 'int' has no len()")
       /\ forall w made,
            run w made (make_football_api_call endpoint_info)
            = (made, Ok (JObj [("error", JStr "object of type 'int' has no len()")]))
  else build_request endpoint_info
       = Ok (FOOTBALL_BASE_URL ++ replace (d_endpoint d) "{id}" (str_of_Z n), []).
Proof.
  intros Hin Hp. cbv zeta. unfold ENDPOINTS in Hin.
  repeat (destruct Hin as [<- | Hin];
          [first [ discriminate Hp
                 | split; [reflexivity | intros w made; rewrite run_api_call; reflexivity]
                 | reflexivity ] |]).
  contradiction.
Qed.

Lemma catalog_ids_given_as_numbers_witness :
  In (nth 8 ENDPOINTS (mkdescriptor "" "" "" [] [])) ENDPOINTS
  /\ d_params (nth 8 ENDPOINTS (mkdescriptor "" "" "" [] [])) = ["id"]
  /\ build_request (JObj [("endpoint", JStr "/teams/{id}"); ("params", JObj [("id", JInt 86)])])
     = Ok ("https://api.football-data.org/v4/teams/86", []).
Proof.
  assert (H : In (nth 8 ENDPOINTS (mkdescriptor "" "" "" [] [])) ENDPOINTS)
    by (apply nth_In; simpl; lia).
  split; [exact H |]. split; [reflexivity |].
  exact (catalog_ids_given_as_numbers _ 86 H eq_refl).
Defined.

Lemma prefix_nil (s : string) : String.prefix "" s = true.
Proof. destruct s; reflexivity. Qed.

Lemma contains_brace_cons (c : ascii) (s : string) :
  contains "{" (String c s) = Ascii.eqb c "{" || contains "{" s.
Proof.
  rewrite contains_unfold. cbn [String.prefix].
  destruct (ascii_dec "{" c) as [<- | ne].
  - rewrite prefix_nil. reflexivity.
  - destruct (Ascii.eqb_spec c "{") as [-> | _]; [contradiction | reflexivity].
Qed.

Lemma contains_brace_app (a b : string) :
  contains "{" (a ++ b) = contains "{" a || contains "{" b.
Proof.
  induction a as [| c a IH]; cbn [String.append].
  - reflexivity.
  - rewrite !contains_brace_cons, IH, orb_assoc. reflexivity.
Qed.

Lemma upper_keeps_braces (s : string) : contains "{" (upper s) = contains "{" s.
Proof.
  induction s as [| c s IH]; [reflexivity |].
  cbn [upper]. rewrite !contains_brace_cons, IH. f_equal.
  unfold upper_char. destruct (is_lower c) eqn:L; [| reflexivity].
  unfold is_lower in L. apply andb_prop in L. destruct L as [L1 L2].
  apply N.leb_le in L1. apply N.leb_le in L2.
  destruct (Ascii.eqb_spec c "{") as [-> | _]; [vm_compute in L2; contradiction |].
  destruct (Ascii.eqb_spec (ascii_of_N (code c - 32)) "{") as [E | _]; [| reflexivity].
  apply (f_equal N_of_ascii) in E. unfold code in *.
  rewrite N_ascii_embedding in E by lia. simpl in E. lia.
Qed.

Lemma competition_codes_have_no_brace (name code : string) :
  table_get name COMPETITION_CODES = Some code -> contains "{" code = false.
Proof.
  unfold COMPETITION_CODES, table_get.
  repeat match goal with
         | |- context [String.eqb name ?k] =>
             destruct (String.eqb name k);
             [intros H; inversion H; reflexivity |]
         end.
  discriminate.
Qed.

Lemma competition_id_rule_has_no_brace (value : string) :
  contains "{" value = false -> contains "{" (competition_id_rule value) = false.
Proof.
  intros H. unfold competition_id_rule.
  destruct (len value <=? 3);
    match goal with
    | |- context [table_get ?k ?t] => destruct (table_get k t) eqn:T
    end;
    eauto using competition_codes_have_no_brace.
  rewrite upper_keeps_braces. exact H.
Qed.

Lemma filled_placeholder_has_no_brace (new s : string) :
  contains "{" new = false ->
  forall skip,
    contains "{" (replace_from skip "{id}" "" s) = false ->
    contains "{" (replace_from skip "{id}" new s) = false.
Proof.
  intros Hn. induction s as [| c r IH]; intros skip; [auto |].
  cbn [replace_from]. destruct skip as [| k]; [| apply IH].
  destruct (String.prefix "{id}" (String c r)).
  - cbn [String.append]. rewrite contains_brace_app, Hn. apply IH.
  - rewrite !contains_brace_cons. intros H.
    apply orb_false_iff in H. destruct H as [-> H]. apply IH. exact H.
Qed.

Lemma substitute_id (endpoint value : string) :
  substitute_params (JStr endpoint) [("id", JStr value)]
  = Ok (JStr (replace endpoint "{id}"
                (if startswith endpoint "/competitions/"
                 then competition_id_rule value else value))).
Proof.
  destruct (startswith endpoint "/competitions/") eqn:Hs.
  - rewrite (substitute_params_competitions [("id", JStr value)] endpoint Hs eq_refl).
    reflexivity.
  - unfold substitute_params, substitute_param.
    change (String.eqb "id" "id") with true.
    cbn [method_str Json.bind]. rewrite Hs. reflexivity.
Qed.

(** In every entry of the catalog the placeholders are the declared
    params: an entry without params has no brace in its path, and in an
    entry with the param 'id' a text without braces given for it (made a
    competition code under /competitions/, written as it is elsewhere)
    leaves a path without braces.  Every entry is a GET. *)
Theorem catalog_paths_are_filled (d : descriptor) (value : string) :
  In d ENDPOINTS ->
  contains "{" value = false ->
  d_method d = "GET"
  /\ (d_params d = [] /\ contains "{" (d_endpoint d) = false
      \/ d_params d = ["id"]
         /\ exists path,
             substitute_params (JStr (d_endpoint d)) [("id", JStr value)] = Ok (JStr path)
             /\ path = replace (d_endpoint d) "{id}"
                         (if startswith (d_endpoint d) "/competitions/"
                          then competition_id_rule value else value)
             /\ contains "{" path = false).
Proof.
  intros Hin Hv.
  pose proof (competition_id_rule_has_no_brace value Hv) as Hr.
  unfold ENDPOINTS in Hin.
  repeat (destruct Hin as [<- | Hin];
          [split; [reflexivity |];
           first [ left; split; reflexivity
                 | right; split; [reflexivity |]; eexists;
                   split; [apply substitute_id |];
                   split; [reflexivity |];
                   apply filled_placeholder_has_no_brace;
                   [destruct (startswith _ _); assumption | reflexivity] ] |]).
  contradiction.
Qed.

Lemma catalog_paths_are_filled_witness :
  In (nth 5 ENDPOINTS (mkdescriptor "" "" "" [] [])) ENDPOINTS
  /\ contains "{" "Serie A" = false
  /\ substitute_params (JStr "/competitions/{id}/matches") [("id", JStr "Serie A")]
     = Ok (JStr "/competitions/SA/matches").
Proof.
  assert (H : In (nth 5 ENDPOINTS (mkdescriptor "" "" "" [] [])) ENDPOINTS)
    by (apply nth_In; simpl; lia).
  split; [exact H |]. split; [reflexivity |].
  destruct (catalog_paths_are_filled _ "Serie A" H eq_refl)
    as (_ & [(Hp & _) | (_ & path & Hs & -> & _)]).
  - discriminate Hp.
  - exact Hs.
Defined.

(** ** The submit handler *)

Lemma lstrip_blank (s : string) : all_chars is_space s = true -> lstrip s = "".
Proof.
  induction s as [| c s IH]; simpl; [reflexivity |].
  intros H. apply andb_prop in H. destruct H as [Hc Hs]. rewrite Hc. auto.
Qed.

Lemma lstrip_head (s : string) :
  lstrip s = "" \/ exists c r, lstrip s = String c r /\ is_space c = false.
Proof.
  induction s as [| c s IH]; simpl; [auto |].
  destruct (is_space c) eqn:E; [exact IH | right; eauto].
Qed.

Lemma lstrip_empty (s : string) : lstrip s = "" -> all_chars is_space s = true.
Proof.
  induction s as [| c s IH]; simpl; [reflexivity |].
  destruct (is_space c); [exact IH | discriminate].
Qed.

Lemma rstrip_keeps_head (c : ascii) (r : string) :
  is_space c = false -> rstrip (String c r) <> "".
Proof.
  intros H. simpl. destruct (rstrip r); [rewrite H |]; discriminate.
Qed.

Lemma strip_blank_iff (s : string) :
  strip s = "" <-> all_chars is_space s = true.
Proof.
  unfold strip. split.
  - intros H. destruct (lstrip_head s) as [E | (c & r & E & Hc)].
    + apply lstrip_empty; auto.
    + rewrite E in H. exfalso. exact (rstrip_keeps_head c r Hc H).
  - intros H. rewrite (lstrip_blank s H). reflexivity.
Qed.

Lemma parse_date_later (now later : date) (query date_str date_type : string) :
  parse_date_from_query now query = Some (date_str, date_type) ->
  exists date_str',
    parse_date_from_query later query = Some (date_str', date_type)
    /\ (date_type = "specific" \/ later = now -> date_str' = date_str).
Proof.
  unfold parse_date_from_query.
  destruct (first_keyword TIME_KEYWORDS (lower query)) as [[keyword offset] |].
  - intros H; inversion H; subst. eexists. split; [reflexivity |].
    intros [E | ->]; [discriminate | reflexivity].
  - destruct (scan_patterns date_patterns query); [| discriminate].
    intros H; inversion H; subst. eexists. split; [reflexivity | auto].
Qed.

Lemma run_extends {A : Type} (w : world) (p : prog A) :
  forall made, exists extra, fst (run w made p) = (made ++ extra)%list.
Proof.
  induction p as [a | e | r k IH | r k IH]; intros made; cbn [run fst].
  - exists []. rewrite app_nil_r. reflexivity.
  - exists []. rewrite app_nil_r. reflexivity.
  - destruct (IH (on_get w made r) (made ++ [ReqGet r])%list) as (extra & ->).
    exists (ReqGet r :: extra). rewrite <- app_assoc. reflexivity.
  - destruct (IH (on_post w made r) (made ++ [ReqPost r])%list) as (extra & ->).
    exists (ReqPost r :: extra). rewrite <- app_assoc. reflexivity.
Qed.

(** A query of white space only is answered by the warning and no
    request is made.  Any other query is handed to [chatbot_response]
    first: the requests of the handler begin with those of that call, and
    an exception of that call leaves the handler, with no further
    request. *)
Theorem blank_query_is_not_sent
        (json_loads : string -> res json) (w : world) (now later : date) (user_query : string) :
  (all_chars is_space user_query = true ->
   run w [] (submit json_loads now later user_query) = ([], Ok Warning))
  /\ (all_chars is_space user_query = false ->
      exists extra,
        requests_of w (submit json_loads now later user_query)
        = (requests_of w (chatbot_response json_loads now user_query) ++ extra)%list
        /\ forall e,
            outcome w (chatbot_response json_loads now user_query) = Raise e ->
            extra = [] /\ outcome w (submit json_loads now later user_query) = Raise e).
Proof.
  unfold submit. split; intros H.
  - rewrite (proj2 (strip_blank_iff user_query) H). reflexivity.
  - destruct (String.eqb_spec (strip user_query) "") as [E | _];
      [apply strip_blank_iff in E; congruence |].
    unfold requests_of, outcome. rewrite run_pbind.
    destruct (run w [] (chatbot_response json_loads now user_query))
      as [made [response_text | e]]; cbn [fst snd].
    + destruct (run_extends w
                  (match parse_date_from_query later user_query with
                   | Some (date_str, _) =>
                       if String.eqb date_str "" then Ret (Response response_text None)
                       else
                         matches_data <<- get_matches_by_date date_str ;;
                         Ret (Response response_text (Some matches_data))
                   | None => Ret (Response response_text None)
                   end) made) as (extra & E).
      exists extra. split; [exact E | discriminate].
    + exists []. rewrite app_nil_r. split; [reflexivity |].
      intros e' E. injection E as <-. split; reflexivity.
Qed.

Lemma blank_query_is_not_sent_witness :
  (all_chars is_space "   " = true
   /\ run (calm_world "{}") [] (submit loads_examples a_wednesday a_wednesday "   ")
      = ([], Ok Warning))
  /\ (all_chars is_space " Who won? " = false
      /\ exists extra,
          requests_of (calm_world "{}")
            (submit loads_examples a_wednesday a_wednesday " Who won? ")
          = (requests_of (calm_world "{}")
               (chatbot_response loads_examples a_wednesday " Who won? ") ++ extra)%list).
Proof.
  split.
  - split; [reflexivity |].
    exact (proj1 (blank_query_is_not_sent loads_examples (calm_world "{}")
                    a_wednesday a_wednesday "   ") eq_refl).
  - split; [reflexivity |].
    destruct (proj2 (blank_query_is_not_sent loads_examples (calm_world "{}")
                       a_wednesday a_wednesday " Who won? ") eq_refl)
      as (extra & E & _).
    exists extra. exact E.
Defined.

(** For a query that carries a date the handler asks the data provider
    twice for the matches of a date: once inside [chatbot_response] and
    once more for the table, after the narration; the Endpoint Resolver is
    not asked.  The two dates are the same for a date written in the query,
    and for a keyword unless the clock's date has changed in between. *)
Theorem submit_fetches_date_twice
        (json_loads : string -> res json) (w : world) (now later : date)
        (user_query date_str date_type : string) (found : dict) :
  all_chars is_space user_query = false ->
  parse_date_from_query now user_query = Some (date_str, date_type) ->
  date_path_result w user_query date_str date_type = Ok found ->
  exists date_str',
    parse_date_from_query later user_query = Some (date_str', date_type)
    /\ (date_type = "specific" \/ later = now -> date_str' = date_str)
    /\ requests_of w (submit json_loads now later user_query)
       = [ date_fetch date_str; ReqPost (date_narration user_query found);
           date_fetch date_str' ]
    /\ outcome w (submit json_loads now later user_query)
       = (matches_data <-
            fetch_result (on_get w [ date_fetch date_str;
                                     ReqPost (date_narration user_query found) ]
                            (GetMatches date_str')) ;;
          Ok (Response
                (narrated (on_post w [date_fetch date_str]
                             (date_narration user_query found)))
                (Some matches_data))).
Proof.
  intros Hb H D.
  destruct (parse_date_later now later user_query date_str date_type H)
    as (date_str' & H' & Hsame).
  exists date_str'. split; [exact H' |]. split; [exact Hsame |].
  unfold requests_of, outcome, submit.
  destruct (String.eqb_spec (strip user_query) "") as [E | _];
    [apply strip_blank_iff in E; congruence |].
  rewrite run_pbind, (run_chatbot_date json_loads w now user_query date_str date_type H), D.
  rewrite H', (parse_date_nonempty _ _ _ _ H').
  rewrite run_pbind, run_get_matches_exact. cbn [app].
  destruct (fetch_result _); split; reflexivity.
Qed.

Lemma submit_fetches_date_twice_witness :
  all_chars is_space "Did Arsenal play today?" = false
  /\ parse_date_from_query a_wednesday "Did Arsenal play today?" = Some ("2026-11-04", "relative")
  /\ exists prompt,
       requests_of (calm_world "{}")
         (submit loads_examples a_wednesday (mkdate 2026 11 5) "Did Arsenal play today?")
       = [ date_fetch "2026-11-04"; ReqPost (AskNarration prompt); date_fetch "2026-11-05" ].
Proof.
  split; [reflexivity |]. split; [reflexivity |].
  destruct (submit_fetches_date_twice loads_examples (calm_world "{}") a_wednesday
              (mkdate 2026 11 5) "Did Arsenal play today?" "2026-11-04" "relative"
              _ eq_refl eq_refl eq_refl)
    as (date_str' & H' & _ & R & _).
  eexists. rewrite R. injection H' as <-. reflexivity.
Defined.

(** ** The table of matches *)

Lemma display_row_format_match (match_ : json) :
  match format_match match_ with
  | Ok summarized =>
      exists row, display_row match_ = Ok row
                  /\ same_cells row summarized /\ keys_of row = row_keys
  | Raise e => display_row match_ = Raise e
  end.
Proof.
  unfold format_match, display_row.
  repeat match goal with
         | |- context [Json.bind (getitem ?j ?k) _] =>
             destruct (getitem j k); cbn [Json.bind]; [| reflexivity]
         end.
  destruct (score_available match_) as [[|] | e]; cbn [Json.bind]; [| | reflexivity].
  - destruct (full_time match_ "home"); cbn [Json.bind]; [| reflexivity].
    destruct (full_time match_ "away"); cbn [Json.bind]; [| reflexivity].
    eexists. split; [reflexivity |]. split; reflexivity.
  - eexists. split; [reflexivity |]. split; reflexivity.
Qed.

Lemma display_all_format_all (records : list json) :
  match format_all records with
  | Ok summaries =>
      exists rows, display_all records = Ok rows
                   /\ Forall2 same_cells rows summaries
                   /\ Forall (fun row => keys_of row = row_keys) rows
  | Raise e => display_all records = Raise e
  end.
Proof.
  induction records as [| m rest IH]; cbn [format_all display_all].
  - exists []. repeat split; constructor.
  - pose proof (display_row_format_match m) as Hm.
    destruct (format_match m) as [s | e]; cbn [Json.bind].
    + destruct Hm as (row & -> & Hc & Hk). cbn [Json.bind].
      destruct (format_all rest) as [summaries | e]; cbn [Json.bind].
      * destruct IH as (rows & -> & Hcs & Hks). cbn [Json.bind].
        exists (row :: rows). repeat split; constructor; assumption.
      * rewrite IH. reflexivity.
    + rewrite Hm. reflexivity.
Qed.

(** A row of the table carries the values of the summary given to the
    narrator, in the same order, under the keys Competition, Home Team,
    Away Team, Status, Date and Score; a record that cannot be summarized
    cannot be shown either, with the same exception. *)
Theorem table_rows_are_the_summaries (records : list json) :
  (forall e, format_all records = Raise e -> display_all records = Raise e)
  /\ (forall summaries,
        format_all records = Ok summaries ->
        exists rows,
          display_all records = Ok rows
          /\ Forall2 same_cells rows summaries
          /\ Forall (fun row => keys_of row = row_keys) rows).
Proof.
  pose proof (display_all_format_all records) as H.
  split.
  - intros e E. rewrite E in H. exact H.
  - intros summaries E. rewrite E in H. exact H.
Qed.

Lemma table_rows_are_the_summaries_witness :
  format_all [played_match; fixture JNull JNull]
  = Ok (map summary [played_match; fixture JNull JNull])
  /\ exists rows,
      display_all [played_match; fixture JNull JNull] = Ok rows
      /\ Forall2 same_cells rows (map summary [played_match; fixture JNull JNull]).
Proof.
  split; [reflexivity |].
  destruct (proj2 (table_rows_are_the_summaries [played_match; fixture JNull JNull])
              _ eq_refl) as (rows & R & C & _).
  exists rows. split; assumption.
Defined.

Lemma no_rows_object (kv : dict) (matches : json) :
  lookup "matches" kv = Some matches ->
  no_rows (JObj kv) = (n <- py_len matches ;; Ok (n =? 0)).
Proof.
  intros H. unfold no_rows.
  assert (T : truthy (JObj kv) = true) by (destruct kv; [discriminate | reflexivity]).
  rewrite T. cbn [negb]. rewrite has_key. unfold has_path. cbn [get_path].
  unfold getitem. cbn. rewrite H. reflexivity.
Qed.

Lemma unusable_object (kv : dict) (matches : json) :
  lookup "matches" kv = Some matches ->
  unusable (JObj kv)
  = Ok (match lookup "error" kv with Some _ => true | None => false end).
Proof.
  intros H. unfold unusable.
  assert (T : truthy (JObj kv) = true) by (destruct kv; [discriminate | reflexivity]).
  rewrite T. cbn [negb has Json.bind]. rewrite H. reflexivity.
Qed.

(** The table and the summary do not take the same data for empty.
    Data without the key 'matches' (such as the error of the date fetch)
    is empty for both.  A day without matches is empty for the table but
    is summarized as a count of 0.  Data with matches and the key 'error'
    is an error for the summary but is still shown as a table.  Otherwise
    the table has one row per summary. *)
Theorem table_guard_and_summary_guard (kv : dict) :
  (lookup "matches" kv = None ->
   display_rows (JObj kv) = Ok None
   /\ format_matches_data (JObj kv) = Ok no_matches_error)
  /\ (lookup "matches" kv = Some (JArr []) ->
      display_rows (JObj kv) = Ok None
      /\ (lookup "error" kv = None ->
          format_matches_data (JObj kv) = Ok [("matches", JArr []); ("count", JInt 0)]))
  /\ (forall first rest,
        lookup "matches" kv = Some (JArr (first :: rest)) ->
        display_rows (JObj kv) = (rows <- display_all (first :: rest) ;; Ok (Some rows))
        /\ (lookup "error" kv <> None ->
            format_matches_data (JObj kv) = Ok no_matches_error)
        /\ (lookup "error" kv = None ->
            forall formatted,
              format_matches_data (JObj kv) = Ok formatted ->
              exists rows summaries,
                display_rows (JObj kv) = Ok (Some rows)
                /\ formatted = [ ("matches", JArr summaries);
                                 ("count", JInt (Z.of_nat (List.length rows))) ]
                /\ Forall2 same_cells rows summaries)).
Proof.
  split; [| split].
  - intros H. unfold display_rows, no_rows, format_matches_data, unusable.
    destruct (truthy (JObj kv)); cbn [negb Json.bind]; [| split; reflexivity].
    cbn [has]. rewrite H. split; reflexivity.
  - intros H. unfold display_rows. rewrite (no_rows_object kv _ H).
    split; [reflexivity |].
    intros E. unfold format_matches_data.
    rewrite (unusable_object kv _ H), E. cbn [Json.bind getitem]. rewrite H.
    reflexivity.
  - intros first rest H.
    assert (D : display_rows (JObj kv)
                = (rows <- display_all (first :: rest) ;; Ok (Some rows))).
    { unfold display_rows. rewrite (no_rows_object kv _ H).
      cbn [py_len Json.bind List.length]. rewrite Nat2Z.inj_succ.
      destruct (Z.eqb_spec (Z.succ (Z.of_nat (List.length rest))) 0) as [E | _]; [lia |].
      cbn [getitem]. rewrite H. reflexivity. }
    split; [exact D |]. split.
    + intros E. unfold format_matches_data. rewrite (unusable_object kv _ H).
      destruct (lookup "error" kv); [reflexivity | contradiction].
    + intros E formatted F. unfold format_matches_data in F.
      rewrite (unusable_object kv _ H), E in F. cbn [Json.bind getitem iter] in F.
      rewrite H in F. cbn [Json.bind iter] in F.
      pose proof (display_all_format_all (first :: rest)) as R.
      destruct (format_all (first :: rest)) as [summaries | e]; [| discriminate].
      destruct R as (rows & R & C & _).
      exists rows, summaries. rewrite D, R. split; [reflexivity |].
      split; [| exact C].
      cbn [Json.bind] in F. injection F as <-.
      rewrite (Forall2_length C). reflexivity.
Qed.

Lemma table_guard_and_summary_guard_witness :
  (lookup "matches" [("error", JStr "API Error: 429")] = None
   /\ display_rows (JObj [("error", JStr "API Error: 429")]) = Ok None)
  /\ (lookup "matches" [("matches", JArr [])] = Some (JArr [])
      /\ display_rows (JObj [("matches", JArr [])]) = Ok None
      /\ format_matches_data (JObj [("matches", JArr [])])
         = Ok [("matches", JArr []); ("count", JInt 0)])
  /\ (lookup "matches" [("matches", JArr [played_match]); ("error", JNull)]
      = Some (JArr [played_match])
      /\ lookup "error" [("matches", JArr [played_match]); ("error", JNull)] <> None
      /\ format_matches_data (JObj [("matches", JArr [played_match]); ("error", JNull)])
         = Ok no_matches_error
      /\ exists row,
          display_rows (JObj [("matches", JArr [played_match]); ("error", JNull)])
          = Ok (Some [row])).
Proof.
  split; [| split].
  - split; [reflexivity |].
    exact (proj1 (proj1 (table_guard_and_summary_guard
                           [("error", JStr "API Error: 429")]) eq_refl)).
  - split; [reflexivity |].
    destruct (proj1 (proj2 (table_guard_and_summary_guard [("matches", JArr [])])) eq_refl)
      as [D F].
    split; [exact D | exact (F eq_refl)].
  - split; [reflexivity |]. split; [discriminate |].
    destruct (proj2 (proj2 (table_guard_and_summary_guard
                              [("matches", JArr [played_match]); ("error", JNull)]))
                _ _ eq_refl) as (D & F & _).
    split; [apply F; discriminate |].
    eexists. rewrite D. reflexivity.
Defined.
